(** * Ascend student portal: browser client

    A shallow embedding of the profile wizard ([profile_new.js]), the jobs
    browser ([jobs.js]) and the analytics dashboard
    ([analytics_dashboard.js]), with the properties of their specification,
    and of the helpers they share: the session of [utils.js] and the time
    format of [notifications.js].

    Conventions of the embedding:
    - a JavaScript string is a [string]: a sequence of code units below 256;
    - a JavaScript number is kept abstract ([JsNumber]); the integer
      counters of the pages (step, page, editing indices) are [Z];
    - objects are association lists (for the rows of the dashboard, in the
      order of [Object.keys]), arrays are lists that may carry named
      properties next to their elements;
    - module-level variables and the parts of the document a function reads
      or writes form an explicit state, threaded by a state monad whose
      computations either complete or throw;
    - what a handler writes to the console is left out, and so is the
      markup it writes into the document: only the fact that it wrote is
      recorded, as an event. *)

From Stdlib Require Import ZArith String Ascii List Lia DecimalString.
From stdpp Require Import base list strings gmap.

Open Scope string_scope.

(** ** Strings *)

Module Str.

(** White space as [String.prototype.trim] sees it, for code units < 256. *)
Definition is_whitespace (c : ascii) : bool :=
  let n := nat_of_ascii c in
  (((9 <=? n) && (n <=? 13)) || (n =? 32) || (n =? 160))%nat.

Fixpoint trimStart (s : string) : string :=
  match s with
  | "" => ""
  | String c r => if is_whitespace c then trimStart r else s
  end.

Fixpoint trimEnd (s : string) : string :=
  match s with
  | "" => ""
  | String c r =>
      match trimEnd r with
      | "" => if is_whitespace c then "" else String c ""
      | r' => String c r'
      end
  end.

Definition trim (s : string) : string := trimEnd (trimStart s).

(** [s.split(sep)] for a one-character separator. *)
Fixpoint split (sep : ascii) (s : string) : list string :=
  match s with
  | "" => [""]
  | String c r =>
      if Ascii.eqb c sep then "" :: split sep r
      else match split sep r with
           | h :: t => String c h :: t
           | [] => [String c ""]
           end
  end.

(** [a.join(sep)] on an array of strings. *)
Definition join (sep : string) (l : list string) : string := String.concat sep l.

Definition lower_char (c : ascii) : ascii :=
  let n := nat_of_ascii c in
  if (((65 <=? n) && (n <=? 90))
      || ((192 <=? n) && (n <=? 222) && negb (n =? 215)))%nat
  then ascii_of_nat (n + 32) else c.

Fixpoint toLowerCase (s : string) : string :=
  match s with
  | "" => ""
  | String c r => String (lower_char c) (toLowerCase r)
  end.

(** The double-quote character. *)
Definition dquote : ascii := "034"%char.

(** [s.replace(/q/g, qq)] where [q] is the double-quote character. *)
Fixpoint double_quotes (s : string) : string :=
  match s with
  | "" => ""
  | String c r =>
      if Ascii.eqb c dquote then String c (String c (double_quotes r))
      else String c (double_quotes r)
  end.

(** [s.replace('*', '')]: the first occurrence only. *)
Fixpoint remove_first (x : ascii) (s : string) : string :=
  match s with
  | "" => ""
  | String c r => if Ascii.eqb c x then r else String c (remove_first x r)
  end.

(** Truthiness of a string. *)
Definition nonempty (s : string) : bool :=
  match s with "" => false | _ => true end.

(** Decimal rendering of an integer, as a template literal prints it. *)
Definition of_Z (z : Z) : string := NilZero.string_of_int (Z.to_int z).

Fixpoint count (x : ascii) (s : string) : nat :=
  match s with
  | "" => 0%nat
  | String c r => ((if Ascii.eqb c x then 1 else 0) + count x r)%nat
  end.

End Str.

(** ** Values *)

(** Numbers are IEEE doubles in the source; the pages only test them
    against zero, print them and obtain them from [parseInt] and
    [parseFloat], so they are kept abstract. *)
Class JsNumber := {
  number : Type;
  num_of_Z : Z -> number;
  num_is_zero : number -> bool;
  num_is_nan : number -> bool;
  num_to_string : number -> string;
  parseInt : string -> number;
  parseFloat : string -> number;
  (** [NaN], and [Number(s)] for a string *)
  num_nan : number;
  num_of_string : string -> number;
  (** how many integers [0 <= i] satisfy [i < n] *)
  num_count : number -> nat;
  num_of_Z_is_zero : forall z, num_is_zero (num_of_Z z) = (z =? 0)%Z;
  num_of_Z_count : forall z, num_count (num_of_Z z) = Z.to_nat z
}.

Module Js.
Section Values.
Context `{JsNumber}.

#[warnings="-register-all"]
Inductive jsval : Type :=
| JUndef
| JNull
| JBool (b : bool)
| JNum (n : number)
| JStr (s : string)
| JArr (items : list jsval) (props : list (string * jsval))
| JObj (fields : list (string * jsval)).

Definition fields_t := list (string * jsval).

(** A fresh array literal. *)
Definition arr (items : list jsval) : jsval := JArr items [].

Definition truthy (v : jsval) : bool :=
  match v with
  | JUndef | JNull => false
  | JBool b => b
  | JNum n => negb (num_is_zero n || num_is_nan n)
  | JStr s => Str.nonempty s
  | JArr _ _ | JObj _ => true
  end.

Definition typeof (v : jsval) : string :=
  match v with
  | JUndef => "undefined"
  | JBool _ => "boolean"
  | JNum _ => "number"
  | JStr _ => "string"
  | JNull | JArr _ _ | JObj _ => "object"
  end.

Definition isArray (v : jsval) : bool :=
  match v with JArr _ _ => true | _ => false end.

Fixpoint lookup_field (k : string) (fs : fields_t) : jsval :=
  match fs with
  | [] => JUndef
  | (k', v) :: r => if String.eqb k' k then v else lookup_field k r
  end.

(** Assignment to a property keeps the position of an existing key and
    appends a new one. *)
Fixpoint update_field (k : string) (v : jsval) (fs : fields_t) : fields_t :=
  match fs with
  | [] => [(k, v)]
  | (k', v') :: r =>
      if String.eqb k' k then (k, v) :: r else (k', v') :: update_field k v r
  end.

(** [v.k] for a property name [k] that is not an array index; [None] is the
    [TypeError] of reading a property of [null] or [undefined]. *)
Definition get_prop (v : jsval) (k : string) : option jsval :=
  match v with
  | JUndef | JNull => None
  | JObj fs => Some (lookup_field k fs)
  | JArr items props =>
      Some (if String.eqb k "length" then JNum (num_of_Z (Z.of_nat (length items)))
            else lookup_field k props)
  | JStr s =>
      Some (if String.eqb k "length" then JNum (num_of_Z (Z.of_nat (String.length s)))
            else JUndef)
  | JBool _ | JNum _ => Some JUndef
  end.

(** [v.k = x] in a classic (non-strict) script: a [TypeError] on [null] and
    [undefined], silently ignored on the other primitives. *)
Definition set_prop (v : jsval) (k : string) (x : jsval) : option jsval :=
  match v with
  | JUndef | JNull => None
  | JObj fs => Some (JObj (update_field k x fs))
  | JArr items props => Some (JArr items (update_field k x props))
  | JBool _ | JNum _ | JStr _ => Some v
  end.

(** [v[i]] for an index [i]. *)
Definition get_index (v : jsval) (i : nat) : option jsval :=
  match v with
  | JUndef | JNull => None
  | JArr items _ => Some (default JUndef (items !! i))
  | JObj fs => Some (lookup_field (Str.of_Z (Z.of_nat i)) fs)
  | JStr s =>
      Some (match String.get i s with Some c => JStr (String c "") | None => JUndef end)
  | JBool _ | JNum _ => Some JUndef
  end.

(** [x === 0] *)
Definition is_zero (v : jsval) : bool :=
  match v with JNum n => num_is_zero n | _ => false end.

(** [String(v)], also the conversion of a template literal *)
Fixpoint ToString (v : jsval) : string :=
  match v with
  | JUndef => "undefined"
  | JNull => "null"
  | JBool b => if b then "true" else "false"
  | JNum n => num_to_string n
  | JStr s => s
  | JArr items _ =>
      Str.join ","
        (map (fun x => match x with JUndef | JNull => "" | _ => ToString x end) items)
  | JObj _ => "[object Object]"
  end.

(** [Number(v)], the conversion applied by a comparison with a number *)
Definition ToNumber (v : jsval) : number :=
  match v with
  | JUndef => num_nan
  | JNull => num_of_Z 0
  | JBool b => num_of_Z (if b then 1 else 0)
  | JNum n => n
  | JStr s => num_of_string s
  | JArr _ _ | JObj _ => num_of_string (ToString v)
  end.

(** Objects and arrays hold named properties; the other values do not. *)
Definition container (v : jsval) : bool :=
  match v with JObj _ | JArr _ _ => true | _ => false end.

Definition named (v : jsval) : fields_t :=
  match v with JObj fs => fs | JArr _ props => props | _ => [] end.

Definition rename (v : jsval) (fs : fields_t) : jsval :=
  match v with
  | JObj _ => JObj fs
  | JArr items _ => JArr items fs
  | _ => v
  end.

Definition keys (v : jsval) : list string := fst <$> named v.

Definition hasKey (k : string) (v : jsval) : bool :=
  existsb (String.eqb k) (keys v).

(** Whether [v.k] is an array. *)
Definition hasArray (k : string) (v : jsval) : bool :=
  match get_prop v k with Some a => isArray a | None => false end.

(** [a[i] = x] on an array: in range it overwrites, beyond the end the
    array grows and the skipped positions read as [undefined]. *)
Definition array_set (items : list jsval) (i : nat) (x : jsval) : list jsval :=
  if decide (i < length items)%nat then <[i := x]> items
  else items ++ replicate (i - length items) JUndef ++ [x].

(** [a.splice(start, 1)] on the elements of an array, for an integer
    [start]: a negative start counts from the end. *)
Definition splice1 (items : list jsval) (start : Z) : list jsval :=
  let n := Z.of_nat (length items) in
  let s := if (start <? 0)%Z then Z.max (n + start) 0 else Z.min start n in
  delete (Z.to_nat s) items.

End Values.
End Js.

Export Js.

(** ** Completions and the state monad of a page *)

Inductive outcome (A : Type) : Type :=
| Normal (a : A)
| TypeError.
Arguments Normal {A} a.
Arguments TypeError {A}.

Definition comp (S A : Type) : Type := S -> S * outcome A.

Definition comp_ret {S A} (a : A) : comp S A := fun s => (s, Normal a).

Definition comp_bind {S A B} (f : A -> comp S B) (m : comp S A) : comp S B :=
  fun s =>
    match m s with
    | (s', Normal a) => f a s'
    | (s', TypeError) => (s', TypeError)
    end.

#[global] Instance comp_mret S : MRet (comp S) := @comp_ret S.
#[global] Instance comp_mbind S : MBind (comp S) := @comp_bind S.

Definition throw {S A} : comp S A := fun s => (s, TypeError).
Definition gets {S A} (f : S -> A) : comp S A := fun s => (s, Normal (f s)).
Definition modify {S} (f : S -> S) : comp S unit := fun s => (f s, Normal tt).

(** A partial host operation: [None] is a thrown [TypeError]. *)
Definition lift {S A} (o : option A) : comp S A :=
  match o with Some a => comp_ret a | None => throw end.

Definition state_of {S A} (r : S * outcome A) : S := fst r.
Definition completed {S A} (r : S * outcome A) : bool :=
  match snd r with Normal _ => true | TypeError => false end.

(** ** profile_new.js: the profile wizard *)

(** The template of the profile page is not part of the scripts: what the
    scripts ask of it is taken as given. *)
Class Template := {
  (** names of the [required] controls of the step content, in document order *)
  requiredInputs : Z -> list string;
  (** text of the element just before a control, when there is one *)
  labelBefore : string -> option string;
  (** names of the controls a form resets, and their initial state *)
  formControls : string -> list string;
  defaultValue : string -> string;
  defaultChecked : string -> bool
}.

Module Profile.
Section Wizard.
Context `{JsNumber} `{Template}.

(** What a handler does to the document, apart from the state below. The
    markup written into a container is not modelled. *)
Inductive ui_event : Type :=
| Notify (message type : string)
| SetInnerHTML (id : string)
| SetText (id text : string)
| Focus (name : string)
| Progress (step : Z)
| ScrollTop.

Record page : Type := Page {
  currentStep : Z;
  profileData : jsval;
  editingEducation : Z;
  editingSkill : Z;
  editingExperience : Z;
  editingProject : Z;
  editingCertification : Z;
  (** [value] of the control with a given name *)
  inputs : string -> string;
  (** [checked] of the check box with a given name *)
  checked : string -> bool;
  (** whether the element with a given id carries the class [hidden] *)
  hidden : string -> bool;
  events : list ui_event
}.

Definition totalSteps : Z := 5.

Definition set_currentStep (z : Z) (p : page) : page :=
  Page z (profileData p) (editingEducation p) (editingSkill p)
    (editingExperience p) (editingProject p) (editingCertification p)
    (inputs p) (checked p) (hidden p) (events p).
Definition set_profileData (d : jsval) (p : page) : page :=
  Page (currentStep p) d (editingEducation p) (editingSkill p)
    (editingExperience p) (editingProject p) (editingCertification p)
    (inputs p) (checked p) (hidden p) (events p).
Definition set_editingEducation (z : Z) (p : page) : page :=
  Page (currentStep p) (profileData p) z (editingSkill p)
    (editingExperience p) (editingProject p) (editingCertification p)
    (inputs p) (checked p) (hidden p) (events p).
Definition set_editingSkill (z : Z) (p : page) : page :=
  Page (currentStep p) (profileData p) (editingEducation p) z
    (editingExperience p) (editingProject p) (editingCertification p)
    (inputs p) (checked p) (hidden p) (events p).
Definition set_editingExperience (z : Z) (p : page) : page :=
  Page (currentStep p) (profileData p) (editingEducation p) (editingSkill p)
    z (editingProject p) (editingCertification p)
    (inputs p) (checked p) (hidden p) (events p).
Definition set_editingProject (z : Z) (p : page) : page :=
  Page (currentStep p) (profileData p) (editingEducation p) (editingSkill p)
    (editingExperience p) z (editingCertification p)
    (inputs p) (checked p) (hidden p) (events p).
Definition set_editingCertification (z : Z) (p : page) : page :=
  Page (currentStep p) (profileData p) (editingEducation p) (editingSkill p)
    (editingExperience p) (editingProject p) z
    (inputs p) (checked p) (hidden p) (events p).
Definition set_inputs (f : string -> string) (p : page) : page :=
  Page (currentStep p) (profileData p) (editingEducation p) (editingSkill p)
    (editingExperience p) (editingProject p) (editingCertification p)
    f (checked p) (hidden p) (events p).
Definition set_checked (f : string -> bool) (p : page) : page :=
  Page (currentStep p) (profileData p) (editingEducation p) (editingSkill p)
    (editingExperience p) (editingProject p) (editingCertification p)
    (inputs p) f (hidden p) (events p).
Definition set_hidden (f : string -> bool) (p : page) : page :=
  Page (currentStep p) (profileData p) (editingEducation p) (editingSkill p)
    (editingExperience p) (editingProject p) (editingCertification p)
    (inputs p) (checked p) f (events p).
Definition set_events (l : list ui_event) (p : page) : page :=
  Page (currentStep p) (profileData p) (editingEducation p) (editingSkill p)
    (editingExperience p) (editingProject p) (editingCertification p)
    (inputs p) (checked p) (hidden p) l.

Abbreviation M := (comp page).

Definition emit (e : ui_event) : M unit :=
  modify (fun p => set_events (events p ++ [e]) p).

(** [utils.js]: the message goes to the console (and to an alert for the
    type [error]). *)
Definition showNotification (message type : string) : M unit :=
  emit (Notify message type).

(** [el.classList.add('hidden')] and [el.classList.remove('hidden')] *)
Definition setHidden (id : string) (b : bool) : M unit :=
  modify (fun p =>
    set_hidden (fun id' => if String.eqb id' id then b else hidden p id') p).

(** [document.querySelector('[name=...]').value] *)
Definition inputValue (name : string) : M string :=
  gets (fun p => inputs p name).

(** [form.reset()] *)
Definition resetForm (id : string) : M unit :=
  modify (fun p =>
    let mine name := existsb (String.eqb name) (formControls id) in
    set_checked (fun n => if mine n then defaultChecked n else checked p n)
      (set_inputs (fun n => if mine n then defaultValue n else inputs p n) p)).

(** [profileData.k] and [profileData.k = v] *)
Definition readProfile (k : string) : M jsval :=
  d ← gets profileData; lift (get_prop d k).

Definition writeProfile (k : string) (v : jsval) : M unit :=
  d ← gets profileData;
  d' ← lift (set_prop d k v);
  modify (set_profileData d').

(** [profileData.k1.k2] and [profileData.k1.k2 = v]: the object held by
    [k1] is changed in place. *)
Definition readProfile2 (k1 k2 : string) : M jsval :=
  o ← readProfile k1; lift (get_prop o k2).

Definition writeProfile2 (k1 k2 : string) (v : jsval) : M unit :=
  o ← readProfile k1;
  o' ← lift (set_prop o k2 v);
  writeProfile k1 o'.

(** *** Sanitization *)

(** [if (!Array.isArray(profileData.k)) profileData.k = []] *)
Definition ensureArray (k : string) : M unit :=
  v ← readProfile k;
  if negb (isArray v) then writeProfile k (arr []) else mret tt.

(** [if (!Array.isArray(profileData.k1.k2)) profileData.k1.k2 = []] *)
Definition ensureArrayIn (k1 k2 : string) : M unit :=
  v ← readProfile2 k1 k2;
  if negb (isArray v) then writeProfile2 k1 k2 (arr []) else mret tt.

Definition defaultPreferences : jsval :=
  JObj [("employment_type", arr []); ("work_mode", arr []);
        ("preferred_roles", JNull); ("preferred_industries", JNull);
        ("expected_salary", JNull); ("willing_to_relocate", JNull);
        ("notice_period", JNull); ("availability_date", JNull);
        ("preferred_locations", JNull)].

Definition defaultLinks : jsval :=
  JObj [("linkedin", JNull); ("github", JNull); ("portfolio", JNull);
        ("resume_link", JNull); ("twitter", JNull); ("leetcode", JNull)].

(** [s.split(',').map(s => s.trim()).filter(s => s)] *)
Definition splitTags (s : string) : list string :=
  List.filter Str.nonempty (map Str.trim (Str.split ","%char s)).

(** The callback of [profileData.projects.map]: it repairs [tech_stack] on
    the project itself and returns the project. *)
Definition fixTechStack (proj : jsval) : option jsval :=
  ts ← get_prop proj "tech_stack";
  match ts with
  | JStr s => set_prop proj "tech_stack" (arr (JStr <$> splitTags s))
  | _ => if negb (isArray ts) then set_prop proj "tech_stack" (arr [])
         else Some proj
  end.

(** The traversal of [map]: the projects already visited stay repaired
    when a later one throws; the flag tells whether the traversal
    completed. *)
Fixpoint mapProjects (items : list jsval) : list jsval * bool :=
  match items with
  | [] => ([], true)
  | proj :: rest =>
      match fixTechStack proj with
      | None => (proj :: rest, false)
      | Some proj' =>
          let '(rest', ok) := mapProjects rest in (proj' :: rest', ok)
      end
  end.

(** "Ensure all arrays are actually arrays" *)
Definition sanitizeCollections : M unit :=
  ensureArray "education";;
  ensureArray "skills";;
  ensureArray "experience";;
  ensureArray "projects";;
  ensureArray "certifications".

(** [!v || typeof v !== 'object'] *)
Definition notAnObject (v : jsval) : bool :=
  negb (truthy v) || negb (String.eqb (typeof v) "object").

(** "Ensure preferences is an object" *)
Definition sanitizePreferences : M unit :=
  preferences ← readProfile "preferences";
  if notAnObject preferences
  then writeProfile "preferences" defaultPreferences
  else
    ensureArrayIn "preferences" "employment_type";;
    ensureArrayIn "preferences" "work_mode".

(** "Ensure links is an object" *)
Definition sanitizeLinks : M unit :=
  links ← readProfile "links";
  if notAnObject links
  then writeProfile "links" defaultLinks
  else mret tt.

(** "Fix tech_stack in projects if it's a string": [map] builds a new
    array from the repaired projects; when the callback throws the old
    array stays, with the projects repaired so far. *)
Definition sanitizeProjects : M unit :=
  projects ← readProfile "projects";
  match projects with
  | JArr items props =>
      let '(items', ok) := mapProjects items in
      if ok then writeProfile "projects" (arr items')
      else writeProfile "projects" (JArr items' props);; throw
  | _ => mret tt
  end.

Definition sanitizeProfileData : M unit :=
  sanitizeCollections;;
  sanitizePreferences;;
  sanitizeLinks;;
  sanitizeProjects.

(** *** Wizard navigation *)

Definition updateProgress : M unit :=
  step ← gets currentStep; emit (Progress step).

Definition showWizardView : M unit :=
  setHidden "wizardView" false;;
  setHidden "resumeView" true;;
  modify (set_currentStep 1);;
  updateProgress.

Definition scrollToTop : M unit := emit ScrollTop.

(** The label named in the warning of a blank required control. *)
Definition labelOf (name : string) : string :=
  match labelBefore name with
  | Some text =>
      let l := Str.trim (Str.remove_first "*"%char text) in
      if Str.nonempty l then l else "This field"
  | None => "This field"
  end.

(** The loop over the required controls: the first blank one is reported
    and focused. *)
Fixpoint checkRequired (names : list string) : M bool :=
  match names with
  | [] => mret true
  | name :: rest =>
      value ← inputValue name;
      if negb (Str.nonempty (Str.trim value))
      then showNotification ("Please fill in: " +:+ labelOf name) "warning";;
           emit (Focus name);;
           mret false
      else checkRequired rest
  end.

(** [profileData.k.length === 0] *)
Definition isEmptyCollection (k : string) : M bool :=
  c ← readProfile k;
  n ← lift (get_prop c "length");
  mret (is_zero n).

Definition validateStep (step : Z) : M bool :=
  filled ← checkRequired (requiredInputs step);
  if negb filled then comp_ret false else
  noEducation ←
    (if (step =? 2)%Z then isEmptyCollection "education" else comp_ret false);
  if (noEducation : bool)
  then showNotification "Please add at least one education entry" "warning";;
       mret false
  else
  noSkills ←
    (if (step =? 3)%Z then isEmptyCollection "skills" else comp_ret false);
  if (noSkills : bool)
  then showNotification "Please add at least one skill" "warning";;
       mret false
  else mret true.

Definition nextStep : M unit :=
  step ← gets currentStep;
  valid ← validateStep step;
  if negb valid then comp_ret tt else
  step ← gets currentStep;
  if (step <? totalSteps)%Z
  then modify (set_currentStep (step + 1));; updateProgress;; scrollToTop
  else mret tt.

Definition prevStep : M unit :=
  step ← gets currentStep;
  if (step >? 1)%Z
  then modify (set_currentStep (step - 1));; updateProgress;; scrollToTop
  else mret tt.

(** *** Sub-collection editors *)

(** [profileData.k.push(x)] *)
Definition pushProfile (k : string) (x : jsval) : M unit :=
  c ← readProfile k;
  match c with
  | JArr items props => writeProfile k (JArr (items ++ [x]) props)
  | _ => throw
  end.

(** [profileData.k[i] = x], reached with [0 <= i] only. *)
Definition assignProfileIndex (k : string) (i : Z) (x : jsval) : M unit :=
  c ← readProfile k;
  match c with
  | JArr items props =>
      writeProfile k (JArr (array_set items (Z.to_nat i) x) props)
  | _ => c' ← lift (set_prop c (Str.of_Z i) x); writeProfile k c'
  end.

(** [if (editing >= 0) { profileData.k[editing] = entry; }
     else { profileData.k.push(entry); }] *)
Definition storeEntry (k : string) (editing : Z) (entry : jsval) : M unit :=
  if (editing >=? 0)%Z then assignProfileIndex k editing entry
  else pushProfile k entry.

(** [profileData.k.splice(i, 1)] *)
Definition spliceProfile (k : string) (i : Z) : M unit :=
  c ← readProfile k;
  match c with
  | JArr items props => writeProfile k (JArr (splice1 items i) props)
  | _ => throw
  end.

(** [(v && v.trim()) ? v.trim() : null] *)
Definition orNull (v : string) : jsval :=
  if Str.nonempty v && Str.nonempty (Str.trim v) then JStr (Str.trim v)
  else JNull.

Definition isNullish (v : jsval) : bool :=
  match v with JUndef | JNull => true | _ => false end.

(** Whether the item template of a list evaluates on an entry: every
    template reads properties of the entry, and those of experiences and
    projects call [substring] on its description. *)
Definition rendersPlain (entry : jsval) : bool := negb (isNullish entry).

Definition rendersDescribed (entry : jsval) : bool :=
  match get_prop entry "description" with
  | Some (JStr _) => true
  | _ => false
  end.

(** The common shape of the five [render...List] functions. *)
Definition renderList (id k : string) (renders : jsval -> bool) : M unit :=
  empty ← isEmptyCollection k;
  if (empty : bool) then emit (SetInnerHTML id) else
  c ← readProfile k;
  match c with
  | JArr items _ =>
      if forallb renders items then emit (SetInnerHTML id) else throw
  | _ => throw
  end.

Definition renderEducationList : M unit :=
  renderList "educationList" "education" rendersPlain.
Definition renderSkillsList : M unit :=
  renderList "skillsList" "skills" rendersPlain.
Definition renderExperienceList : M unit :=
  renderList "experienceList" "experience" rendersDescribed.
Definition renderProjectsList : M unit :=
  renderList "projectsList" "projects" rendersDescribed.
Definition renderCertificationsList : M unit :=
  renderList "certificationsList" "certifications" rendersPlain.

(** **** Education *)

Definition openEducationForm : M unit :=
  modify (set_editingEducation (-1));;
  resetForm "educationForm";;
  setHidden "educationModal" false;;
  emit (SetText "educationModalTitle" "Add Education");;
  emit (SetText "saveEducationBtn" "Add Education").

Definition closeEducationModal : M unit :=
  setHidden "educationModal" true;;
  modify (set_editingEducation (-1)).

Definition educationEntry (p : page) : jsval :=
  JObj [("level", JStr (inputs p "edu_level"));
        ("board_university", JStr (inputs p "edu_board_university"));
        ("school_college", JStr (inputs p "edu_school_college"));
        ("year", JNum (parseInt (inputs p "edu_year")));
        ("percentage_cgpa", JNum (parseFloat (inputs p "edu_percentage_cgpa")));
        ("degree", orNull (inputs p "edu_degree"));
        ("branch", orNull (inputs p "edu_branch"))].

Definition saveEducationEntry : M unit :=
  education ← gets educationEntry;
  editing ← gets editingEducation;
  storeEntry "education" editing education;;
  renderEducationList;;
  closeEducationModal;;
  showNotification "Education entry saved" "success".

Definition deleteEducation (index : Z) (confirmed : bool) : M unit :=
  if confirmed
  then spliceProfile "education" index;;
       renderEducationList;;
       showNotification "Education entry deleted" "success"
  else mret tt.

(** **** Skills *)

Definition openSkillForm : M unit :=
  modify (set_editingSkill (-1));;
  resetForm "skillForm";;
  setHidden "skillModal" false;;
  emit (SetText "skillModalTitle" "Add Skill");;
  emit (SetText "saveSkillBtn" "Add Skill").

Definition closeSkillModal : M unit :=
  setHidden "skillModal" true;;
  modify (set_editingSkill (-1)).

Definition skillEntry (p : page) : jsval :=
  JObj [("name", JStr (Str.trim (inputs p "skill_name")));
        ("proficiency", JStr (inputs p "skill_proficiency"));
        ("category", orNull (inputs p "skill_category"))].

Definition saveSkillEntry : M unit :=
  skill ← gets skillEntry;
  editing ← gets editingSkill;
  storeEntry "skills" editing skill;;
  renderSkillsList;;
  closeSkillModal;;
  showNotification "Skill saved" "success".

Definition deleteSkill (index : Z) (confirmed : bool) : M unit :=
  if confirmed
  then spliceProfile "skills" index;;
       renderSkillsList;;
       showNotification "Skill deleted" "success"
  else mret tt.

(** **** Experience *)

Definition openExperienceForm : M unit :=
  modify (set_editingExperience (-1));;
  resetForm "experienceForm";;
  setHidden "experienceModal" false;;
  emit (SetText "experienceModalTitle" "Add Experience");;
  emit (SetText "saveExperienceBtn" "Add Experience").

Definition closeExperienceModal : M unit :=
  setHidden "experienceModal" true;;
  modify (set_editingExperience (-1)).

Definition experienceEntry (p : page) : jsval :=
  JObj [("company", JStr (Str.trim (inputs p "exp_company")));
        ("role", JStr (Str.trim (inputs p "exp_role")));
        ("start_date", JStr (Str.trim (inputs p "exp_start_date")));
        ("end_date", orNull (inputs p "exp_end_date"));
        ("is_current", JBool (checked p "exp_is_current"));
        ("description", JStr (Str.trim (inputs p "exp_description")));
        ("location", orNull (inputs p "exp_location"))].

Definition saveExperienceEntry : M unit :=
  experience ← gets experienceEntry;
  editing ← gets editingExperience;
  storeEntry "experience" editing experience;;
  renderExperienceList;;
  closeExperienceModal;;
  showNotification "Experience saved" "success".

Definition deleteExperience (index : Z) (confirmed : bool) : M unit :=
  if confirmed
  then spliceProfile "experience" index;;
       renderExperienceList;;
       showNotification "Experience deleted" "success"
  else mret tt.

(** **** Projects *)

Definition openProjectForm : M unit :=
  modify (set_editingProject (-1));;
  resetForm "projectForm";;
  setHidden "projectModal" false;;
  emit (SetText "projectModalTitle" "Add Project");;
  emit (SetText "saveProjectBtn" "Add Project").

Definition closeProjectModal : M unit :=
  setHidden "projectModal" true;;
  modify (set_editingProject (-1)).

Definition projectEntry (tech_stack : list string) (p : page) : jsval :=
  JObj [("title", JStr (Str.trim (inputs p "proj_title")));
        ("description", JStr (Str.trim (inputs p "proj_description")));
        ("tech_stack", arr (JStr <$> tech_stack));
        ("link", orNull (inputs p "proj_link"));
        ("github_link", orNull (inputs p "proj_github_link"));
        ("start_date", orNull (inputs p "proj_start_date"));
        ("end_date", orNull (inputs p "proj_end_date"))].

Definition saveProjectEntry : M unit :=
  techStackInput ← inputValue "proj_tech_stack";
  let tech_stack := splitTags techStackInput in
  if (length tech_stack =? 0)%nat
  then showNotification "Please add at least one technology in Tech Stack" "warning"
  else
    project ← gets (projectEntry tech_stack);
    editing ← gets editingProject;
    storeEntry "projects" editing project;;
    renderProjectsList;;
    closeProjectModal;;
    showNotification "Project saved" "success".

Definition deleteProject (index : Z) (confirmed : bool) : M unit :=
  if confirmed
  then spliceProfile "projects" index;;
       renderProjectsList;;
       showNotification "Project deleted" "success"
  else mret tt.

(** **** Certifications *)

Definition openCertificationForm : M unit :=
  modify (set_editingCertification (-1));;
  resetForm "certificationForm";;
  setHidden "certificationModal" false;;
  emit (SetText "certificationModalTitle" "Add Certification");;
  emit (SetText "saveCertificationBtn" "Add Certification").

Definition closeCertificationModal : M unit :=
  setHidden "certificationModal" true;;
  modify (set_editingCertification (-1)).

Definition certificationEntry (p : page) : jsval :=
  JObj [("name", JStr (Str.trim (inputs p "cert_name")));
        ("issuer", JStr (Str.trim (inputs p "cert_issuer")));
        ("issue_date", JStr (Str.trim (inputs p "cert_issue_date")));
        ("expiry_date", orNull (inputs p "cert_expiry_date"));
        ("credential_id", orNull (inputs p "cert_credential_id"));
        ("credential_url", orNull (inputs p "cert_credential_url"))].

Definition saveCertificationEntry : M unit :=
  certification ← gets certificationEntry;
  editing ← gets editingCertification;
  storeEntry "certifications" editing certification;;
  renderCertificationsList;;
  closeCertificationModal;;
  showNotification "Certification saved" "success".

Definition deleteCertification (index : Z) (confirmed : bool) : M unit :=
  if confirmed
  then spliceProfile "certifications" index;;
       renderCertificationsList;;
       showNotification "Certification deleted" "success"
  else mret tt.

(** *** The initial draft and the shapes sanitization is after *)

Definition initialProfileData : jsval :=
  JObj [("full_name", JStr ""); ("phone", JStr ""); ("location", JStr "");
        ("gender", JStr ""); ("date_of_birth", JNull);
        ("education", arr []); ("skills", arr []); ("experience", arr []);
        ("projects", arr []); ("certifications", arr []);
        ("preferences", JObj []); ("links", JObj []);
        ("summary", JStr ""); ("domain_expertise", JStr "");
        ("languages", JStr ""); ("achievements", JStr "");
        ("total_experience_years", JNum (num_of_Z 0));
        ("current_role", JStr "Student"); ("current_company", JStr "")].

(** The page as the script leaves it when loaded, over a given document. *)
Definition initialPage (values : string -> string) (checks hiddens : string -> bool) : page :=
  Page 1 initialProfileData (-1) (-1) (-1) (-1) (-1) values checks hiddens [].

Definition preferencesKeys : list string :=
  ["employment_type"; "work_mode"; "preferred_roles"; "preferred_industries";
   "expected_salary"; "willing_to_relocate"; "notice_period";
   "availability_date"; "preferred_locations"].

Definition linksKeys : list string :=
  ["linkedin"; "github"; "portfolio"; "resume_link"; "twitter"; "leetcode"].

Definition preferencesOK (v : jsval) : bool :=
  container v && hasArray "employment_type" v && hasArray "work_mode" v.

Definition projectsOK (v : jsval) : bool :=
  match v with
  | JArr items [] => forallb (hasArray "tech_stack") items
  | _ => false
  end.

(** What sanitization does to the named properties of a draft that is an
    object: each field it visits is replaced by its normal form. *)
Definition normField (k : string) (n : jsval -> jsval) (fs : fields_t) : fields_t :=
  update_field k (n (lookup_field k fs)) fs.

Definition normArray (v : jsval) : jsval := if isArray v then v else arr [].

Definition ensureIn (k : string) (v : jsval) : jsval :=
  rename v (normField k normArray (named v)).

Definition normPreferences (v : jsval) : jsval :=
  if container v then ensureIn "work_mode" (ensureIn "employment_type" v)
  else defaultPreferences.

Definition normLinks (v : jsval) : jsval :=
  if container v then v else defaultLinks.

Definition normProjects (v : jsval) : jsval :=
  match v with
  | JArr items props =>
      let '(items', ok) := mapProjects items in
      if ok then arr items' else JArr items' props
  | _ => v
  end.

Definition projectsComplete (v : jsval) : bool :=
  match v with
  | JArr items _ => snd (mapProjects items)
  | _ => true
  end.

Definition collectionsFields (fs : fields_t) : fields_t :=
  normField "certifications" normArray
    (normField "projects" normArray
       (normField "experience" normArray
          (normField "skills" normArray
             (normField "education" normArray fs)))).

Definition recordsFields (fs : fields_t) : fields_t :=
  normField "links" normLinks
    (normField "preferences" normPreferences (collectionsFields fs)).

Definition sanitizeFields (fs : fields_t) : fields_t :=
  normField "projects" normProjects (recordsFields fs).

(** The page [p] with [fs] for the named properties of its draft. *)
Definition on_fields (p : page) (fs : fields_t) : page :=
  set_profileData (rename (profileData p) fs) p.

Definition collectionKey (k : string) : bool :=
  existsb (String.eqb k) ["education"; "skills"; "experience"; "certifications"].

(** The fields sanitization is after, all in normal form. *)
Definition sanitized (gs : fields_t) : Prop :=
  (forall k, collectionKey k = true -> isArray (lookup_field k gs) = true) /\
  isArray (lookup_field "projects" gs) = true /\
  normProjects (lookup_field "projects" gs) = lookup_field "projects" gs /\
  preferencesOK (lookup_field "preferences" gs) = true /\
  container (lookup_field "links" gs) = true.

(** The field [k] of the draft of a page. *)
Definition draftField (k : string) (p : page) : jsval :=
  default JUndef (get_prop (profileData p) k).

(** Whether the field [k] of the draft holds a non-empty array. *)
Definition collectionNonEmpty (k : string) (p : page) : bool :=
  match draftField k p with JArr (_ :: _) _ => true | _ => false end.

(** The condition of the specification for leaving the current step: every
    required control of the step is non-empty and, on the education and the
    skills step, the collection of the step is non-empty. *)
Definition mayAdvance (p : page) : bool :=
  forallb (fun name => Str.nonempty (inputs p name)) (requiredInputs (currentStep p))
  && (if (currentStep p =? 2)%Z then collectionNonEmpty "education" p else true)
  && (if (currentStep p =? 3)%Z then collectionNonEmpty "skills" p else true).

(** A warning is among the events [p'] has after those of [p]. *)
Definition warned (p p' : page) : Prop :=
  exists message rest,
    events p' = (events p ++ Notify message "warning" :: rest)%list.

(** A required control that validation reports. *)
Definition blank (p : page) (name : string) : bool :=
  negb (Str.nonempty (Str.trim (inputs p name))).

(** *** The five editors, by name *)

Inductive editor : Type :=
| Education | Skills | Experience | Projects | Certifications.

Definition key (e : editor) : string :=
  match e with
  | Education => "education"
  | Skills => "skills"
  | Experience => "experience"
  | Projects => "projects"
  | Certifications => "certifications"
  end.

Definition sentinel (e : editor) : page -> Z :=
  match e with
  | Education => editingEducation
  | Skills => editingSkill
  | Experience => editingExperience
  | Projects => editingProject
  | Certifications => editingCertification
  end.

Definition modal (e : editor) : string :=
  match e with
  | Education => "educationModal"
  | Skills => "skillModal"
  | Experience => "experienceModal"
  | Projects => "projectModal"
  | Certifications => "certificationModal"
  end.

Definition openForm (e : editor) : M unit :=
  match e with
  | Education => openEducationForm
  | Skills => openSkillForm
  | Experience => openExperienceForm
  | Projects => openProjectForm
  | Certifications => openCertificationForm
  end.

Definition closeModal (e : editor) : M unit :=
  match e with
  | Education => closeEducationModal
  | Skills => closeSkillModal
  | Experience => closeExperienceModal
  | Projects => closeProjectModal
  | Certifications => closeCertificationModal
  end.

Definition saveEntry (e : editor) : M unit :=
  match e with
  | Education => saveEducationEntry
  | Skills => saveSkillEntry
  | Experience => saveExperienceEntry
  | Projects => saveProjectEntry
  | Certifications => saveCertificationEntry
  end.

Definition deleteEntry (e : editor) : Z -> bool -> M unit :=
  match e with
  | Education => deleteEducation
  | Skills => deleteSkill
  | Experience => deleteExperience
  | Projects => deleteProject
  | Certifications => deleteCertification
  end.

(** The record a save builds from the form. *)
Definition submitted (e : editor) (p : page) : jsval :=
  match e with
  | Education => educationEntry p
  | Skills => skillEntry p
  | Experience => experienceEntry p
  | Projects => projectEntry (splitTags (inputs p "proj_tech_stack")) p
  | Certifications => certificationEntry p
  end.

(** Whether a save goes through: a project needs a technology tag. *)
Definition accepted (e : editor) (p : page) : bool :=
  match e with
  | Projects => negb (length (splitTags (inputs p "proj_tech_stack")) =? 0)%nat
  | _ => true
  end.

(** The elements of the collection [k] of the draft, when it is an array. *)
Definition collection (k : string) (p : page) : option (list jsval) :=
  match get_prop (profileData p) k with
  | Some (JArr items _) => Some items
  | _ => None
  end.

(** The user fills in the open form. *)
Definition typing (values : string -> string) (checks : string -> bool) (p : page) : page :=
  set_checked checks (set_inputs values p).

(** The shape invariant of the field [k] of a draft, on its value [v]. *)
Definition shapeOK (k : string) (v : jsval) : bool :=
  if collectionKey k then isArray v
  else if String.eqb k "projects" then projectsOK v
  else if String.eqb k "preferences" then preferencesOK v
  else if String.eqb k "links" then container v
  else true.

(** *** Submitting the profile *)

(** The request [saveProfile] sends: the draft is its body, under the key
    [profile_data]. *)
Record submission : Type := Submission {
  endpoint : string;
  method : string;
  authorization : string;
  body : jsval
}.

(** [getValueOrNull], on a control of the page *)
Definition getValueOrNull (name : string) : M jsval :=
  value ← inputValue name; mret (orNull value).

(** [profileData.k = getValueOrNull('[name=...]')] *)
Definition collect (k name : string) : M unit :=
  v ← getValueOrNull name; writeProfile k v.

(** [profileData.k = document.querySelector('[name=...]').value.trim()] *)
Definition collectTrimmed (k name : string) : M unit :=
  v ← inputValue name; writeProfile k (JStr (Str.trim v)).

(** The object literals of the two sub-records. *)
Definition preferencesEntry (employment_type work_mode : list string) (p : page) : jsval :=
  JObj [("employment_type", arr (JStr <$> employment_type));
        ("work_mode", arr (JStr <$> work_mode));
        ("preferred_roles", orNull (inputs p "preferred_roles"));
        ("preferred_industries", orNull (inputs p "preferred_industries"));
        ("expected_salary", orNull (inputs p "expected_salary"));
        ("willing_to_relocate", orNull (inputs p "willing_to_relocate"));
        ("notice_period", orNull (inputs p "notice_period"));
        ("availability_date", orNull (inputs p "availability_date"));
        ("preferred_locations", orNull (inputs p "preferred_locations"))].

Definition linksEntry (p : page) : jsval :=
  JObj [("linkedin", orNull (inputs p "linkedin"));
        ("github", orNull (inputs p "github"));
        ("portfolio", orNull (inputs p "portfolio"));
        ("resume_link", orNull (inputs p "resume_link"));
        ("twitter", orNull (inputs p "twitter"));
        ("leetcode", orNull (inputs p "leetcode"))].

(** [isEditMode || (user && user.profile_completed)], as a condition *)
Definition isUpdate (isEditMode : bool) (user : jsval) : bool :=
  isEditMode ||
  (truthy user && truthy (default JUndef (get_prop user "profile_completed"))).

(** [saveProfile] up to its first [await]. It reads the module variable
    [isEditMode], the stored user ([getUser()]), the stored token
    ([getToken()]) and the values of the checked boxes named
    [employment_type] and [work_mode]; it returns the request it sends. *)
Definition saveProfile (isEditMode : bool) (user : jsval) (token : option string)
    (employment_type work_mode : list string) : M submission :=
  collectTrimmed "full_name" "full_name";;
  collectTrimmed "phone" "phone";;
  collectTrimmed "location" "location";;
  collect "gender" "gender";;
  collect "date_of_birth" "date_of_birth";;
  collect "domain_expertise" "domain_expertise";;
  collect "languages" "languages";;
  collect "summary" "summary";;
  collect "achievements" "achievements";;
  expYears ← inputValue "total_experience_years";
  writeProfile "total_experience_years"
    (JNum (if Str.nonempty expYears then parseInt expYears else num_of_Z 0));;
  current_role ← getValueOrNull "current_role";
  writeProfile "current_role"
    (if truthy current_role then current_role else JStr "Student");;
  collect "current_company" "current_company";;
  preferences ← gets (preferencesEntry employment_type work_mode);
  writeProfile "preferences" preferences;;
  links ← gets linksEntry;
  writeProfile "links" links;;
  let update := isUpdate isEditMode user in
  showNotification "Saving your profile..." "info";;
  d ← gets profileData;
  mret (Submission
          (if update then "/api/v1/students/profile/update"
           else "/api/v1/students/profile/complete")
          (if update then "PUT" else "POST")
          ("Bearer " +:+ default "null" token)
          (JObj [("profile_data", d)])).

(** The named properties of the draft once [saveProfile] has collected the
    form into it, and the keys it assigns. *)
Definition collectedFields (employment_type work_mode : list string) (p : page)
    (fs : fields_t) : fields_t :=
  let current_role := orNull (inputs p "current_role") in
  let expYears := inputs p "total_experience_years" in
  update_field "links" (linksEntry p)
    (update_field "preferences" (preferencesEntry employment_type work_mode p)
       (update_field "current_company" (orNull (inputs p "current_company"))
          (update_field "current_role"
             (if truthy current_role then current_role else JStr "Student")
             (update_field "total_experience_years"
                (JNum (if Str.nonempty expYears then parseInt expYears else num_of_Z 0))
                (update_field "achievements" (orNull (inputs p "achievements"))
                   (update_field "summary" (orNull (inputs p "summary"))
                      (update_field "languages" (orNull (inputs p "languages"))
                         (update_field "domain_expertise"
                            (orNull (inputs p "domain_expertise"))
                            (update_field "date_of_birth"
                               (orNull (inputs p "date_of_birth"))
                               (update_field "gender" (orNull (inputs p "gender"))
                                  (update_field "location"
                                     (JStr (Str.trim (inputs p "location")))
                                     (update_field "phone"
                                        (JStr (Str.trim (inputs p "phone")))
                                        (update_field "full_name"
                                           (JStr (Str.trim (inputs p "full_name")))
                                           fs))))))))))))).

Definition collectedKeys : list string :=
  ["full_name"; "phone"; "location"; "gender"; "date_of_birth";
   "domain_expertise"; "languages"; "summary"; "achievements";
   "total_experience_years"; "current_role"; "current_company";
   "preferences"; "links"].

(** *** What a handler leaves alone, and how a save ends *)

(** A handler leaves the page related to the one it started from. *)
Definition preserves {A} (R : page -> page -> Prop) (m : M A) : Prop :=
  forall p, R p (state_of (m p)).

(** What lies outside an editor: the wizard step, the editing indices of
    the other editors and the other fields of the draft. *)
Definition outside (e : editor) (p q : page) : Prop :=
  currentStep q = currentStep p
  /\ (forall e', e' <> e -> sentinel e' q = sentinel e' p)
  /\ (forall k, k <> key e -> get_prop (profileData q) k = get_prop (profileData p) k).


Definition renders (e : editor) : jsval -> bool :=
  match e with
  | Experience | Projects => rendersDescribed
  | _ => rendersPlain
  end.

(** A tag as the tag input of a project yields it: not empty, trimmed and
    without a comma. *)
Definition tagOK (t : string) : Prop :=
  Str.nonempty t = true /\ Str.trim t = t /\ Str.count ","%char t = 0%nat.

End Wizard.

(** *** Opening an entry for editing *)

(** What a control reports as its value once a text has been assigned to
    it: a text input keeps the text, a select or a date control keeps only
    what it can show. The template decides. *)
Class Controls := {
  stored : string -> string -> string
}.

Section Editing.
Context `{JsNumber} `{Template} `{Controls}.

(** [setInputValue], on a control of the page *)
Definition setInputValue (name : string) (value : jsval) : comp page unit :=
  let text := match value with JNull | JUndef => "" | _ => ToString value end in
  modify (fun p =>
    set_inputs (fun n => if String.eqb n name then stored name text else inputs p n) p).

(** [c[index]] for an integer index: a negative one names a property. *)
Definition get_at (c : jsval) (index : Z) : option jsval :=
  if (index <? 0)%Z then get_prop c (Str.of_Z index)
  else get_index c (Z.to_nat index).

(** [profileData.k[index]] *)
Definition readEntry (k : string) (index : Z) : comp page jsval :=
  c ← readProfile k; lift (get_at c index).

(** [setInputValue(name, entry.k)] *)
Definition show (name : string) (entry : jsval) (k : string) : comp page unit :=
  v ← lift (get_prop entry k); setInputValue name v.

(** [a.join(sep)] on the elements of an array *)
Definition joinItems (sep : string) (a : jsval) : string :=
  match a with
  | JArr items _ =>
      Str.join sep
        (map (fun x => match x with JUndef | JNull => "" | _ => ToString x end) items)
  | _ => ""
  end.

Definition editEducation (index : Z) : comp page unit :=
  modify (set_editingEducation index);;
  edu ← readEntry "education" index;
  show "edu_level" edu "level";;
  show "edu_board_university" edu "board_university";;
  show "edu_school_college" edu "school_college";;
  show "edu_year" edu "year";;
  show "edu_percentage_cgpa" edu "percentage_cgpa";;
  show "edu_degree" edu "degree";;
  show "edu_branch" edu "branch";;
  setHidden "educationModal" false;;
  emit (SetText "educationModalTitle" "Edit Education");;
  emit (SetText "saveEducationBtn" "Update Education").

Definition editSkill (index : Z) : comp page unit :=
  modify (set_editingSkill index);;
  skill ← readEntry "skills" index;
  show "skill_name" skill "name";;
  show "skill_proficiency" skill "proficiency";;
  show "skill_category" skill "category";;
  setHidden "skillModal" false;;
  emit (SetText "skillModalTitle" "Edit Skill");;
  emit (SetText "saveSkillBtn" "Update Skill").

Definition editExperience (index : Z) : comp page unit :=
  modify (set_editingExperience index);;
  exp ← readEntry "experience" index;
  show "exp_company" exp "company";;
  show "exp_role" exp "role";;
  show "exp_start_date" exp "start_date";;
  show "exp_end_date" exp "end_date";;
  is_current ← lift (get_prop exp "is_current");
  modify (fun p =>
    set_checked (fun n => if String.eqb n "exp_is_current" then truthy is_current
                          else checked p n) p);;
  show "exp_description" exp "description";;
  show "exp_location" exp "location";;
  setHidden "experienceModal" false;;
  emit (SetText "experienceModalTitle" "Edit Experience");;
  emit (SetText "saveExperienceBtn" "Update Experience").

Definition editProject (index : Z) : comp page unit :=
  modify (set_editingProject index);;
  proj ← readEntry "projects" index;
  show "proj_title" proj "title";;
  show "proj_description" proj "description";;
  tech_stack ← lift (get_prop proj "tech_stack");
  (if isArray tech_stack
   then setInputValue "proj_tech_stack" (JStr (joinItems ", " tech_stack))
   else setInputValue "proj_tech_stack" (JStr ""));;
  show "proj_link" proj "link";;
  show "proj_github_link" proj "github_link";;
  show "proj_start_date" proj "start_date";;
  show "proj_end_date" proj "end_date";;
  setHidden "projectModal" false;;
  emit (SetText "projectModalTitle" "Edit Project");;
  emit (SetText "saveProjectBtn" "Update Project").

Definition editCertification (index : Z) : comp page unit :=
  modify (set_editingCertification index);;
  cert ← readEntry "certifications" index;
  show "cert_name" cert "name";;
  show "cert_issuer" cert "issuer";;
  show "cert_issue_date" cert "issue_date";;
  show "cert_expiry_date" cert "expiry_date";;
  show "cert_credential_id" cert "credential_id";;
  show "cert_credential_url" cert "credential_url";;
  setHidden "certificationModal" false;;
  emit (SetText "certificationModalTitle" "Edit Certification");;
  emit (SetText "saveCertificationBtn" "Update Certification").

Definition editEntry (e : editor) : Z -> comp page unit :=
  match e with
  | Education => editEducation
  | Skills => editSkill
  | Experience => editExperience
  | Projects => editProject
  | Certifications => editCertification
  end.

(** A handler completes, leaving the page related to the one it started
    from and in a given condition. *)
Definition succeeds {A} (R : page -> page -> Prop) (Q : page -> Prop)
    (m : comp page A) : Prop :=
  forall p, exists q a, m p = (q, Normal a) /\ R p q /\ Q q.

(** What opening an entry leaves alone: the draft, the wizard step, the
    editing indices and the other modals. *)
Definition formOnly (e : editor) (p q : page) : Prop :=
  profileData q = profileData p
  /\ currentStep q = currentStep p
  /\ (forall e', sentinel e' q = sentinel e' p)
  /\ (forall id, id <> modal e -> hidden q id = hidden p id).

(** The page with the editing index of an editor set. *)
Definition set_sentinel (e : editor) (index : Z) (p : page) : page :=
  match e with
  | Education => set_editingEducation index p
  | Skills => set_editingSkill index p
  | Experience => set_editingExperience index p
  | Projects => set_editingProject index p
  | Certifications => set_editingCertification index p
  end.


End Editing.

End Profile.

(** The comparison of numbers is kept abstract as the numbers are; on the
    integers of the model it is the order of the integers. *)
Class JsOrder `{JsNumber} := {
  (** [a <= b] *)
  num_leb : number -> number -> bool;
  num_leb_of_Z : forall a b, num_leb (num_of_Z a) (num_of_Z b) = (a <=? b)%Z
}.

(** ** jobs.js: the jobs browser *)

Module Jobs.

(** The page counter, the three filter controls, and the requests sent so
    far. What a response does to the document is not modelled. *)
Record browser : Type := Browser {
  currentPage : Z;
  jobTypeFilter : string;
  sourceFilter : string;
  locationFilter : string;
  requests : list string
}.

Definition limit : Z := 20.

Definition jobsUrl (page : Z) (jobType source location : string) : string :=
  let url := "/api/v1/jobs/list?page=" +:+ Str.of_Z page +:+ "&limit=" +:+ Str.of_Z limit in
  let url := if Str.nonempty jobType then url +:+ "&job_type=" +:+ jobType else url in
  let url := if Str.nonempty source then url +:+ "&source=" +:+ source else url in
  let url := if Str.nonempty location then url +:+ "&location=" +:+ location else url in
  url.

(** [loadJobs] up to its first [await]: the request is sent. *)
Definition loadJobs (b : browser) : browser :=
  let jobType := jobTypeFilter b in
  let source := sourceFilter b in
  let location := locationFilter b in
  let url := jobsUrl (currentPage b) jobType source location in
  Browser (currentPage b) (jobTypeFilter b) (sourceFilter b) (locationFilter b)
    (requests b ++ [url]).

Definition set_currentPage (z : Z) (b : browser) : browser :=
  Browser z (jobTypeFilter b) (sourceFilter b) (locationFilter b) (requests b).

Definition previousPage (b : browser) : browser :=
  if (currentPage b >? 1)%Z
  then loadJobs (set_currentPage (currentPage b - 1) b)
  else b.

Definition nextPage (b : browser) : browser :=
  loadJobs (set_currentPage (currentPage b + 1) b).


Section Cards.
Context `{JsNumber} `{!JsOrder}.

(** [truncateText], for an integer [maxLength]: a text that is not a
    string has no [substring] to call. *)
Definition truncateText (text : jsval) (maxLength : Z) : option jsval :=
  if negb (truthy text) then Some (JStr "")
  else
    len ← get_prop text "length";
    if num_leb (ToNumber len) (num_of_Z maxLength) then Some text
    else match text with
         | JStr s => Some (JStr (String.substring 0 (Z.to_nat maxLength) s +:+ "..."))
         | _ => None
         end.

End Cards.

End Jobs.

(** ** analytics_dashboard.js: the analytics dashboard *)

Module Dashboard.

Section Config.
Context `{JsNumber}.

(** The one dataset of a chart configuration and the configuration handed
    to the charting library (the tooltip and axis callbacks are left out). *)
Record dataset : Type := Dataset {
  label : jsval;
  data : jsval;
  backgroundColor : jsval;
  borderColor : jsval;
  borderWidth : Z;
  fill : bool
}.

Record chart_config : Type := ChartConfig {
  type : string;
  labels : jsval;
  datasets : list dataset;
  legendDisplay : bool;
  hasScales : bool
}.

End Config.

(** The charting library is not part of the scripts: whether
    [new Chart(canvas, config)] returns an instance or throws is taken as
    given. *)
Class ChartJs `{JsNumber} := {
  Chart_accepts : chart_config -> bool
}.

Section Page.
Context `{JsNumber} `{!ChartJs}.

(** A row of [raw_data] is an object. *)
Definition row := fields_t.

Inductive ui_event : Type :=
| DestroyChart
| NewChart (config : chart_config)
| ChartError
| SetText (id : string) (text : jsval)
| ShowQuery
| RenderTable (rows : option (list row)).

Record response : Type := Response {
  query_intent : jsval;
  natural_language_response : jsval;
  chart_type : string;
  chart_data : jsval;
  raw_data : option (list row)
}.

Record dashboard : Type := Board {
  (** the live chart, by its configuration *)
  currentChart : option chart_config;
  currentRawData : list row;
  (** whether the chart section and the export button are hidden, when the
      page has them *)
  chartSection : option bool;
  exportBtn : option bool;
  hidden : string -> bool;
  events : list ui_event
}.

Definition set_currentChart (c : option chart_config) (d : dashboard) : dashboard :=
  Board c (currentRawData d) (chartSection d) (exportBtn d) (hidden d) (events d).
Definition set_chartSection (c : option bool) (d : dashboard) : dashboard :=
  Board (currentChart d) (currentRawData d) c (exportBtn d) (hidden d) (events d).
Definition set_exportBtn (c : option bool) (d : dashboard) : dashboard :=
  Board (currentChart d) (currentRawData d) (chartSection d) c (hidden d) (events d).
Definition set_hidden (f : string -> bool) (d : dashboard) : dashboard :=
  Board (currentChart d) (currentRawData d) (chartSection d) (exportBtn d) f (events d).
Definition set_events (l : list ui_event) (d : dashboard) : dashboard :=
  Board (currentChart d) (currentRawData d) (chartSection d) (exportBtn d) (hidden d) l.

Abbreviation M := (comp dashboard).

Definition emit (e : ui_event) : M unit :=
  modify (fun d => set_events (events d ++ [e]) d).

Definition setHidden (id : string) (b : bool) : M unit :=
  modify (fun d =>
    set_hidden (fun id' => if String.eqb id' id then b else hidden d id') d).

(** [a || b] and [a && b] on values *)
Definition orElse (a b : jsval) : jsval := if truthy a then a else b.

Definition baseColors : list string :=
  ["rgba(59, 130, 246, 0.8)"; "rgba(16, 185, 129, 0.8)";
   "rgba(249, 115, 22, 0.8)"; "rgba(139, 92, 246, 0.8)";
   "rgba(236, 72, 153, 0.8)"; "rgba(234, 179, 8, 0.8)";
   "rgba(239, 68, 68, 0.8)"; "rgba(20, 184, 166, 0.8)";
   "rgba(168, 85, 247, 0.8)"; "rgba(34, 197, 94, 0.8)"].

Definition generateColors (count : jsval) (chartType : string) : jsval :=
  if String.eqb chartType "line" then JStr "rgba(59, 130, 246, 0.2)"
  else arr ((fun i => JStr (default "" (baseColors !! (i mod length baseColors)%nat)))
              <$> seq 0 (num_count (ToNumber count))).

Definition validChartTypes : list string :=
  ["bar"; "line"; "pie"; "doughnut"; "radar"; "polarArea"].

(** [chartData.datasets && chartData.datasets[0]] *)
Definition firstDataset (chartData : jsval) : option jsval :=
  ds ← get_prop chartData "datasets";
  if truthy ds then get_index ds 0 else Some ds.

(** The labels and the values read from either accepted shape of the
    chart data. *)
Definition chartSeries (chartData : jsval) : option (jsval * jsval) :=
  l ← get_prop chartData "labels";
  if truthy l && isArray l then
    d0 ← firstDataset chartData;
    if truthy d0 then
      v ← get_prop d0 "data"; Some (l, v)
    else
      v ← get_prop chartData "data";
      Some (l, if truthy v then v else arr [])
  else
    d0 ← firstDataset chartData;
    if truthy d0 then
      l0 ← get_prop d0 "labels";
      v ← get_prop d0 "data";
      Some (if truthy l0 then l0 else arr [], v)
    else Some (arr [], arr []).

Definition isPieLike (chartType : string) : bool :=
  String.eqb chartType "pie" || String.eqb chartType "doughnut".

Definition renderChart (chartType : string) (chartData : jsval) : M unit :=
  current ← gets currentChart;
  (match current with
   | Some _ => emit DestroyChart;; modify (set_currentChart None)
   | None => mret tt
   end);;
  if String.eqb (Str.toLowerCase chartType) "table" then comp_ret tt else
  let chartType :=
    if negb (existsb (String.eqb (Str.toLowerCase chartType)) validChartTypes)
    then "bar" else chartType in
  '(labels, dataValues) ← lift (chartSeries chartData);
  title ← lift (get_prop chartData "title");
  count ← lift (get_prop labels "length");
  let config :=
    ChartConfig chartType labels
      [Dataset (orElse title (JStr "Value")) dataValues
         (generateColors count chartType)
         (if String.eqb chartType "line" then JStr "rgba(59, 130, 246, 1)" else JUndef)
         (if String.eqb chartType "line" then 2 else 1)
         (String.eqb chartType "line")]
      (isPieLike chartType)
      (negb (isPieLike chartType)) in
  emit (NewChart config);;
  if Chart_accepts config then modify (set_currentChart (Some config))
  else emit ChartError.

(** [renderTable] fills the table from the rows; the markup is not
    modelled. *)
Definition renderTable (rows : option (list row)) : M unit :=
  emit (RenderTable rows).

Definition displayResults (r : response) : M unit :=
  setHidden "loadingState" true;;
  setHidden "errorState" true;;
  emit ShowQuery;;
  setHidden "resultsSection" false;;
  emit (SetText "queryIntent" (query_intent r));;
  emit (SetText "insights" (natural_language_response r));;
  section ← gets chartSection;
  let chartType := Str.toLowerCase (chart_type r) in
  (if String.eqb chartType "table"
   then match section with
        | Some _ => modify (set_chartSection (Some true))
        | None => mret tt
        end
   else match section with
        | Some _ =>
            modify (set_chartSection (Some false));;
            title ← lift (get_prop (chart_data r) "title");
            emit (SetText "chartTitle" (orElse title (JStr "Analytics Chart")));;
            renderChart (chart_type r) (chart_data r)
        | None => mret tt
        end);;
  renderTable (raw_data r);;
  button ← gets exportBtn;
  match button with
  | Some _ => modify (set_exportBtn (Some false))
  | None => mret tt
  end.

(** *** CSV export *)

Definition newline : string := String "010"%char "".

Definition quoted (s : string) : string :=
  String Str.dquote (Str.double_quotes s +:+ String Str.dquote "").

Definition csvValue (r : row) (col : string) : string :=
  let value := lookup_field col r in
  match value with
  | JNull | JUndef => ""
  | _ => quoted (ToString value)
  end.

(** The text handed to the download: the columns are the keys of the
    first row. *)
Definition csvText (first : row) (rows : list row) : string :=
  let columns := fst <$> first in
  let csv := Str.join "," (quoted <$> columns) +:+ newline in
  fold_left
    (fun csv r => csv +:+ Str.join "," (csvValue r <$> columns) +:+ newline)
    rows csv.

Inductive export : Type :=
| Alert (message : string)
| Download (filename text : string).

(** [now] is [new Date().toISOString()]. *)
Definition exportToCSV (now : string) (d : dashboard) : export :=
  match currentRawData d with
  | [] => Alert "No data to export"
  | first :: _ =>
      Download
        ("analytics_export_" +:+ default "" (head (Str.split "T"%char now)) +:+ ".csv")
        (csvText first (currentRawData d))
  end.

(** *** Reading the outcome of a render *)

(** The chart configurations handed to the charting library, in order. *)
Definition newCharts (l : list ui_event) : list chart_config :=
  omap (fun e => match e with NewChart c => Some c | _ => None end) l.

(** The number of elements of a series that is an array. *)
Definition seriesLength (v : jsval) : option nat :=
  match v with JArr items _ => Some (length items) | _ => None end.

Definition isNullish (v : jsval) : bool :=
  match v with JUndef | JNull => true | _ => false end.

(** The chart types of the specification, in lower case. *)
Definition knownTypes : list string :=
  ["bar"; "line"; "pie"; "doughnut"; "radar"; "polararea"; "table"].

(** The chart types that [renderChart] hands on as they are. *)
Definition recognized (chartType : string) : bool :=
  existsb (String.eqb (Str.toLowerCase chartType)) validChartTypes.

(** *** Reading a CSV text *)

(** Lines, each closed by a line feed. *)
Definition linesText (ls : list string) : string :=
  fold_right (fun l acc => l +:+ newline +:+ acc) "" ls.

Definition columnsOf (first : row) : list string := fst <$> first.

Definition headerLine (first : row) : string :=
  Str.join "," (quoted <$> columnsOf first).

Definition rowLine (first r : row) : string :=
  Str.join "," (csvValue r <$> columnsOf first).

(** The text of a cell before quoting. *)
Definition cellText (r : row) (col : string) : string :=
  match lookup_field col r with
  | JNull | JUndef => ""
  | v => ToString v
  end.

Definition lineFeeds (s : string) : nat := Str.count "010"%char s.

(** No column name and no cell holds a line feed. *)
Definition lineFree (first : row) (rows : list row) : bool :=
  forallb (fun col => (lineFeeds col =? 0)%nat) (columnsOf first)
  && forallb (fun r => forallb (fun col => (lineFeeds (cellText r col) =? 0)%nat)
                         (columnsOf first)) rows.

(** Reading back a text whose double quotes were doubled. *)
Fixpoint undouble (s : string) : string :=
  match s with
  | "" => ""
  | String c r =>
      if Ascii.eqb c Str.dquote then
        match r with
        | String c' r' =>
            if Ascii.eqb c' Str.dquote then String c (undouble r')
            else String c (undouble r)
        | "" => String c ""
        end
      else String c (undouble r)
  end.

(** A reader of the exported text: a cell is empty or wrapped in double
    quotes with every double quote of it doubled, cells are separated by
    commas and a record is closed by a line feed. An empty cell reads as
    [None]. *)
Inductive reading : Type := AtCell | InQuotes | AfterQuote.

Fixpoint readFrom (s : string) (m : reading) (cell : string)
    (record : list (option string)) (records : list (list (option string)))
    : list (list (option string)) :=
  match s with
  | "" => rev records
  | String c r =>
      match m with
      | AtCell =>
          if Ascii.eqb c Str.dquote then readFrom r InQuotes "" record records
          else if Ascii.eqb c ","%char
               then readFrom r AtCell "" (None :: record) records
               else if Ascii.eqb c "010"%char
                    then readFrom r AtCell "" [] (rev (None :: record) :: records)
                    else readFrom r AtCell "" record records
      | InQuotes =>
          if Ascii.eqb c Str.dquote then readFrom r AfterQuote cell record records
          else readFrom r InQuotes (cell +:+ String c "") record records
      | AfterQuote =>
          if Ascii.eqb c Str.dquote
          then readFrom r InQuotes (cell +:+ String c "") record records
          else if Ascii.eqb c ","%char
               then readFrom r AtCell "" (Some cell :: record) records
               else if Ascii.eqb c "010"%char
                    then readFrom r AtCell "" [] (rev (Some cell :: record) :: records)
                    else readFrom r AtCell "" record records
      end
  end.

Definition readCsv (text : string) : list (list (option string)) :=
  readFrom text AtCell "" [] [].

(** The cells of a row under the columns of the first row: [None] for
    [null] and [undefined]. *)
Definition cellOf (r : row) (col : string) : option string :=
  if isNullish (lookup_field col r) then None else Some (cellText r col).

Definition cellsOf (first r : row) : list (option string) :=
  cellOf r <$> columnsOf first.

(** *** Submitting a query *)

Definition set_currentRawData (rows : list row) (d : dashboard) : dashboard :=
  Board (currentChart d) rows (chartSection d) (exportBtn d) (hidden d) (events d).

Definition showLoading : M unit :=
  setHidden "resultsSection" true;;
  setHidden "llmQuerySection" true;;
  setHidden "errorState" true;;
  setHidden "loadingState" false;;
  button ← gets exportBtn;
  (match button with
   | Some _ => modify (set_exportBtn (Some true))
   | None => mret tt
   end);;
  section ← gets chartSection;
  match section with
  | Some _ => modify (set_chartSection (Some true))
  | None => mret tt
  end.

Definition showError (message : string) : M unit :=
  setHidden "loadingState" true;;
  setHidden "resultsSection" true;;
  setHidden "llmQuerySection" true;;
  setHidden "errorState" false;;
  emit (SetText "errorMessage" (JStr message)).

(** The dashboard with its query box, the alerts shown, the queries posted
    and the address the window was sent to. *)
Record console : Type := Console {
  board : dashboard;
  queryInput : string;
  alerts : list string;
  posted : list string;
  location : option string
}.

Definition onBoard {A} (m : M A) : comp console A :=
  fun c =>
    let '(d, o) := m (board c) in
    (Console d (queryInput c) (alerts c) (posted c) (location c), o).

Definition alert (message : string) : comp console unit :=
  modify (fun c =>
    Console (board c) (queryInput c) (alerts c ++ [message]) (posted c) (location c)).

Definition post (query : string) : comp console unit :=
  modify (fun c =>
    Console (board c) (queryInput c) (alerts c) (posted c ++ [query]) (location c)).

Definition redirect (href : string) : comp console unit :=
  modify (fun c =>
    Console (board c) (queryInput c) (alerts c) (posted c) (Some href)).

(** [try { m } catch (error) { handler }] *)
Definition catch {S A} (m : comp S A) (handler : comp S A) : comp S A :=
  fun s =>
    match m s with
    | (s', Normal a) => (s', Normal a)
    | (s', TypeError) => handler s'
    end.

(** [handleQuerySubmit] up to its first [await]. *)
Definition handleQuerySubmit : comp console unit :=
  query ← gets (fun c => Str.trim (queryInput c));
  if negb (Str.nonempty query) then alert "Please enter a query"
  else onBoard showLoading;; post query.

(** What comes back: a status that is not [ok] (with the parsed body, when
    it parses) or an answer. *)
Inductive reply : Type :=
| Refused (status : Z) (errorData : option jsval)
| Answered (r : response)
| Unreadable.

(** [errorData.detail || `Query failed with status ${response.status}`],
    as the message of the [Error] thrown *)
Definition refusal (status : Z) (errorData : jsval) : option string :=
  detail ← get_prop errorData "detail";
  Some (ToString (orElse detail (JStr ("Query failed with status " +:+ Str.of_Z status)))).

(** [handleQuerySubmit] from the response on. [thrown] is the message of
    an exception that the engine raises. *)
Definition settle (thrown : string) (rep : reply) : comp console unit :=
  let failed message := onBoard (showError ("Failed to process query: " +:+ message)) in
  match rep with
  | Refused status errorData =>
      if (status =? 401)%Z then redirect "/auth/login"
      else match errorData with
           | Some data => failed (default thrown (refusal status data))
           | None => failed thrown
           end
  | Unreadable => failed thrown
  | Answered r =>
      catch
        (onBoard (modify (set_currentRawData (default [] (raw_data r)));;
                  displayResults r))
        (failed thrown)
  end.

(** What the chart and the table leave alone: the panels and the export
    button. *)
Definition untouched (d d' : dashboard) : Prop :=
  hidden d' = hidden d /\ exportBtn d' = exportBtn d.

End Page.
End Dashboard.

(** ** utils.js: the session kept in local storage *)

Module Session.

(** [localStorage]: its items by key. *)
Abbreviation storage := (gmap string string).

Section Store.
Context `{JsNumber}.

Definition getToken (st : storage) : option string :=
  match st !! "access_token" with
  | None => None
  | Some token =>
      if negb (Str.nonempty token) || String.eqb token "null"
         || String.eqb token "undefined" || String.eqb (Str.trim token) ""
      then None
      else Some token
  end.

Definition setToken (token : jsval) (st : storage) : storage :=
  if truthy token then <["access_token" := ToString token]> st
  else delete "access_token" st.

Definition removeToken (st : storage) : storage :=
  delete "user" (delete "access_token" st).

Definition isLoggedIn (st : storage) : bool :=
  match getToken st with Some _ => true | None => false end.

(** The storage and the address of the window. *)
Record tab : Type := Tab {
  store : storage;
  href : string
}.

(** [localStorage.clear()] *)
Definition clear (st : storage) : storage := ∅.

(** [confirmed] is the answer to the confirmation dialog. *)
Definition logout (confirmed : bool) (b : tab) : tab :=
  if confirmed then Tab (clear (removeToken (store b))) "/"
  else b.

(** The options of a request, its headers apart from the others, and the
    request handed to [fetch]. *)
Record options : Type := Options {
  headers : gmap string string;
  others : list (string * string)
}.

Record request : Type := Request {
  url : string;
  init : options
}.

(** [apiCall] up to its [await]: the request it sends. *)
Definition apiCall (API_URL endpoint : string) (o : options) (st : storage) : request :=
  let token := getToken st in
  let hs := headers o ∪ {[ "Content-Type" := "application/json" ]} in
  let hs :=
    match token with
    | Some t => <["Authorization" := "Bearer " +:+ t]> hs
    | None => hs
    end in
  Request (API_URL +:+ endpoint) (Options hs (others o)).

(** [apiCall] from the response on: whether the response is returned. *)
Definition apiSettled (status : Z) (b : tab) : tab * bool :=
  if (status =? 401)%Z
  then (Tab (removeToken (store b)) "/auth/login", false)
  else (b, true).

End Store.
End Session.

(** ** notifications.js: the age of a notification *)

Module Notifications.

(** [formatTime]: [now] and [date] are the two instants in milliseconds,
    [date] being [None] when the text is not a date; [localeDate] is
    [date.toLocaleDateString()]. *)
Definition formatTime (now : Z) (date : option Z) (localeDate : string) : string :=
  match date with
  | None => localeDate
  | Some date =>
      let diff := (now - date)%Z in
      let minutes := (diff / 60000)%Z in
      let hours := (minutes / 60)%Z in
      let days := (hours / 24)%Z in
      if (minutes <? 1)%Z then "Just now"
      else if (minutes <? 60)%Z then Str.of_Z minutes +:+ "m ago"
      else if (hours <? 24)%Z then Str.of_Z hours +:+ "h ago"
      else if (days <? 7)%Z then Str.of_Z days +:+ "d ago"
      else localeDate
  end.

End Notifications.

(** ** Instances on which the pages can be run *)

Module Demo.

(** Integers and [NaN] stand for the numbers. *)
Fixpoint digits (s : string) (acc : Z) (seen : bool) : option Z :=
  match s with
  | "" => if seen then Some acc else None
  | String c r =>
      let n := nat_of_ascii c in
      if ((48 <=? n) && (n <=? 57))%nat
      then digits r (acc * 10 + (Z.of_nat n - 48))%Z true
      else if seen then Some acc else None
  end.

Definition leadingInt (s : string) : option Z := digits (Str.trimStart s) 0%Z false.

Definition wholeInt (s : string) : option Z :=
  let t := Str.trim s in
  if Str.nonempty t
  then (if String.eqb (Str.of_Z (default 0%Z (leadingInt t))) t then leadingInt t else None)
  else Some 0%Z.

#[export] Instance integers : JsNumber := {|
  number := option Z;
  num_of_Z := Some;
  num_is_zero n := match n with Some z => (z =? 0)%Z | None => false end;
  num_is_nan n := match n with Some _ => false | None => true end;
  num_to_string n := match n with Some z => Str.of_Z z | None => "NaN" end;
  parseInt := leadingInt;
  parseFloat := leadingInt;
  num_nan := None;
  num_of_string := wholeInt;
  num_count n := match n with Some z => Z.to_nat z | None => 0%nat end;
  num_of_Z_is_zero z := eq_refl;
  num_of_Z_count z := eq_refl
|}.

#[export] Instance template : Template := {|
  requiredInputs step :=
    if (step =? 1)%Z then ["full_name"; "phone"; "location"] else [];
  labelBefore name :=
    if String.eqb name "full_name" then Some "Full Name *" else None;
  formControls form :=
    if String.eqb form "projectForm"
    then ["proj_title"; "proj_description"; "proj_tech_stack"; "proj_link";
          "proj_github_link"; "proj_start_date"; "proj_end_date"]
    else [];
  defaultValue _ := "";
  defaultChecked _ := false
|}.

(** The charting library accepts the chart types it registers. *)
#[export] Instance charts : Dashboard.ChartJs := {|
  Dashboard.Chart_accepts cfg :=
    existsb (String.eqb (Dashboard.type cfg)) Dashboard.validChartTypes
|}.

(** A page as the script starts it: every control empty, every modal
    hidden. *)
Definition page0 : Profile.page :=
  Profile.initialPage (fun _ => "") (fun _ => false) (fun _ => true).

(** A form filled in by the user. *)
Definition values (name : string) : string :=
  if String.eqb name "skill_name" then "  Rocq "
  else if String.eqb name "skill_proficiency" then "Advanced"
  else if String.eqb name "proj_title" then "Portal"
  else if String.eqb name "proj_description" then "Student portal"
  else if String.eqb name "proj_tech_stack" then "js, css,, "
  else if String.eqb name "full_name" then "Asha"
  else if String.eqb name "phone" then "12345"
  else if String.eqb name "location" then "Pune"
  else "".

Definition typed : Profile.page := Profile.typing values (fun _ => false) page0.

(** A draft as an older back end may return it. *)
Definition legacyDraft : jsval :=
  JObj [("full_name", JStr "Asha");
        ("education", JNull);
        ("skills", arr [JObj [("name", JStr "Rocq")]; JObj [("name", JStr "OCaml")]]);
        ("projects",
           arr [JObj [("title", JStr "Portal"); ("tech_stack", JStr "js, css")]]);
        ("preferences", JObj [("preferred_roles", JStr "SDE")]);
        ("links", JObj [("github", JStr "https://github.com/asha")])].

Definition loaded : Profile.page := Profile.set_profileData legacyDraft page0.

Definition browser1 : Jobs.browser := Jobs.Browser 1 "internship" "" "Pune" [].
Definition browser3 : Jobs.browser := Jobs.Browser 3 "internship" "" "Pune" [].

Definition board0 : Dashboard.dashboard :=
  Dashboard.Board None [] (Some true) (Some true) (fun _ => true) [].

Definition rows2 : list Dashboard.row :=
  [[("branch", JStr "CSE"); ("count", JNum (Some 3%Z))];
   [("branch", JStr "ECE"); ("count", JNum (Some 7%Z))]].

Definition response (chartType : string) (values : list Z) : Dashboard.response :=
  Dashboard.Response (JStr "count by branch") (JStr "Two branches.") chartType
    (JObj [("title", JStr "Students");
           ("labels", arr [JStr "A"; JStr "B"]);
           ("data", arr ((fun z => JNum (Some z)) <$> values))])
    (Some rows2).

Definition board2 : Dashboard.dashboard :=
  Dashboard.Board None rows2 (Some true) (Some true) (fun _ => true) [].

(** A row whose value holds a line feed. *)
Definition brokenRows : list Dashboard.row :=
  [[("note", JStr (String "a" (String "010" (String "b" ""))))]].

Definition board1 : Dashboard.dashboard :=
  Dashboard.Board None brokenRows (Some true) (Some true) (fun _ => true) [].


(** Every control is a text input. *)
#[export] Instance textControls : Profile.Controls := {|
  Profile.stored _ text := text
|}.

#[export] Instance integerOrder : JsOrder := {|
  num_leb a b :=
    match a, b with Some x, Some y => (x <=? y)%Z | _, _ => false end;
  num_leb_of_Z a b := eq_refl
|}.

(** A dataset whose second row has a key that the first row lacks. *)
Definition firstRow : Dashboard.row :=
  [("branch", JStr "CSE"); ("count", JNum (Some 3%Z))].





(** The dashboard with a query typed in. *)
Definition console0 : Dashboard.console :=
  Dashboard.Console board0 " count by branch " [] [] None.

(** The page once the skill typed in has been saved. *)
Definition saved : Profile.page := state_of (Profile.saveSkillEntry typed).


End Demo.

(** * Properties *)

(** ** Named properties of values *)

Section FieldFacts.
Context `{JsNumber}.

Lemma lookup_update_eq k v (fs : fields_t) :
  lookup_field k (update_field k v fs) = v.
Proof.
  induction fs as [|[k' v'] fs IH]; simpl.
  - by rewrite String.eqb_refl.
  - destruct (String.eqb k' k) eqn:E; simpl.
    + by rewrite String.eqb_refl.
    + by rewrite E.
Qed.

Lemma lookup_update_ne k k' v (fs : fields_t) :
  k' <> k -> lookup_field k' (update_field k v fs) = lookup_field k' fs.
Proof.
  intros Hne. induction fs as [|[k0 v0] fs IH]; simpl.
  - apply String.eqb_neq in Hne. rewrite String.eqb_sym in Hne. by rewrite Hne.
  - destruct (String.eqb k0 k) eqn:E; simpl.
    + apply String.eqb_eq in E. subst k0.
      assert (String.eqb k k' = false) as ->; [|done].
      apply String.eqb_neq. congruence.
    + by rewrite IH.
Qed.

Lemma update_update k v w (fs : fields_t) :
  update_field k v (update_field k w fs) = update_field k v fs.
Proof.
  induction fs as [|[k0 v0] fs IH]; simpl.
  - by rewrite String.eqb_refl.
  - destruct (String.eqb k0 k) eqn:E; simpl.
    + by rewrite String.eqb_refl.
    + by rewrite E, IH.
Qed.

Lemma get_prop_container d k :
  container d = true -> k <> "length" ->
  get_prop d k = Some (lookup_field k (named d)).
Proof.
  intros Hc Hk. apply String.eqb_neq in Hk.
  destruct d; try discriminate; simpl; [by rewrite Hk | done].
Qed.

Lemma set_prop_container d k v :
  container d = true ->
  set_prop d k v = Some (rename d (update_field k v (named d))).
Proof. by destruct d. Qed.

Lemma container_rename d fs : container (rename d fs) = container d.
Proof. by destruct d. Qed.

Lemma named_rename d fs : container d = true -> named (rename d fs) = fs.
Proof. by destruct d. Qed.

Lemma rename_rename d fs fs' : rename (rename d fs) fs' = rename d fs'.
Proof. by destruct d. Qed.

Lemma notAnObject_container v : Profile.notAnObject v = negb (container v).
Proof.
  destruct v; unfold Profile.notAnObject; simpl; rewrite ?orb_true_r; done.
Qed.

End FieldFacts.

(** ** Sanitization of the draft *)

Import Profile.

Section SanitizeFacts.
Context `{JsNumber} `{Template}.

(** Running a sequence: the rest runs on the state the first part leaves,
    unless that part threw. *)
Lemma bind_run {S A B} (m : comp S A) (f : A -> comp S B) s :
  (m ≫= f) s =
    match m s with
    | (s', Normal a) => f a s'
    | (s', TypeError) => (s', TypeError)
    end.
Proof. reflexivity. Qed.

Lemma update_lookup_id k (fs : fields_t) :
  lookup_field k fs <> JUndef -> update_field k (lookup_field k fs) fs = fs.
Proof.
  induction fs as [|[k0 v0] fs IH]; simpl; [done|].
  destruct (String.eqb k0 k) eqn:E.
  - apply String.eqb_eq in E. by subst.
  - intros Hne. by rewrite IH.
Qed.

Lemma lookup_normField_eq k n (fs : fields_t) :
  lookup_field k (normField k n fs) = n (lookup_field k fs).
Proof. apply lookup_update_eq. Qed.

Lemma lookup_normField_ne k k' n (fs : fields_t) :
  k' <> k -> lookup_field k' (normField k n fs) = lookup_field k' fs.
Proof. apply lookup_update_ne. Qed.

Lemma normField_id k n (fs : fields_t) :
  n (lookup_field k fs) = lookup_field k fs -> lookup_field k fs <> JUndef ->
  normField k n fs = fs.
Proof. unfold normField. intros ->. apply update_lookup_id. Qed.

Lemma set_profileData_id p :
  set_profileData (rename (profileData p) (named (profileData p))) p = p.
Proof. destruct p as [? d]; simpl. by destruct d. Qed.

Lemma readProfile_run p k :
  container (profileData p) = true -> k <> "length" ->
  readProfile k p = (p, Normal (lookup_field k (named (profileData p)))).
Proof.
  intros Hc Hk. unfold readProfile. rewrite bind_run. unfold gets.
  rewrite (get_prop_container _ _ Hc Hk). reflexivity.
Qed.

Lemma writeProfile_run p k v :
  container (profileData p) = true ->
  writeProfile k v p =
    (on_fields p (update_field k v (named (profileData p))), Normal tt).
Proof.
  intros Hc. unfold writeProfile. rewrite bind_run. unfold gets.
  rewrite bind_run.
  rewrite (set_prop_container _ _ _ Hc). reflexivity.
Qed.


Lemma on_fields_container p fs :
  container (profileData p) = true -> container (profileData (on_fields p fs)) = true.
Proof. intros. simpl. by rewrite container_rename. Qed.

Lemma on_fields_named p fs :
  container (profileData p) = true -> named (profileData (on_fields p fs)) = fs.
Proof. intros. simpl. by rewrite named_rename. Qed.

Lemma on_fields_twice p fs fs' : on_fields (on_fields p fs) fs' = on_fields p fs'.
Proof. unfold on_fields; simpl. by rewrite rename_rename. Qed.

Lemma isArray_not_undef v : isArray v = true -> v <> JUndef.
Proof. by destruct v. Qed.

Lemma ensureArray_run p k fs :
  container (profileData p) = true -> k <> "length" ->
  ensureArray k (on_fields p fs) = (on_fields p (normField k normArray fs), Normal tt).
Proof.
  intros Hc Hk. unfold ensureArray.
  rewrite bind_run, readProfile_run by (done || by apply on_fields_container).
  rewrite on_fields_named by done. unfold normField, normArray.
  destruct (isArray (lookup_field k fs)) eqn:E; simpl.
  - rewrite update_lookup_id; [done|]. by apply isArray_not_undef.
  - rewrite writeProfile_run by (by apply on_fields_container).
    by rewrite on_fields_named, on_fields_twice.
Qed.

Lemma sanitizeCollections_run p fs :
  container (profileData p) = true ->
  sanitizeCollections (on_fields p fs) = (on_fields p (collectionsFields fs), Normal tt).
Proof.
  intros Hc. unfold sanitizeCollections, collectionsFields.
  repeat (rewrite bind_run, ensureArray_run by done).
  by rewrite ensureArray_run.
Qed.

Lemma rename_named v : rename v (named v) = v.
Proof. by destruct v. Qed.

Lemma container_not_undef v : container v = true -> v <> JUndef.
Proof. by destruct v. Qed.

Lemma readProfile2_run p k1 k2 fs :
  container (profileData p) = true -> k1 <> "length" -> k2 <> "length" ->
  container (lookup_field k1 fs) = true ->
  readProfile2 k1 k2 (on_fields p fs) =
    (on_fields p fs, Normal (lookup_field k2 (named (lookup_field k1 fs)))).
Proof.
  intros Hc Hk1 Hk2 Hv. unfold readProfile2.
  rewrite bind_run, readProfile_run by (done || by apply on_fields_container).
  rewrite on_fields_named by done.
  by rewrite (get_prop_container _ _ Hv Hk2).
Qed.

Lemma writeProfile2_run p k1 k2 x fs :
  container (profileData p) = true -> k1 <> "length" ->
  container (lookup_field k1 fs) = true ->
  writeProfile2 k1 k2 x (on_fields p fs) =
    (on_fields p
       (update_field k1
          (rename (lookup_field k1 fs) (update_field k2 x (named (lookup_field k1 fs))))
          fs),
     Normal tt).
Proof.
  intros Hc Hk1 Hv. unfold writeProfile2.
  rewrite bind_run, readProfile_run by (done || by apply on_fields_container).
  rewrite on_fields_named by done.
  rewrite bind_run, (set_prop_container _ _ _ Hv). simpl.
  rewrite writeProfile_run by (by apply on_fields_container).
  by rewrite on_fields_named, on_fields_twice.
Qed.

(** An in-place assignment inside the object held by [k1], when needed. *)
Lemma ensureIn_run p k1 k2 fs :
  container (profileData p) = true -> k1 <> "length" -> k2 <> "length" ->
  container (lookup_field k1 fs) = true ->
  ensureArrayIn k1 k2 (on_fields p fs) =
  (on_fields p (normField k1 (ensureIn k2) fs), Normal tt).
Proof.
  intros Hc Hk1 Hk2 Hv. unfold ensureArrayIn.
  rewrite bind_run, readProfile2_run by done.
  unfold normField, ensureIn, normField, normArray.
  destruct (isArray _) eqn:E; simpl.
  - rewrite update_lookup_id by (by apply isArray_not_undef).
    rewrite rename_named, update_lookup_id; [done|].
    by apply container_not_undef.
  - by rewrite writeProfile2_run.
Qed.

Lemma container_ensureIn k v : container (ensureIn k v) = container v.
Proof. apply container_rename. Qed.

Lemma normField_twice k n m (fs : fields_t) :
  normField k n (normField k m fs) = normField k (fun v => n (m v)) fs.
Proof. unfold normField. by rewrite lookup_update_eq, update_update. Qed.

Lemma sanitizePreferences_run p fs :
  container (profileData p) = true ->
  sanitizePreferences (on_fields p fs) =
    (on_fields p (normField "preferences" normPreferences fs), Normal tt).
Proof.
  intros Hc. unfold sanitizePreferences.
  rewrite bind_run, readProfile_run by (done || by apply on_fields_container).
  rewrite on_fields_named by done.
  rewrite notAnObject_container.
  unfold normField at 1, normPreferences.
  destruct (container (lookup_field "preferences" fs)) eqn:E; simpl.
  - rewrite bind_run, ensureIn_run by done.
    rewrite ensureIn_run; try done.
    + by rewrite normField_twice.
    + by rewrite lookup_normField_eq, container_ensureIn.
  - rewrite writeProfile_run by (by apply on_fields_container).
    by rewrite on_fields_named, on_fields_twice.
Qed.

Lemma sanitizeLinks_run p fs :
  container (profileData p) = true ->
  sanitizeLinks (on_fields p fs) =
    (on_fields p (normField "links" normLinks fs), Normal tt).
Proof.
  intros Hc. unfold sanitizeLinks.
  rewrite bind_run, readProfile_run by (done || by apply on_fields_container).
  rewrite on_fields_named by done.
  rewrite notAnObject_container.
  unfold normField, normLinks.
  destruct (container (lookup_field "links" fs)) eqn:E; simpl.
  - rewrite update_lookup_id; [done|]. by apply container_not_undef.
  - rewrite writeProfile_run by (by apply on_fields_container).
    by rewrite on_fields_named, on_fields_twice.
Qed.

Lemma sanitizeProjects_run p fs :
  container (profileData p) = true ->
  isArray (lookup_field "projects" fs) = true ->
  sanitizeProjects (on_fields p fs) =
    (on_fields p (normField "projects" normProjects fs),
     if projectsComplete (lookup_field "projects" fs) then Normal tt else TypeError).
Proof.
  intros Hc Ha. unfold sanitizeProjects.
  rewrite bind_run, readProfile_run by (done || by apply on_fields_container).
  rewrite on_fields_named by done.
  unfold normField, normProjects, projectsComplete.
  destruct (lookup_field "projects" fs) as [| | | | |items props|] eqn:E; try discriminate.
  destruct (mapProjects items) as [items' ok]. simpl.
  destruct ok.
  - rewrite writeProfile_run by (by apply on_fields_container).
    by rewrite on_fields_named, on_fields_twice.
  - rewrite bind_run, writeProfile_run by (by apply on_fields_container).
    by rewrite on_fields_named, on_fields_twice.
Qed.

Lemma on_fields_self p : on_fields p (named (profileData p)) = p.
Proof. apply set_profileData_id. Qed.

Lemma lookup_projects_records (fs : fields_t) :
  lookup_field "projects" (recordsFields fs) = normArray (lookup_field "projects" fs).
Proof.
  unfold recordsFields, collectionsFields.
  rewrite !lookup_normField_ne by done.
  rewrite lookup_normField_eq.
  by rewrite !lookup_normField_ne by done.
Qed.

Lemma isArray_normArray v : isArray (normArray v) = true.
Proof. unfold normArray. by destruct (isArray v) eqn:E. Qed.

(** On a draft that is an object or an array, sanitization is
    [sanitizeFields] on its named properties, and it throws exactly when the
    traversal of the projects does. *)
Lemma sanitize_run p :
  container (profileData p) = true ->
  sanitizeProfileData p =
    (on_fields p (sanitizeFields (named (profileData p))),
     if projectsComplete (lookup_field "projects" (recordsFields (named (profileData p))))
     then Normal tt else TypeError).
Proof.
  intros Hc. rewrite <- (on_fields_self p) at 1.
  unfold sanitizeProfileData, sanitizeFields.
  rewrite bind_run, sanitizeCollections_run by done.
  rewrite bind_run, sanitizePreferences_run by done.
  rewrite bind_run, sanitizeLinks_run by done.
  fold (recordsFields (named (profileData p))).
  rewrite sanitizeProjects_run; [done..|].
  rewrite lookup_projects_records. apply isArray_normArray.
Qed.

(** *** The normal forms are fixed points *)

Lemma normArray_fixed v : isArray v = true -> normArray v = v.
Proof. unfold normArray. by intros ->. Qed.

Lemma hasArray_named k v :
  container v = true -> k <> "length" ->
  hasArray k v = isArray (lookup_field k (named v)).
Proof. intros Hc Hk. unfold hasArray. by rewrite get_prop_container. Qed.

Lemma ensureIn_fixed k v :
  container v = true -> isArray (lookup_field k (named v)) = true -> ensureIn k v = v.
Proof.
  intros Hc Ha. unfold ensureIn.
  rewrite normField_id, rename_named; try done.
  - by apply normArray_fixed.
  - by apply isArray_not_undef.
Qed.

Lemma lookup_ensureIn_eq k v :
  container v = true ->
  lookup_field k (named (ensureIn k v)) = normArray (lookup_field k (named v)).
Proof.
  intros Hc. unfold ensureIn. by rewrite named_rename, lookup_normField_eq.
Qed.

Lemma lookup_ensureIn_ne k k' v :
  container v = true -> k' <> k ->
  lookup_field k' (named (ensureIn k v)) = lookup_field k' (named v).
Proof.
  intros Hc Hk. unfold ensureIn. by rewrite named_rename, lookup_normField_ne.
Qed.

Lemma preferencesOK_normPreferences v : preferencesOK (normPreferences v) = true.
Proof.
  unfold normPreferences. destruct (container v) eqn:Hc; [|done].
  unfold preferencesOK.
  rewrite !container_ensureIn, Hc.
  rewrite !hasArray_named by (done || by rewrite !container_ensureIn).
  rewrite lookup_ensureIn_eq by (by rewrite container_ensureIn).
  rewrite lookup_ensureIn_ne by (done || by rewrite container_ensureIn).
  rewrite lookup_ensureIn_eq by done.
  by rewrite !isArray_normArray.
Qed.

Lemma normPreferences_fixed v : preferencesOK v = true -> normPreferences v = v.
Proof.
  unfold preferencesOK, normPreferences.
  destruct (container v) eqn:Hc; [|done]. simpl.
  rewrite !hasArray_named by done.
  intros [He Hw]%andb_prop.
  rewrite (ensureIn_fixed "employment_type") by done.
  by apply ensureIn_fixed.
Qed.

Lemma normLinks_container v : container (normLinks v) = true.
Proof. unfold normLinks. by destruct (container v) eqn:E. Qed.

Lemma normLinks_fixed v : container v = true -> normLinks v = v.
Proof. unfold normLinks. by intros ->. Qed.

Lemma fixTechStack_again proj proj' :
  fixTechStack proj = Some proj' -> fixTechStack proj' = Some proj'.
Proof.
  unfold fixTechStack.
  destruct proj as [| |b|n|s|items props|fs]; try discriminate; simpl;
    try (intros [= <-]; reflexivity).
  - destruct (lookup_field "tech_stack" props) as [| | | |s|its ps|gs] eqn:E; simpl;
      intros [= <-]; simpl; rewrite ?lookup_update_eq, ?E; reflexivity.
  - destruct (lookup_field "tech_stack" fs) as [| | | |s|its ps|gs] eqn:E; simpl;
      intros [= <-]; simpl; rewrite ?lookup_update_eq, ?E; reflexivity.
Qed.

Lemma fixTechStack_fixed proj :
  hasArray "tech_stack" proj = true -> fixTechStack proj = Some proj.
Proof.
  unfold hasArray, fixTechStack.
  destruct (get_prop proj "tech_stack") as [[]|]; simpl; done.
Qed.

Lemma mapProjects_again items items' ok :
  mapProjects items = (items', ok) -> mapProjects items' = (items', ok).
Proof.
  revert items' ok. induction items as [|proj rest IH]; intros items' ok; simpl.
  - by intros [= <- <-].
  - destruct (fixTechStack proj) as [proj'|] eqn:E.
    + destruct (mapProjects rest) as [rest' ok'] eqn:Er.
      intros [= <- <-]. simpl.
      by rewrite (fixTechStack_again _ _ E), (IH _ _ eq_refl).
    + intros [= <- <-]. simpl. by rewrite E.
Qed.

Lemma mapProjects_fixed items :
  forallb (hasArray "tech_stack") items = true -> mapProjects items = (items, true).
Proof.
  induction items as [|proj rest IH]; simpl; [done|].
  intros [Hp Hr]%andb_prop.
  by rewrite (fixTechStack_fixed _ Hp), (IH Hr).
Qed.

Lemma normProjects_again v : normProjects (normProjects v) = normProjects v.
Proof.
  destruct v as [| | | | |items props|]; try done. simpl.
  destruct (mapProjects items) as [items' ok] eqn:E.
  destruct ok; simpl; by rewrite (mapProjects_again _ _ _ E).
Qed.

Lemma projectsComplete_normProjects v :
  projectsComplete (normProjects v) = projectsComplete v.
Proof.
  destruct v as [| | | | |items props|]; try done. simpl.
  destruct (mapProjects items) as [items' ok] eqn:E.
  destruct ok; simpl; by rewrite (mapProjects_again _ _ _ E).
Qed.

Lemma isArray_normProjects v : isArray (normProjects v) = isArray v.
Proof.
  destruct v as [| | | | |items props|]; try done. simpl.
  destruct (mapProjects items) as [items' []]; done.
Qed.

Lemma normProjects_fixed v : projectsOK v = true -> normProjects v = v.
Proof.
  destruct v as [| | | | |items [|]|]; try done. simpl.
  intros Hi. by rewrite (mapProjects_fixed _ Hi).
Qed.

(** *** The fields of a sanitized draft *)

Lemma lookup_sanitizeFields (fs : fields_t) k :
  lookup_field k (sanitizeFields fs) =
    if collectionKey k then normArray (lookup_field k fs)
    else if String.eqb k "projects" then normProjects (normArray (lookup_field k fs))
    else if String.eqb k "preferences" then normPreferences (lookup_field k fs)
    else if String.eqb k "links" then normLinks (lookup_field k fs)
    else lookup_field k fs.
Proof.
  unfold sanitizeFields, recordsFields, collectionsFields, collectionKey. simpl.
  repeat match goal with
  | |- context [String.eqb k ?c] =>
      destruct (String.eqb_spec k c) as [->|?]; simpl;
      [ rewrite ?lookup_normField_eq, ?lookup_normField_ne by done;
        rewrite ?lookup_normField_eq, ?lookup_normField_ne by done; reflexivity | ]
  end.
  by rewrite !lookup_normField_ne by done.
Qed.

Lemma sanitized_sanitizeFields fs : sanitized (sanitizeFields fs).
Proof.
  repeat split.
  - intros k Hk. rewrite lookup_sanitizeFields, Hk. apply isArray_normArray.
  - rewrite lookup_sanitizeFields. simpl.
    rewrite isArray_normProjects. apply isArray_normArray.
  - rewrite lookup_sanitizeFields. simpl. apply normProjects_again.
  - rewrite lookup_sanitizeFields. simpl. apply preferencesOK_normPreferences.
  - rewrite lookup_sanitizeFields. simpl. apply normLinks_container.
Qed.

Lemma preferencesOK_container v : preferencesOK v = true -> container v = true.
Proof. unfold preferencesOK. by intros [[? ?]%andb_prop ?]%andb_prop. Qed.

Lemma sanitized_records gs : sanitized gs -> recordsFields gs = gs.
Proof.
  intros (Hc & Hp & Hn & Hpref & Hl).
  unfold recordsFields, collectionsFields.
  rewrite (normField_id "education"); cycle 1.
  { apply normArray_fixed. by apply Hc. }
  { apply isArray_not_undef. by apply Hc. }
  rewrite (normField_id "skills"); cycle 1.
  { apply normArray_fixed. by apply Hc. }
  { apply isArray_not_undef. by apply Hc. }
  rewrite (normField_id "experience"); cycle 1.
  { apply normArray_fixed. by apply Hc. }
  { apply isArray_not_undef. by apply Hc. }
  rewrite (normField_id "projects"); cycle 1.
  { by apply normArray_fixed. }
  { by apply isArray_not_undef. }
  rewrite (normField_id "certifications"); cycle 1.
  { apply normArray_fixed. by apply Hc. }
  { apply isArray_not_undef. by apply Hc. }
  rewrite (normField_id "preferences"); cycle 1.
  { by apply normPreferences_fixed. }
  { apply container_not_undef. by apply preferencesOK_container. }
  rewrite (normField_id "links"); cycle 1.
  { by apply normLinks_fixed. }
  { by apply container_not_undef. }
  done.
Qed.

Lemma sanitized_fixed gs : sanitized gs -> sanitizeFields gs = gs.
Proof.
  intros Hs. unfold sanitizeFields. rewrite (sanitized_records _ Hs).
  destruct Hs as (Hc & Hp & Hn & Hpref & Hl).
  apply normField_id; [done|]. by apply isArray_not_undef.
Qed.

Lemma sanitize_other p : 
  container (profileData p) = false ->
  sanitizeProfileData p =
    (p, match profileData p with JUndef | JNull => TypeError | _ => Normal tt end).
Proof.
  destruct p as [? d]; simpl. intros Hc.
  destruct d; try discriminate; reflexivity.
Qed.

Lemma sanitize_again p :
  sanitizeProfileData (state_of (sanitizeProfileData p)) = sanitizeProfileData p.
Proof.
  destruct (container (profileData p)) eqn:Hc.
  - rewrite (sanitize_run p Hc). unfold state_of; simpl fst.
    rewrite sanitize_run by (by apply on_fields_container).
    rewrite on_fields_named, on_fields_twice by done.
    pose proof (sanitized_sanitizeFields (named (profileData p))) as Hs.
    rewrite (sanitized_fixed _ Hs), (sanitized_records _ Hs).
    rewrite lookup_sanitizeFields. simpl.
    by rewrite projectsComplete_normProjects, lookup_projects_records.
  - rewrite (sanitize_other p Hc). unfold state_of; simpl fst.
    by rewrite (sanitize_other p Hc).
Qed.

Lemma projectsOK_isArray v : projectsOK v = true -> isArray v = true.
Proof. by destruct v. Qed.

Lemma lookup_sanitizeFields_ok (fs : fields_t) k :
  shapeOK k (lookup_field k fs) = true ->
  lookup_field k (sanitizeFields fs) = lookup_field k fs.
Proof.
  rewrite lookup_sanitizeFields. unfold shapeOK.
  destruct (collectionKey k); [apply normArray_fixed|].
  destruct (String.eqb k "projects").
  { intros Hp. rewrite (normArray_fixed _ (projectsOK_isArray _ Hp)).
    by apply normProjects_fixed. }
  destruct (String.eqb k "preferences"); [apply normPreferences_fixed|].
  destruct (String.eqb k "links"); [apply normLinks_fixed|done].
Qed.

Lemma get_prop_rename d gs k :
  container d = true -> lookup_field k gs = lookup_field k (named d) ->
  get_prop (rename d gs) k = get_prop d k.
Proof. destruct d; try done; simpl; by intros _ ->. Qed.

(** C3. Sanitization is idempotent: a second run leaves the page, and the
    way the run ends, as the first did. It changes nothing of the page but
    the draft, and every field of the draft that already has its shape (and
    every field it does not know) keeps its value. *)
Theorem sanitize_idempotent p :
  sanitizeProfileData (state_of (sanitizeProfileData p)) = sanitizeProfileData p
  /\ state_of (sanitizeProfileData p) =
      set_profileData (profileData (state_of (sanitizeProfileData p))) p
  /\ forall k v,
       get_prop (profileData p) k = Some v -> shapeOK k v = true ->
       get_prop (profileData (state_of (sanitizeProfileData p))) k = Some v.
Proof.
  split; [apply sanitize_again|].
  destruct (container (profileData p)) eqn:Hc.
  - rewrite (sanitize_run p Hc). unfold state_of; simpl fst. split; [done|].
    intros k v Hk Hv. simpl. rewrite get_prop_rename; [done..|].
    apply lookup_sanitizeFields_ok.
    destruct (String.eqb_spec k "length") as [->|Hne]; [by destruct (profileData p)|].
    rewrite get_prop_container in Hk by done. by injection Hk as ->.
  - rewrite (sanitize_other p Hc). unfold state_of; simpl. split; [by destruct p|done].
Qed.

Lemma hasKey_update_ne k k' x (fs : fields_t) :
  k' <> k ->
  existsb (String.eqb k') (fst <$> update_field k x fs) =
  existsb (String.eqb k') (fst <$> fs).
Proof.
  intros Hk. induction fs as [|[k0 v0] r IH].
  - simpl. destruct (String.eqb_spec k' k); done.
  - cbn [update_field]. destruct (String.eqb_spec k0 k) as [->|Hne].
    + reflexivity.
    + rewrite !fmap_cons. cbn [existsb fst]. by rewrite IH.
Qed.

Lemma hasKey_ensureIn_ne k k' v :
  container v = true -> k' <> k -> hasKey k' (ensureIn k v) = hasKey k' v.
Proof.
  intros Hc Hk. unfold hasKey, keys, ensureIn, normField.
  rewrite named_rename by done. by apply hasKey_update_ne.
Qed.

(** C2, as the code has it. After sanitization of a draft that is an
    object, [preferences] and [links] are objects and the two tag lists of
    [preferences] are arrays. A value that was not an object is replaced by
    the record with the full set of known keys; a value that was one keeps
    its own keys: [links] is untouched, and in [preferences] only
    [employment_type] and [work_mode] are set, each one only when it is not
    an array, and then to the empty list. Every other key keeps its value
    and no key is added; a [preferences] whose two lists are arrays is left
    as it is. *)
Theorem sanitize_subrecords p fs :
  profileData p = JObj fs ->
  exists fs',
    profileData (state_of (sanitizeProfileData p)) = JObj fs' /\
    let old := lookup_field "preferences" fs in
    let preferences := lookup_field "preferences" fs' in
    let links := lookup_field "links" fs' in
    container preferences = true /\
    hasArray "employment_type" preferences = true /\
    hasArray "work_mode" preferences = true /\
    container links = true /\
    (container old = false ->
       preferences = defaultPreferences /\ keys preferences = preferencesKeys) /\
    (container (lookup_field "links" fs) = false ->
       links = defaultLinks /\ keys links = linksKeys) /\
    (container old = true ->
       (forall k, k <> "employment_type" -> k <> "work_mode" ->
          lookup_field k (named preferences) = lookup_field k (named old)
          /\ hasKey k preferences = hasKey k old)
       /\ (forall k, k = "employment_type" \/ k = "work_mode" ->
             lookup_field k (named preferences) =
               if isArray (lookup_field k (named old))
               then lookup_field k (named old) else arr [])
       /\ preferences = rename old (named preferences)
       /\ (hasArray "employment_type" old = true ->
           hasArray "work_mode" old = true -> preferences = old)) /\
    (container (lookup_field "links" fs) = true ->
       links = lookup_field "links" fs).
Proof.
  intros Hd. assert (container (profileData p) = true) as Hc by (by rewrite Hd).
  exists (sanitizeFields fs).
  rewrite (sanitize_run p Hc). unfold state_of; simpl. rewrite Hd. simpl.
  split; [done|].
  rewrite !lookup_sanitizeFields. simpl.
  pose proof (preferencesOK_normPreferences (lookup_field "preferences" fs)) as Hp.
  unfold preferencesOK in Hp.
  apply andb_prop in Hp as [[Hp1 Hp2]%andb_prop Hp3].
  split; [done|]. split; [done|]. split; [done|].
  split; [apply normLinks_container|].
  split; [|split; [|split]].
  - unfold normPreferences. by intros ->.
  - unfold normLinks. by intros ->.
  - intros Hv. unfold normPreferences. rewrite Hv.
    assert (container (ensureIn "employment_type" (lookup_field "preferences" fs)) = true)
      as Hv' by (by rewrite container_ensureIn).
    split; [|split; [|split]].
    + intros k Hk1 Hk2. split.
      * by rewrite !lookup_ensureIn_ne.
      * by rewrite !hasKey_ensureIn_ne.
    + intros k [->| ->].
      * by rewrite lookup_ensureIn_ne, lookup_ensureIn_eq.
      * by rewrite lookup_ensureIn_eq, lookup_ensureIn_ne.
    + clear Hv'. by destruct (lookup_field "preferences" fs).
    + intros Ha1 Ha2. rewrite hasArray_named in Ha1, Ha2 by done.
      by rewrite (ensureIn_fixed "employment_type"), ensureIn_fixed.
  - apply normLinks_fixed.
Qed.

End SanitizeFacts.

(** ** The wizard *)

Section WizardFacts.
Context `{JsNumber} `{Template}.

Lemma checkRequired_run names p :
  checkRequired names p =
    match List.find (blank p) names with
    | None => (p, Normal true)
    | Some name =>
        (set_events (events p ++ [Notify ("Please fill in: " +:+ labelOf name) "warning";
                                  Focus name]) p, Normal false)
    end.
Proof.
  induction names as [|name rest IH]; simpl; [done|].
  rewrite bind_run. unfold inputValue, gets, blank at 1.
  destruct (negb _) eqn:E; [|apply IH].
  unfold showNotification, emit, modify. rewrite !bind_run. simpl.
  by rewrite <- app_assoc.
Qed.

Lemma trim_empty_blank s : Str.nonempty s = false -> Str.nonempty (Str.trim s) = false.
Proof. by destruct s. Qed.

Lemma find_blank p names :
  forallb (fun name => Str.nonempty (inputs p name)) names = false ->
  exists name, List.find (blank p) names = Some name.
Proof.
  induction names as [|name rest IH]; simpl; [done|].
  unfold blank at 1.
  destruct (Str.nonempty (inputs p name)) eqn:E; simpl.
  - intros Hr. destruct (negb _); [by eexists|by apply IH].
  - intros _. rewrite (trim_empty_blank _ E). by eexists.
Qed.

Lemma isEmptyCollection_array k p items props :
  k <> "length" ->
  get_prop (profileData p) k = Some (JArr items props) ->
  isEmptyCollection k p = (p, Normal (match items with [] => true | _ => false end)).
Proof.
  intros Hk Hg. unfold isEmptyCollection, readProfile.
  rewrite !bind_run. unfold gets. rewrite Hg. simpl.
  rewrite bind_run. unfold comp_ret, mret, comp_mret, comp_ret. simpl.
  rewrite num_of_Z_is_zero. by destruct items.
Qed.

Lemma validateStep_step step p :
  currentStep (state_of (validateStep step p)) = currentStep p.
Proof.
  unfold validateStep. rewrite bind_run, checkRequired_run.
  destruct (List.find _ _); [done|]. simpl.
  rewrite bind_run.
  assert (forall k, currentStep (state_of (isEmptyCollection k p)) = currentStep p) as He.
  { intros k. unfold isEmptyCollection, readProfile. rewrite !bind_run. unfold gets.
    destruct (get_prop (profileData p) k) as [c|]; [|done]. simpl.
    by destruct (get_prop c "length"). }
  assert (forall k, exists o, isEmptyCollection k p = (p, o)) as He'.
  { intros k. unfold isEmptyCollection, readProfile. rewrite !bind_run. unfold gets.
    destruct (get_prop (profileData p) k) as [c|]; [|by eexists]. simpl.
    destruct (get_prop c "length"); by eexists. }
  destruct (step =? 2)%Z.
  - destruct (He' "education") as [[[]|] ->]; try done.
    rewrite bind_run. destruct (step =? 3)%Z; [|done].
    destruct (He' "skills") as [[[]|] ->]; done.
  - simpl. rewrite bind_run. destruct (step =? 3)%Z; [|done].
    destruct (He' "skills") as [[[]|] ->]; done.
Qed.

Lemma draftField_array k p :
  isArray (draftField k p) = true ->
  exists items props, get_prop (profileData p) k = Some (JArr items props).
Proof.
  unfold draftField. destruct (get_prop (profileData p) k) as [[]|]; try done.
  by eexists _, _.
Qed.

Lemma collectionNonEmpty_array k p items props :
  get_prop (profileData p) k = Some (JArr items props) ->
  collectionNonEmpty k p = match items with [] => false | _ => true end.
Proof. unfold collectionNonEmpty, draftField. intros ->. by destruct items. Qed.

Lemma warned_emit p message rest :
  warned p (set_events (events p ++ Notify message "warning" :: rest) p).
Proof. by exists message, rest. Qed.

(** When the condition of the specification fails, validation fails with a
    warning. *)
Lemma validateStep_blocked p :
  isArray (draftField "education" p) = true ->
  isArray (draftField "skills" p) = true ->
  mayAdvance p = false ->
  exists p', validateStep (currentStep p) p = (p', Normal false)
             /\ warned p p' /\ currentStep p' = currentStep p.
Proof.
  intros (edu & eprops & He)%draftField_array (skl & sprops & Hs)%draftField_array Hm.
  unfold validateStep. rewrite bind_run, checkRequired_run.
  destruct (List.find _ _) as [name|] eqn:Ef.
  { eexists. split; [reflexivity|]. split; [apply warned_emit|reflexivity]. }
  simpl. unfold mayAdvance in Hm.
  destruct (forallb _ _) eqn:Ea; simpl in Hm.
  2:{ apply find_blank in Ea as [name Hn]. congruence. }
  rewrite bind_run.
  destruct (currentStep p =? 2)%Z eqn:E2.
  - rewrite (isEmptyCollection_array "education" _ _ _ ltac:(done) He).
    rewrite (collectionNonEmpty_array _ _ _ _ He) in Hm.
    assert ((currentStep p =? 3)%Z = false) as E3 by lia. rewrite E3 in Hm.
    destruct edu as [|e edu]; [|done]. simpl.
    unfold showNotification, emit, modify. rewrite ?bind_run. simpl.
    eexists. split; [reflexivity|]. split; [|reflexivity].
    by exists "Please add at least one education entry", [].
  - simpl in Hm. simpl. rewrite ?bind_run.
    destruct (currentStep p =? 3)%Z eqn:E3; [|done].
    rewrite (isEmptyCollection_array "skills" _ _ _ ltac:(done) Hs).
    rewrite (collectionNonEmpty_array _ _ _ _ Hs) in Hm.
    destruct skl as [|e skl]; [|done]. simpl.
    unfold showNotification, emit, modify. rewrite ?bind_run. simpl.
    eexists. split; [reflexivity|]. split; [|reflexivity].
    by exists "Please add at least one skill", [].
Qed.

Lemma collectionNonEmpty_get k p :
  collectionNonEmpty k p = true ->
  exists x items props, get_prop (profileData p) k = Some (JArr (x :: items) props).
Proof.
  unfold collectionNonEmpty, draftField.
  destruct (get_prop (profileData p) k) as [[| | | | |[|x items] props|]|]; try done.
  by eexists _, _, _.
Qed.

(** When no required control is blank and the collection of the step is not
    empty, validation succeeds and leaves the page as it is. *)
Lemma validateStep_passes p :
  List.find (blank p) (requiredInputs (currentStep p)) = None ->
  (currentStep p = 2%Z -> collectionNonEmpty "education" p = true) ->
  (currentStep p = 3%Z -> collectionNonEmpty "skills" p = true) ->
  validateStep (currentStep p) p = (p, Normal true).
Proof.
  intros Hf H2 H3. unfold validateStep.
  rewrite bind_run, checkRequired_run, Hf. simpl. rewrite bind_run.
  destruct (currentStep p =? 2)%Z eqn:E2.
  - destruct (collectionNonEmpty_get _ _ (H2 ltac:(lia))) as (x & items & props & Hg).
    rewrite (isEmptyCollection_array "education" _ _ _ ltac:(done) Hg). rewrite bind_run.
    assert ((currentStep p =? 3)%Z = false) as -> by lia. reflexivity.
  - simpl. rewrite ?bind_run.
    destruct (currentStep p =? 3)%Z eqn:E3; [|reflexivity].
    destruct (collectionNonEmpty_get _ _ (H3 ltac:(lia))) as (x & items & props & Hg).
    by rewrite (isEmptyCollection_array "skills" _ _ _ ltac:(done) Hg).
Qed.

Lemma nextStep_run p :
  nextStep p =
    match validateStep (currentStep p) p with
    | (p1, Normal valid) =>
        if negb valid then (p1, Normal tt)
        else if (currentStep p1 <? totalSteps)%Z
             then (modify (set_currentStep (currentStep p1 + 1));;
                   updateProgress;; scrollToTop) p1
             else (p1, Normal tt)
    | (p1, TypeError) => (p1, TypeError)
    end.
Proof.
  unfold nextStep. cbv [mbind comp_mbind comp_bind gets].
  destruct (validateStep _ p) as [p1 [valid|]]; [|done].
  destruct valid; simpl; [|done].
  by destruct (_ <? _)%Z.
Qed.

Lemma nextStep_moves p :
  currentStep (state_of (nextStep p)) = currentStep p \/
  (currentStep (state_of (nextStep p)) = (currentStep p + 1)%Z
   /\ (currentStep p < totalSteps)%Z).
Proof.
  rewrite nextStep_run.
  pose proof (validateStep_step (currentStep p) p) as Hs.
  destruct (validateStep (currentStep p) p) as [p1 [[]|]]; unfold state_of in Hs;
    simpl in Hs; [|by left..].
  simpl. rewrite Hs.
  destruct (currentStep p <? totalSteps)%Z eqn:E; [|by left].
  right. split; [done|lia].
Qed.

Lemma prevStep_moves p :
  currentStep (state_of (prevStep p)) =
    if (currentStep p >? 1)%Z then (currentStep p - 1)%Z else currentStep p.
Proof.
  unfold prevStep. rewrite bind_run. unfold gets.
  by destruct (currentStep p >? 1)%Z.
Qed.

(** C5. The step stays within 1..5 under [nextStep] and [prevStep].
    [nextStep] moves by at most one step forward; on a draft whose
    education and skills are arrays it leaves the step where it is, with a
    warning, whenever a required control of the step is empty or the
    collection of step 2 or 3 is empty; it does advance by one when no
    required control is blank, the collection of the step is not empty and
    the step is below 5. [prevStep] goes back by exactly one above step 1
    and stays at step 1 otherwise; showing the wizard sets the step to 1. *)
Theorem wizard_step_bounds p :
  let next := state_of (nextStep p) in
  let prev := state_of (prevStep p) in
  ((1 <= currentStep p <= totalSteps)%Z ->
     (1 <= currentStep next <= totalSteps)%Z /\ (1 <= currentStep prev <= totalSteps)%Z)
  /\ (currentStep next = currentStep p \/ currentStep next = (currentStep p + 1)%Z)
  /\ (isArray (draftField "education" p) = true ->
      isArray (draftField "skills" p) = true ->
      mayAdvance p = false ->
      currentStep next = currentStep p /\ warned p next)
  /\ (List.find (blank p) (requiredInputs (currentStep p)) = None ->
      (currentStep p = 2%Z -> collectionNonEmpty "education" p = true) ->
      (currentStep p = 3%Z -> collectionNonEmpty "skills" p = true) ->
      (currentStep p < totalSteps)%Z ->
      currentStep next = (currentStep p + 1)%Z)
  /\ ((currentStep p > 1)%Z -> currentStep prev = (currentStep p - 1)%Z)
  /\ ((currentStep p <= 1)%Z -> currentStep prev = currentStep p)
  /\ currentStep (state_of (showWizardView p)) = 1%Z.
Proof.
  intros next prev. subst next prev.
  pose proof (nextStep_moves p) as Hn. pose proof (prevStep_moves p) as Hp.
  unfold totalSteps in *.
  split; [|split; [|split; [|split; [|split; [|split; [|reflexivity]]]]]].
  - intros Hb. destruct (currentStep p >? 1)%Z eqn:E; lia.
  - tauto.
  - intros He Hs Hm.
    destruct (validateStep_blocked p He Hs Hm) as (p' & Hv & Hw & Hc).
    rewrite nextStep_run, Hv. simpl. done.
  - intros Hf H2 H3 Hlt.
    rewrite nextStep_run, (validateStep_passes p Hf H2 H3). simpl.
    assert ((currentStep p <? totalSteps)%Z = true) as -> by (unfold totalSteps; lia).
    done.
  - intros Hgt. rewrite Hp. assert ((currentStep p >? 1)%Z = true) as -> by lia. done.
  - intros Hle. rewrite Hp. assert ((currentStep p >? 1)%Z = false) as -> by lia. done.
Qed.

End WizardFacts.

(** ** The sub-collection editors *)

Section EditorFacts.
Context `{JsNumber} `{Template}.

Lemma get_array_container d k items props :
  get_prop d k = Some (JArr items props) -> container d = true.
Proof.
  destruct d; try done; simpl.
  destruct (String.eqb k "length"); done.
Qed.

Lemma key_not_length e : key e <> "length".
Proof. by destruct e. Qed.

(** The effect of a change of the array held by the field [k]. *)
Lemma changeArray_run k (f : list jsval -> list jsval) p items props :
  k <> "length" ->
  get_prop (profileData p) k = Some (JArr items props) ->
  exists p',
    writeProfile k (JArr (f items) props) p = (p', Normal tt)
    /\ get_prop (profileData p') k = Some (JArr (f items) props)
    /\ p' = set_profileData (profileData p') p.
Proof.
  intros Hk Hg. pose proof (get_array_container _ _ _ _ Hg) as Hc.
  rewrite writeProfile_run by done. eexists. split; [reflexivity|].
  split; [|reflexivity]. simpl.
  rewrite get_prop_container by (done || by rewrite container_rename).
  by rewrite named_rename, lookup_update_eq.
Qed.

Lemma storeEntry_run k i x p items props :
  k <> "length" ->
  get_prop (profileData p) k = Some (JArr items props) ->
  exists p',
    storeEntry k i x p = (p', Normal tt)
    /\ get_prop (profileData p') k =
         Some (JArr (if (i >=? 0)%Z then array_set items (Z.to_nat i) x
                     else (items ++ [x])%list) props)
    /\ p' = set_profileData (profileData p') p.
Proof.
  intros Hk Hg. unfold storeEntry.
  destruct (i >=? 0)%Z.
  - unfold assignProfileIndex, readProfile. rewrite !bind_run. unfold gets.
    rewrite Hg. simpl.
    by apply (changeArray_run k (fun l => array_set l (Z.to_nat i) x)).
  - unfold pushProfile, readProfile. rewrite !bind_run. unfold gets.
    rewrite Hg. simpl.
    by apply (changeArray_run k (fun l => (l ++ [x])%list)).
Qed.

Lemma spliceProfile_run k i p items props :
  k <> "length" ->
  get_prop (profileData p) k = Some (JArr items props) ->
  exists p',
    spliceProfile k i p = (p', Normal tt)
    /\ get_prop (profileData p') k = Some (JArr (splice1 items i) props)
    /\ p' = set_profileData (profileData p') p.
Proof.
  intros Hk Hg. unfold spliceProfile, readProfile. rewrite !bind_run. unfold gets.
  rewrite Hg. simpl.
  by apply (changeArray_run k (fun l => splice1 l i)).
Qed.

(** Rendering a list writes markup only. *)
Lemma renderList_draft id k r p :
  profileData (state_of (renderList id k r p)) = profileData p.
Proof.
  unfold renderList, isEmptyCollection, readProfile.
  cbv [mbind comp_mbind comp_bind gets lift comp_ret throw state_of mret comp_mret].
  destruct (get_prop (profileData p) k) as [c|] eqn:Eg; [|done].
  destruct (get_prop c "length") as [n|]; [|done].
  destruct (is_zero n); [done|]. rewrite Eg.
  destruct c as [| | | | |its ps|]; try done. by destruct (forallb r its).
Qed.

(** What follows the change of the draft in a save or a delete leaves the
    draft as it is. *)
Lemma tail_draft id k r (rest : comp page unit) p :
  (forall q, profileData (state_of (rest q)) = profileData q) ->
  profileData (state_of ((renderList id k r;; rest) p)) = profileData p.
Proof.
  intros Hr. rewrite bind_run.
  pose proof (renderList_draft id k r p) as Hd.
  destruct (renderList id k r p) as [p1 [[]|]]; unfold state_of in *; simpl in *;
    [|done]. by rewrite Hr.
Qed.

Lemma seq_draft (c : comp page unit) (rest : comp page unit) p p1 :
  c p = (p1, Normal tt) ->
  (forall q, profileData (state_of (rest q)) = profileData q) ->
  profileData (state_of ((c;; rest) p)) = profileData p1.
Proof. intros Hc Hr. rewrite bind_run, Hc. apply Hr. Qed.

Lemma collection_get k p items props :
  get_prop (profileData p) k = Some (JArr items props) -> collection k p = Some items.
Proof. unfold collection. by intros ->. Qed.

Lemma collection_draft k p q :
  profileData p = profileData q -> collection k p = collection k q.
Proof. unfold collection. by intros ->. Qed.

(** The collection after a save. *)
Lemma saveEntry_collection e p items props :
  get_prop (profileData p) (key e) = Some (JArr items props) ->
  collection (key e) (state_of (saveEntry e p)) =
    Some (if accepted e p
          then if (sentinel e p >=? 0)%Z
               then array_set items (Z.to_nat (sentinel e p)) (submitted e p)
               else (items ++ [submitted e p])%list
          else items).
Proof.
  intros Hg.
  destruct (storeEntry_run (key e) (sentinel e p) (submitted e p) p items props
              (key_not_length e) Hg) as (p1 & Hs & Hg1 & _).
  destruct e; simpl in *;
    try (unfold saveEducationEntry, saveSkillEntry, saveExperienceEntry,
           saveCertificationEntry;
         rewrite bind_run; unfold gets at 1; simpl;
         rewrite bind_run; unfold gets at 1; simpl;
         rewrite <- (collection_get _ _ _ _ Hg1);
         apply collection_draft, (seq_draft _ _ _ _ Hs);
         intros q; apply tail_draft; intros q'; reflexivity).
  unfold saveProjectEntry. rewrite bind_run. unfold inputValue, gets at 1. simpl.
  destruct (length (splitTags (inputs p "proj_tech_stack")) =? 0)%nat eqn:E; simpl.
  - by apply collection_get in Hg.
  - rewrite bind_run; unfold gets at 1; simpl.
    rewrite bind_run; unfold gets at 1; simpl.
    rewrite <- (collection_get _ _ _ _ Hg1).
    apply collection_draft, (seq_draft _ _ _ _ Hs).
    intros q; apply tail_draft; intros q'; reflexivity.
Qed.

Lemma deleteEntry_collection e p items props i :
  get_prop (profileData p) (key e) = Some (JArr items props) ->
  collection (key e) (state_of (deleteEntry e i true p)) = Some (splice1 items i).
Proof.
  intros Hg.
  destruct (spliceProfile_run (key e) i p items props (key_not_length e) Hg)
    as (p1 & Hs & Hg1 & _).
  rewrite <- (collection_get _ _ _ _ Hg1).
  destruct e; simpl in *;
    unfold deleteEducation, deleteSkill, deleteExperience, deleteProject,
      deleteCertification;
    apply collection_draft, (seq_draft _ _ _ _ Hs);
    intros q; apply tail_draft; intros q'; reflexivity.
Qed.

Lemma splice1_in_range (items : list jsval) (i : nat) :
  (i < length items)%nat -> splice1 items (Z.of_nat i) = delete i items.
Proof.
  intros Hi. unfold splice1.
  assert ((Z.of_nat i <? 0)%Z = false) as -> by lia.
  f_equal. lia.
Qed.

Lemma array_set_in_range (items : list jsval) (i : nat) x :
  (i < length items)%nat -> array_set items i x = <[i := x]> items.
Proof. intros Hi. unfold array_set. by rewrite decide_True. Qed.

Lemma open_close_draft e p :
  profileData (state_of (openForm e p)) = profileData p
  /\ profileData (state_of (closeModal e p)) = profileData p.
Proof. by destruct e. Qed.

(** C4, as the code has it. A save that goes through (for a project: one
    whose tag input yields at least one tag) appends the submitted record
    when the editing index is negative, leaving the entries before it as
    they were, and replaces the entry at the editing index when that index
    is within the list, leaving its length and the other entries as they
    were. *)
Theorem save_appends_or_replaces e p items props :
  get_prop (profileData p) (key e) = Some (JArr items props) ->
  accepted e p = true ->
  ((sentinel e p < 0)%Z ->
     collection (key e) (state_of (saveEntry e p)) =
       Some (items ++ [submitted e p])%list)
  /\ (forall i : nat,
        sentinel e p = Z.of_nat i -> (i < length items)%nat ->
        exists items',
          collection (key e) (state_of (saveEntry e p)) = Some items'
          /\ length items' = length items
          /\ items' !! i = Some (submitted e p)
          /\ forall j, j <> i -> items' !! j = items !! j).
Proof.
  intros Hg Ha. rewrite (saveEntry_collection e p items props Hg), Ha. split.
  - intros Hs. by assert ((sentinel e p >=? 0)%Z = false) as -> by lia.
  - intros i Hs Hi. assert ((sentinel e p >=? 0)%Z = true) as -> by lia.
    rewrite Hs, Nat2Z.id, array_set_in_range by done.
    eexists. split; [reflexivity|]. split; [apply length_insert|].
    split; [by apply list_lookup_insert_eq|].
    intros j Hj. by apply list_lookup_insert_ne.
Qed.

(** C6. A project whose tag input yields no tag is not saved: the page is
    left as it was but for the warning, so the projects, the editing index
    and the open modal are unchanged. *)
Theorem project_without_tags_rejected p :
  splitTags (inputs p "proj_tech_stack") = [] ->
  let p' := state_of (saveProjectEntry p) in
  saveProjectEntry p =
    (set_events
       (events p ++ [Notify "Please add at least one technology in Tech Stack" "warning"]) p,
     Normal tt)
  /\ profileData p' = profileData p
  /\ collection "projects" p' = collection "projects" p
  /\ editingProject p' = editingProject p
  /\ (forall id, hidden p' id = hidden p id)
  /\ warned p p'.
Proof.
  intros Ht. unfold saveProjectEntry.
  rewrite bind_run. unfold inputValue, gets at 1. simpl. rewrite Ht. simpl.
  repeat split. by eexists _, [].
Qed.

(** C9. A confirmed delete at an index within the list removes exactly that
    entry: the list is one shorter, the entries before the index stay and
    those after it move down by one. A delete that is not confirmed does
    nothing. *)
Theorem delete_removes_one e p items props (i : nat) :
  get_prop (profileData p) (key e) = Some (JArr items props) ->
  (i < length items)%nat ->
  (exists items',
     collection (key e) (state_of (deleteEntry e (Z.of_nat i) true p)) = Some items'
     /\ length items' = (length items - 1)%nat
     /\ (forall j, (j < i)%nat -> items' !! j = items !! j)
     /\ (forall j, (i < j)%nat -> items' !! (j - 1)%nat = items !! j))
  /\ deleteEntry e (Z.of_nat i) false p = (p, Normal tt).
Proof.
  intros Hg Hi. split; [|by destruct e].
  rewrite (deleteEntry_collection e p items props _ Hg), splice1_in_range by done.
  eexists. split; [reflexivity|]. split; [|split].
  - rewrite length_delete; [lia|]. by apply lookup_lt_is_Some_2.
  - intros j Hj. by apply list_lookup_delete_lt.
  - intros j Hj. rewrite list_lookup_delete_ge by lia. f_equal. lia.
Qed.

(** C10, as the code has it. Opening a form for creation and closing a
    modal both set the editing index of the editor to -1, so a save that
    follows, whatever the user typed meanwhile, keeps every entry of the
    list in place and, when it goes through, appends the submitted record;
    a project whose tag input yields no tag is not saved. *)
Theorem sentinel_reset e p :
  sentinel e (state_of (openForm e p)) = (-1)%Z
  /\ sentinel e (state_of (closeModal e p)) = (-1)%Z
  /\ forall items props values checks q,
       get_prop (profileData p) (key e) = Some (JArr items props) ->
       q = typing values checks (state_of (openForm e p))
       \/ q = typing values checks (state_of (closeModal e p)) ->
       exists items',
         collection (key e) (state_of (saveEntry e q)) = Some items'
         /\ items `prefix_of` items'
         /\ items' = if accepted e q then (items ++ [submitted e q])%list else items.
Proof.
  split; [by destruct e|]. split; [by destruct e|].
  intros items props values checks q Hg Hq.
  assert (profileData q = profileData p /\ sentinel e q = (-1)%Z) as [Hd Hs].
  { destruct Hq as [-> | ->]; by destruct e. }
  rewrite <- Hd in Hg.
  rewrite (saveEntry_collection e q items props Hg), Hs. simpl.
  eexists. split; [reflexivity|]. split; [|done].
  destruct (accepted e q); [by apply prefix_app_r|done].
Qed.

End EditorFacts.

(** ** Strings *)

Section StringFacts.

Lemma str_app_cons c (a b : string) : String c a +:+ b = String c (a +:+ b).
Proof. reflexivity. Qed.

Lemma str_app_nil_l (a : string) : "" +:+ a = a.
Proof. reflexivity. Qed.

Lemma str_app_nil_r (a : string) : a +:+ "" = a.
Proof. induction a as [|c a IH]; [done|]. by rewrite str_app_cons, IH. Qed.

Lemma str_app_assoc (a b c : string) : (a +:+ b) +:+ c = a +:+ (b +:+ c).
Proof.
  induction a as [|x a IH]; [done|]. by rewrite !str_app_cons, IH.
Qed.

Lemma count_app x (a b : string) :
  Str.count x (a +:+ b) = (Str.count x a + Str.count x b)%nat.
Proof.
  induction a as [|c a IH]; [done|].
  rewrite str_app_cons. simpl. rewrite IH. lia.
Qed.

Lemma count_double_quotes x s :
  x <> Str.dquote -> Str.count x (Str.double_quotes s) = Str.count x s.
Proof.
  intros Hx. induction s as [|c s IH]; simpl; [done|].
  destruct (Ascii.eqb c Str.dquote) eqn:E; simpl; rewrite IH; [|done].
  apply Ascii.eqb_eq in E.
  assert (Ascii.eqb c x = false) as -> by (apply Ascii.eqb_neq; congruence).
  done.
Qed.

Lemma count_quotes_doubled s :
  Str.count Str.dquote (Str.double_quotes s) = (2 * Str.count Str.dquote s)%nat.
Proof.
  induction s as [|c s IH]; simpl; [done|].
  destruct (Ascii.eqb c Str.dquote) eqn:E; simpl; rewrite E, IH; lia.
Qed.

Lemma undouble_double_quotes s : Dashboard.undouble (Str.double_quotes s) = s.
Proof.
  induction s as [|c s IH]; simpl; [done|].
  destruct (Ascii.eqb c Str.dquote) eqn:E; simpl; rewrite E, ?E, IH; done.
Qed.

Lemma count_join x sep (l : list string) :
  Str.count x sep = 0%nat ->
  Str.count x (Str.join sep l) = foldr (fun s n => (Str.count x s + n)%nat) 0%nat l.
Proof.
  intros Hs. induction l as [|a l IH]; simpl; [done|].
  destruct l as [|b l]; simpl in *; [lia|].
  rewrite !count_app, Hs, IH. lia.
Qed.

End StringFacts.

(** ** The dashboard: CSV export *)

Section CsvFacts.
Context `{JsNumber} `{!Dashboard.ChartJs}.
Import Dashboard.

Lemma lineFeeds_quoted s : lineFeeds (quoted s) = lineFeeds s.
Proof.
  unfold lineFeeds, quoted. simpl. rewrite count_app. simpl.
  rewrite count_double_quotes by done. lia.
Qed.

Lemma csvValue_cellText r col :
  csvValue r col =
    if isNullish (lookup_field col r) then "" else quoted (cellText r col).
Proof. unfold csvValue, cellText. by destruct (lookup_field col r). Qed.

Lemma lineFeeds_csvValue r col : lineFeeds (csvValue r col) = lineFeeds (cellText r col).
Proof.
  rewrite csvValue_cellText. unfold cellText.
  destruct (lookup_field col r); simpl; try done; by rewrite lineFeeds_quoted.
Qed.

(** The accumulation of [csv += ...] yields the lines one after the other. *)
Lemma fold_lines (f : row -> string) rows acc :
  fold_left (fun csv r => csv +:+ f r +:+ newline) rows acc =
  acc +:+ linesText (f <$> rows).
Proof.
  revert acc. induction rows as [|r rows IH]; intros acc; simpl.
  - by rewrite str_app_nil_r.
  - rewrite IH. by rewrite !str_app_assoc.
Qed.

Lemma csvText_lines first rows :
  csvText first rows = linesText (headerLine first :: (rowLine first <$> rows)).
Proof. unfold csvText. rewrite fold_lines. simpl. by rewrite str_app_assoc. Qed.

Lemma lineFeeds_linesText ls :
  lineFeeds (linesText ls) = (length ls + foldr (fun s n => lineFeeds s + n) 0 ls)%nat.
Proof.
  induction ls as [|l ls IH]; simpl; [done|].
  unfold lineFeeds in *. rewrite !count_app, IH. simpl. lia.
Qed.

Lemma lineFeeds_cells (f g : string -> string) cols :
  (forall col, lineFeeds (f col) = lineFeeds (g col)) ->
  forallb (fun col => (lineFeeds (g col) =? 0)%nat) cols = true ->
  lineFeeds (Str.join "," (f <$> cols)) = 0%nat.
Proof.
  intros Hfg Hc. unfold lineFeeds. rewrite count_join by done.
  induction cols as [|c cols IH]; [done|].
  simpl in Hc. apply andb_prop in Hc as [Hc1 Hc2]. apply Nat.eqb_eq in Hc1.
  rewrite fmap_cons. cbn [foldr]. fold (lineFeeds (f c)). rewrite Hfg, Hc1.
  by apply IH.
Qed.

Lemma lineFeeds_rows first rows :
  forallb (fun r => forallb (fun col => (lineFeeds (cellText r col) =? 0)%nat)
                      (columnsOf first)) rows = true ->
  foldr (fun s n => lineFeeds s + n)%nat 0%nat (rowLine first <$> rows) = 0%nat.
Proof.
  induction rows as [|r rows IH]; [done|].
  intros Hall. simpl in Hall. apply andb_prop in Hall as [Hr Hrs].
  rewrite fmap_cons. cbn [foldr]. rewrite (IH Hrs).
  unfold rowLine.
  by rewrite (lineFeeds_cells (csvValue r) (cellText r) _ (lineFeeds_csvValue r) Hr).
Qed.

(** C7, as the code has it. For a non-empty dataset of R rows the export
    is made of R+1 records, each closed by a line feed: a header naming the
    columns of the first row, then one record per row in order. A value
    that is neither [null] nor [undefined] is wrapped in double quotes with
    every double quote of it doubled (and can be read back); [null] and
    [undefined] give an empty cell. The text has exactly R+1 line feeds
    when no column name and no value holds one. *)
Theorem csv_export now d first rest :
  currentRawData d = first :: rest ->
  let rows := first :: rest in
  exists filename text,
    exportToCSV now d = Download filename text
    /\ text = linesText (headerLine first :: (rowLine first <$> rows))
    /\ length (headerLine first :: (rowLine first <$> rows)) = S (length rows)
    /\ (forall r col,
          csvValue r col =
            if isNullish (lookup_field col r) then "" else quoted (cellText r col))
    /\ (forall s, exists body,
          quoted s = String Str.dquote (body +:+ String Str.dquote "")
          /\ undouble body = s
          /\ Str.count Str.dquote body = (2 * Str.count Str.dquote s)%nat)
    /\ (lineFree first rows = true -> lineFeeds text = S (length rows)).
Proof.
  intros Hd rows. subst rows. unfold exportToCSV. rewrite Hd.
  eexists _, _. split; [reflexivity|].
  split; [apply csvText_lines|].
  split; [simpl; by rewrite length_fmap|].
  split; [apply csvValue_cellText|].
  split.
  - intros s. exists (Str.double_quotes s). split; [done|].
    split; [apply undouble_double_quotes|apply count_quotes_doubled].
  - intros [Hc Hr]%andb_prop. rewrite csvText_lines, lineFeeds_linesText.
    cbn [foldr]. rewrite (lineFeeds_rows first _ Hr).
    unfold headerLine.
    rewrite (lineFeeds_cells quoted (fun col => col) _ lineFeeds_quoted Hc).
    cbn [length]. rewrite length_fmap. cbn [length]. lia.
Qed.
End CsvFacts.

(** ** The dashboard: charts *)

Section ChartFacts.
Context `{JsNumber} `{!Dashboard.ChartJs}.
Import Dashboard.

Lemma get_prop_some v k : isNullish v = false -> exists x, get_prop v k = Some x.
Proof. destruct v; try done; by eexists. Qed.

Lemma truthy_not_nullish v : truthy v = true -> isNullish v = false.
Proof. by destruct v. Qed.

Lemma get_index_some v i : isNullish v = false -> exists x, get_index v i = Some x.
Proof. destruct v; try done; by eexists. Qed.

Lemma firstDataset_some cd :
  isNullish cd = false -> exists d0, firstDataset cd = Some d0.
Proof.
  intros Hn. unfold firstDataset.
  destruct (get_prop_some cd "datasets" Hn) as [ds ->]. simpl.
  destruct (truthy ds) eqn:E; [|by eexists].
  apply (get_index_some _ 0), truthy_not_nullish, E.
Qed.

(** Chart data that is present always yields labels and values. *)
Lemma chartSeries_some cd :
  isNullish cd = false ->
  exists l v, chartSeries cd = Some (l, v) /\ isNullish l = false.
Proof.
  intros Hn. unfold chartSeries.
  destruct (get_prop_some cd "labels" Hn) as [l0 ->]. simpl.
  destruct (firstDataset_some cd Hn) as [d0 ->]. simpl.
  destruct (truthy l0 && isArray l0) eqn:El.
  - apply andb_prop in El as [Ht _]. apply truthy_not_nullish in Ht.
    destruct (truthy d0) eqn:Ed.
    + destruct (get_prop_some d0 "data" (truthy_not_nullish _ Ed)) as [v ->].
      simpl. by eexists _, _.
    + destruct (get_prop_some cd "data" Hn) as [v ->]. simpl. by eexists _, _.
  - destruct (truthy d0) eqn:Ed; [|by eexists _, _].
    destruct (get_prop_some d0 "labels" (truthy_not_nullish _ Ed)) as [l1 ->].
    destruct (get_prop_some d0 "data" (truthy_not_nullish _ Ed)) as [v ->].
    simpl. eexists _, _. split; [reflexivity|].
    destruct (truthy l1) eqn:E1; [by apply truthy_not_nullish|done].
Qed.

Lemma newCharts_app l1 l2 : newCharts (l1 ++ l2) = (newCharts l1 ++ newCharts l2)%list.
Proof. apply omap_app. Qed.

Lemma recognized_names chartType :
  In chartType ["bar"; "line"; "pie"; "doughnut"; "radar"] ->
  recognized chartType = true /\ Str.toLowerCase chartType <> "table".
Proof.
  simpl. intros [<-|[<-|[<-|[<-|[<-|[]]]]]]; by vm_compute.
Qed.

Local Arguments String.eqb : simpl never.
Local Arguments Str.toLowerCase : simpl never.

(** What [displayResults] does, for every chart type. *)
Lemma displayResults_run r d :
  let d' := state_of (displayResults r d) in
  (Str.toLowerCase (chart_type r) = "table" ->
     completed (displayResults r d) = true
     /\ chartSection d' = match chartSection d with Some _ => Some true | None => None end
     /\ currentChart d' = currentChart d
     /\ newCharts (events d') = newCharts (events d)
     /\ In (RenderTable (raw_data r)) (events d'))
  /\ (Str.toLowerCase (chart_type r) <> "table" ->
      is_Some (chartSection d) ->
      isNullish (chart_data r) = false ->
      exists cfg ds,
        completed (displayResults r d) = true
        /\ newCharts (events d') = (newCharts (events d) ++ [cfg])%list
        /\ type cfg = (if recognized (chart_type r) then chart_type r else "bar")
        /\ (In (chart_type r) ["bar"; "line"; "pie"; "doughnut"; "radar"] ->
            type cfg = chart_type r)
        /\ datasets cfg = [ds]
        /\ chartSeries (chart_data r) = Some (labels cfg, data ds)
        /\ currentChart d' = (if Chart_accepts cfg then Some cfg else None)
        /\ chartSection d' = Some false
        /\ In (RenderTable (raw_data r)) (events d')).
Proof.
  intros d'. subst d'. destruct d as [cur raw sec btn hid evs]. split.
  - intros Ht. unfold displayResults.
    cbv [mbind comp_mbind comp_bind setHidden emit modify gets renderTable
         state_of completed mret comp_mret comp_ret].
    simpl. rewrite Ht. simpl.
    destruct sec as [h|], btn as [b|]; simpl;
      rewrite ?newCharts_app; simpl; rewrite ?app_nil_r;
      (repeat split; try done); apply in_or_app; right; simpl; tauto.
  - intros Ht [h Hs] Hn. simpl in Hs. subst sec.
    apply String.eqb_neq in Ht.
    destruct (chartSeries_some _ Hn) as (l & v & Hcs & Hl).
    destruct (get_prop_some _ "title" Hn) as [title Htitle].
    destruct (get_prop_some _ "length" Hl) as [count Hcount].
    unfold displayResults, renderChart.
    cbv [mbind comp_mbind comp_bind setHidden emit modify gets renderTable lift
         state_of completed mret comp_mret comp_ret].
    simpl. rewrite Ht, Htitle, Hcs. simpl.
    destruct cur as [c|]; simpl; rewrite Hcount; simpl;
      fold (recognized (chart_type r));
      set (cfg := ChartConfig _ _ _ _ _);
      (assert (type cfg = if recognized (chart_type r) then chart_type r else "bar")
         as Hty by (subst cfg; unfold recognized; simpl; by destruct (orb _ _)));
      exists cfg; eexists;
      destruct (Chart_accepts cfg) eqn:Ea, btn as [b|]; simpl;
      rewrite ?newCharts_app; simpl; rewrite ?app_nil_r, <- ?app_assoc; simpl;
      (split; [done|]); (split; [reflexivity|]); (split; [exact Hty|]);
      (split; [intros [Hr _]%recognized_names; rewrite Hr in Hty; exact Hty|]);
      (split; [reflexivity|]); (split; [reflexivity|]);
      (split; [reflexivity|]); (split; [reflexivity|]);
      rewrite ?in_app_iff; simpl; tauto.
Qed.

Lemma lower_char_not_capital_A c : Str.lower_char c <> "A"%char.
Proof. destruct c as [[] [] [] [] [] [] [] []]; vm_compute; discriminate. Qed.

Lemma toLowerCase_not_polarArea s : Str.toLowerCase s <> "polarArea".
Proof.
  do 5 (destruct s as [|? s]; [discriminate|]).
  destruct s as [|c s]; [discriminate|].
  unfold Str.toLowerCase; fold Str.toLowerCase. intros [= _ _ _ _ _ Hc _].
  by apply (lower_char_not_capital_A c).
Qed.

(** A chart type that matches none of the names of the specification, in
    any letter case, is not recognized. *)
Lemma unknown_not_recognized chartType :
  ~ In (Str.toLowerCase chartType) knownTypes -> recognized chartType = false.
Proof.
  intros Hn. unfold recognized, validChartTypes. simpl.
  pose proof (toLowerCase_not_polarArea chartType) as Hp.
  repeat match goal with
  | |- context [String.eqb ?a ?b] =>
      destruct (String.eqb_spec a b) as [Heq|_];
      [exfalso; first [by apply Hp | apply Hn; rewrite Heq; simpl; tauto]|]
  end.
  reflexivity.
Qed.

(** C1, as the code has it. A result whose chart type is [table] in any
    letter case hides the chart section, creates no chart and renders the
    table. For any other chart type, on a page with a chart section and a
    result with chart data, exactly one chart is requested and the table is
    rendered as well: the chart has the type of the result when that is one
    of bar, line, pie, doughnut and radar, the type [bar] when the type
    matches none of the seven names in any letter case, and one dataset,
    whose values are those of the chart data, whatever their number. *)
Theorem display_policy r d :
  let d' := state_of (displayResults r d) in
  (Str.toLowerCase (chart_type r) = "table" ->
     completed (displayResults r d) = true
     /\ chartSection d' = match chartSection d with Some _ => Some true | None => None end
     /\ currentChart d' = currentChart d
     /\ newCharts (events d') = newCharts (events d)
     /\ In (RenderTable (raw_data r)) (events d'))
  /\ (Str.toLowerCase (chart_type r) <> "table" ->
      is_Some (chartSection d) ->
      isNullish (chart_data r) = false ->
      exists cfg ds,
        completed (displayResults r d) = true
        /\ newCharts (events d') = (newCharts (events d) ++ [cfg])%list
        /\ (In (chart_type r) ["bar"; "line"; "pie"; "doughnut"; "radar"] ->
            type cfg = chart_type r)
        /\ (~ In (Str.toLowerCase (chart_type r)) knownTypes -> type cfg = "bar")
        /\ datasets cfg = [ds]
        /\ chartSeries (chart_data r) = Some (labels cfg, data ds)
        /\ currentChart d' = (if Chart_accepts cfg then Some cfg else None)
        /\ chartSection d' = Some false
        /\ In (RenderTable (raw_data r)) (events d')).
Proof.
  intros d'. subst d'. split; [apply displayResults_run|].
  intros Ht Hs Hn.
  destruct (proj2 (displayResults_run r d) Ht Hs Hn)
    as (cfg & ds & Hc & Hnew & Hty & Hfive & Hds & Hser & Hcur & Hsec & Htab).
  exists cfg, ds. split; [done|]. split; [done|]. split; [done|].
  split; [|done].
  intros Hu. by rewrite Hty, (unknown_not_recognized _ Hu).
Qed.
End ChartFacts.

(** ** The jobs browser *)

(** C8, as the code has it. The page never drops below 1. [nextPage]
    always, and [previousPage] above page 1, send exactly one request, for
    the new page and with the filters as they are; [previousPage] on page 1
    does nothing. *)
Theorem page_navigation (b : Jobs.browser) :
  let next := Jobs.nextPage b in
  let prev := Jobs.previousPage b in
  let filters x := (Jobs.jobTypeFilter x, Jobs.sourceFilter x, Jobs.locationFilter x) in
  ((1 <= Jobs.currentPage b)%Z ->
     (1 <= Jobs.currentPage next)%Z /\ (1 <= Jobs.currentPage prev)%Z)
  /\ Jobs.currentPage next = (Jobs.currentPage b + 1)%Z
  /\ filters next = filters b
  /\ Jobs.requests next =
       (Jobs.requests b ++
        [Jobs.jobsUrl (Jobs.currentPage b + 1) (Jobs.jobTypeFilter b)
           (Jobs.sourceFilter b) (Jobs.locationFilter b)])%list
  /\ ((1 < Jobs.currentPage b)%Z ->
       Jobs.currentPage prev = (Jobs.currentPage b - 1)%Z
       /\ filters prev = filters b
       /\ Jobs.requests prev =
            (Jobs.requests b ++
             [Jobs.jobsUrl (Jobs.currentPage b - 1) (Jobs.jobTypeFilter b)
                (Jobs.sourceFilter b) (Jobs.locationFilter b)])%list)
  /\ ((Jobs.currentPage b <= 1)%Z -> prev = b).
Proof.
  intros next prev filters. subst next prev filters.
  unfold Jobs.nextPage, Jobs.previousPage.
  destruct (Jobs.currentPage b >? 1)%Z eqn:E; simpl;
    repeat split; try done; lia.
Qed.

(** ** What the wizard and the editors rely on *)

Section NormalizationFacts.
Context `{JsNumber} `{Template}.

(** After sanitization of a draft that holds named properties, the five
    collections are arrays: the state the wizard and the editors work on. *)
Lemma sanitize_collections_arrays p k :
  container (profileData p) = true ->
  In k ["education"; "skills"; "experience"; "projects"; "certifications"] ->
  isArray (draftField k (state_of (sanitizeProfileData p))) = true.
Proof.
  intros Hc Hk. rewrite (sanitize_run p Hc). unfold state_of, draftField. simpl.
  assert (k <> "length") as Hne by (simpl in Hk; intuition (subst; discriminate)).
  rewrite get_prop_container by (done || by rewrite container_rename).
  rewrite named_rename by done. simpl.
  pose proof (sanitized_sanitizeFields (named (profileData p))) as (Ha & Hp & _).
  simpl in Hk. destruct Hk as [<-|[<-|[<-|[<-|[<-|[]]]]]]; try (by apply Ha); exact Hp.
Qed.

Lemma trim_of_empty v : Str.nonempty v = false -> Str.trim v = "".
Proof. by destruct v. Qed.

(** A text control gives [null] when it is blank and its trimmed text
    otherwise. *)
Lemma orNull_cases v :
  orNull v = if Str.nonempty (Str.trim v) then JStr (Str.trim v) else JNull.
Proof.
  unfold orNull. destruct (Str.nonempty v) eqn:E; [done|].
  by rewrite (trim_of_empty v E).
Qed.

(** The tags of a project are never empty. *)
Lemma splitTags_nonempty s t : In t (splitTags s) -> Str.nonempty t = true.
Proof. unfold splitTags. by intros [_ Ht]%filter_In. Qed.

(** Trimming leaves no white space in front. *)
Lemma trimStart_head s c r :
  Str.trimStart s = String c r -> Str.is_whitespace c = false.
Proof.
  induction s as [|x s IH]; simpl; [done|].
  destruct (Str.is_whitespace x) eqn:E; [done|].
  by intros [= <- <-].
Qed.

Lemma trimEnd_head s c r :
  Str.trimEnd s = String c r -> exists r', s = String c r'.
Proof.
  destruct s as [|x s]; simpl; [done|].
  destruct (Str.trimEnd s); [destruct (Str.is_whitespace x)|];
    intros [= <- <-] || discriminate; by eexists.
Qed.

Lemma trim_head s c r : Str.trim s = String c r -> Str.is_whitespace c = false.
Proof.
  unfold Str.trim. intros [r' Hs]%trimEnd_head. by apply trimStart_head in Hs.
Qed.

End NormalizationFacts.

(** ** Splitting and trimming *)

Section SplitFacts.

Lemma split_not_nil sep s : Str.split sep s <> [].
Proof.
  destruct s as [|c s]; simpl; [done|].
  destruct (Ascii.eqb c sep); [done|]. by destruct (Str.split sep s).
Qed.

(** [s.split(sep).join(sep)] gives [s] back. *)
Lemma join_split sep s : Str.join (String sep "") (Str.split sep s) = s.
Proof.
  induction s as [|c s IH]; [done|]. simpl.
  destruct (Ascii.eqb_spec c sep) as [->|Hc].
  - unfold Str.join in *. simpl.
    destruct (Str.split sep s) as [|h t] eqn:E; [by apply split_not_nil in E|].
    by rewrite IH.
  - unfold Str.join in *.
    destruct (Str.split sep s) as [|h t] eqn:E; [by apply split_not_nil in E|].
    simpl in *. destruct t; simpl in *; by rewrite <- IH.
Qed.

(** No piece of a split holds the separator. *)
Lemma split_pieces sep s piece :
  In piece (Str.split sep s) -> Str.count sep piece = 0%nat.
Proof.
  revert piece. induction s as [|c s IH]; intros piece; simpl.
  - by intros [<-|[]].
  - destruct (Ascii.eqb c sep) eqn:Ec.
    + intros [<-|Hin]; [done|by apply IH].
    + destruct (Str.split sep s) as [|h t] eqn:E; simpl.
      * intros [<-|[]]. simpl. by rewrite Ec.
      * intros [<-|Hin]; [|apply IH; by right].
        simpl. rewrite Ec. apply IH. by left.
Qed.

Lemma split_cons c sep s :
  Ascii.eqb c sep = false ->
  Str.split sep (String c s) =
    String c (default "" (head (Str.split sep s))) :: tail (Str.split sep s).
Proof.
  intros Ec. simpl. rewrite Ec.
  destruct (Str.split sep s) as [|h t] eqn:E; [by apply split_not_nil in E|done].
Qed.

(** Splitting a text put together from pieces without the separator. *)
Lemma split_app sep a b :
  Str.count sep a = 0%nat ->
  Str.split sep (a +:+ String sep b) = a :: Str.split sep b.
Proof.
  induction a as [|c a IH].
  - intros _. rewrite str_app_nil_l. simpl. by rewrite Ascii.eqb_refl.
  - intros Ha. cbn [Str.count] in Ha.
    destruct (Ascii.eqb c sep) eqn:Ec; [done|].
    rewrite str_app_cons, (split_cons _ _ _ Ec), (IH Ha). reflexivity.
Qed.

Lemma split_whole sep a : Str.count sep a = 0%nat -> Str.split sep a = [a].
Proof.
  induction a as [|c a IH]; simpl; [done|].
  destruct (Ascii.eqb c sep) eqn:Ec; [done|]. simpl. intros Ha.
  by rewrite (IH Ha).
Qed.

End SplitFacts.

Section TrimFacts.

Lemma trimEnd_cons c s :
  Str.trimEnd (String c s) =
    match Str.trimEnd s with
    | "" => if Str.is_whitespace c then "" else String c ""
    | r' => String c r'
    end.
Proof. reflexivity. Qed.

Lemma trimEnd_again s : Str.trimEnd (Str.trimEnd s) = Str.trimEnd s.
Proof.
  induction s as [|c s IH]; [done|]. rewrite trimEnd_cons.
  destruct (Str.trimEnd s) as [|d r] eqn:E.
  - destruct (Str.is_whitespace c) eqn:Ec; [done|]. simpl. by rewrite Ec.
  - by rewrite trimEnd_cons, IH.
Qed.

Lemma trimStart_fixed c r :
  Str.is_whitespace c = false -> Str.trimStart (String c r) = String c r.
Proof. simpl. by intros ->. Qed.

(** [s.trim().trim()] is [s.trim()]. *)
Lemma trim_again s : Str.trim (Str.trim s) = Str.trim s.
Proof.
  destruct (Str.trim s) as [|c r] eqn:E; [done|].
  pose proof (trim_head _ _ _ E) as Hc.
  unfold Str.trim at 1. rewrite (trimStart_fixed _ _ Hc), <- E.
  apply trimEnd_again.
Qed.

Lemma count_trimStart x s : (Str.count x (Str.trimStart s) <= Str.count x s)%nat.
Proof.
  induction s as [|c s IH]; simpl; [done|].
  destruct (Str.is_whitespace c); simpl; lia.
Qed.

Lemma count_trimEnd x s : (Str.count x (Str.trimEnd s) <= Str.count x s)%nat.
Proof.
  induction s as [|c s IH]; [done|]. rewrite trimEnd_cons.
  destruct (Str.trimEnd s) as [|d r] eqn:E.
  - destruct (Str.is_whitespace c); simpl; lia.
  - cbn [Str.count] in *. lia.
Qed.

Lemma count_trim x s : (Str.count x (Str.trim s) <= Str.count x s)%nat.
Proof.
  unfold Str.trim. pose proof (count_trimEnd x (Str.trimStart s)).
  pose proof (count_trimStart x s). lia.
Qed.

End TrimFacts.

(** ** The tags of a project *)

Section TagFacts.
Context `{JsNumber} `{Template}.

Lemma splitTags_tagOK s : Forall tagOK (splitTags s).
Proof.
  apply Forall_forall. intros t. unfold splitTags.
  intros [Hin Hne]%list_elem_of_In%filter_In.
  apply in_map_iff in Hin as (piece & <- & Hin).
  split; [done|]. split; [apply trim_again|].
  pose proof (split_pieces _ _ _ Hin). pose proof (count_trim ","%char piece). lia.
Qed.

Lemma splitTags_space s : splitTags (String " " s) = splitTags s.
Proof.
  unfold splitTags. rewrite split_cons by done.
  destruct (Str.split "," s) as [|h t] eqn:E; [by apply split_not_nil in E|].
  reflexivity.
Qed.

Lemma splitTags_join tags :
  Forall tagOK tags -> splitTags (Str.join ", " tags) = tags.
Proof.
  induction tags as [|t tags IH]; [done|].
  intros Ht. apply Forall_cons in Ht as [(Hne & Htrim & Hc) Hts].
  destruct tags as [|u tags].
  - unfold splitTags, Str.join. simpl. rewrite (split_whole _ _ Hc). simpl.
    by rewrite Htrim, Hne.
  - change (Str.join ", " (t :: u :: tags))
      with (t +:+ String "," (String " " (Str.join ", " (u :: tags)))).
    unfold splitTags at 1. rewrite (split_app _ _ _ Hc). simpl.
    rewrite Htrim, Hne. f_equal.
    change (splitTags (String " " (Str.join ", " (u :: tags))) = u :: tags).
    rewrite splitTags_space. by apply IH.
Qed.

(** X3. The tags of a project are in normal form (not empty, trimmed, free
    of commas), and the text [editProject] puts into the tag input, the tags
    joined by a comma and a space, splits back into the same tags. *)
Theorem tags_round_trip s :
  Forall tagOK (splitTags s)
  /\ splitTags (Str.join ", " (splitTags s)) = splitTags s.
Proof. split; [apply splitTags_tagOK|apply splitTags_join, splitTags_tagOK]. Qed.

End TagFacts.

(** ** What sanitization does to the projects *)

Section RepairFacts.
Context `{JsNumber} `{Template}.

Lemma fixTechStack_some proj :
  isNullish proj = false -> exists proj', fixTechStack proj = Some proj'.
Proof.
  unfold fixTechStack. destruct proj; try done; intros _; simpl;
    try (by eexists);
    match goal with |- context [match ?v with _ => _ end] => destruct v end;
    simpl; by eexists.
Qed.

Lemma fixTechStack_none proj : isNullish proj = true -> fixTechStack proj = None.
Proof. by destruct proj. Qed.

(** The traversal of the projects completes exactly when no project is
    [null] or [undefined]. *)
Lemma mapProjects_complete items :
  snd (mapProjects items) = negb (existsb isNullish items).
Proof.
  induction items as [|x items IH]; [done|]. simpl.
  destruct (isNullish x) eqn:E.
  - by rewrite (fixTechStack_none _ E).
  - destruct (fixTechStack_some _ E) as [x' ->].
    destruct (mapProjects items) as [items' ok]. simpl in *. done.
Qed.

Lemma mapProjects_each items :
  existsb isNullish items = false ->
  exists items',
    mapProjects items = (items', true)
    /\ Forall2 (fun x x' => fixTechStack x = Some x') items items'.
Proof.
  induction items as [|x items IH]; simpl.
  - intros _. by exists [].
  - intros [Hx Hi]%orb_false_elim.
    destruct (fixTechStack_some _ Hx) as [x' Hx'].
    destruct (IH Hi) as (items' & -> & Hall). rewrite Hx'.
    exists (x' :: items'). split; [done|]. by constructor.
Qed.

(** What the repair of one project does. *)
Lemma fixTechStack_spec x x' :
  fixTechStack x = Some x' ->
  (forall k, k <> "tech_stack" -> get_prop x' k = get_prop x k)
  /\ (container x = true -> hasArray "tech_stack" x' = true)
  /\ (container x = false -> x' = x)
  /\ (hasArray "tech_stack" x = true -> x' = x)
  /\ (forall s, container x = true -> get_prop x "tech_stack" = Some (JStr s) ->
        get_prop x' "tech_stack" = Some (arr (JStr <$> splitTags s))).
Proof.
  unfold fixTechStack, hasArray.
  destruct x as [| |b|n|s0|items props|fs]; try discriminate; simpl.
  - intros [= <-]. repeat split; done.
  - intros [= <-]. repeat split; done.
  - intros [= <-]. repeat split; done.
  - destruct (lookup_field "tech_stack" props) as [| | | |s|its ps|gs] eqn:E; simpl;
      intros [= <-]; simpl; rewrite ?lookup_update_eq, ?E;
      (split; [intros k Hk; destruct (String.eqb k "length"); [done|];
               by rewrite ?lookup_update_ne by done|]);
      (split; [done|]); (split; [done|]); (split; [done|]);
      intros s' _ [= <-]; done.
  - destruct (lookup_field "tech_stack" fs) as [| | | |s|its ps|gs] eqn:E; simpl;
      intros [= <-]; simpl; rewrite ?lookup_update_eq, ?E;
      (split; [intros k Hk; by rewrite ?lookup_update_ne by done|]);
      (split; [done|]); (split; [done|]); (split; [done|]);
      intros s' _ [= <-]; done.
Qed.

Lemma draftField_sanitized p k :
  container (profileData p) = true -> k <> "length" ->
  draftField k (state_of (sanitizeProfileData p)) =
    lookup_field k (sanitizeFields (named (profileData p))).
Proof.
  intros Hc Hk. rewrite (sanitize_run p Hc). unfold state_of, draftField. simpl.
  rewrite get_prop_container by (done || by rewrite container_rename).
  by rewrite named_rename.
Qed.

Lemma draftField_named p k :
  container (profileData p) = true -> k <> "length" ->
  draftField k p = lookup_field k (named (profileData p)).
Proof. intros Hc Hk. unfold draftField. by rewrite get_prop_container. Qed.

(** Whether sanitization completes, on a draft that holds named
    properties. *)
Lemma sanitize_completed p :
  container (profileData p) = true ->
  completed (sanitizeProfileData p) =
    match draftField "projects" p with
    | JArr items _ => negb (existsb isNullish items)
    | _ => true
    end.
Proof.
  intros Hc. rewrite (sanitize_run p Hc), lookup_projects_records.
  rewrite <- (draftField_named p "projects" Hc) by done.
  unfold completed. simpl.
  destruct (draftField "projects" p) as [| | | | |items props|]; try done.
  simpl. rewrite mapProjects_complete. by destruct (existsb isNullish items).
Qed.

(** X1. Sanitization throws exactly when the draft is [null] or
    [undefined], or when it holds named properties and its [projects] is an
    array with a [null] or [undefined] project. *)
Theorem sanitize_throws_exactly p :
  completed (sanitizeProfileData p) = false <->
    isNullish (profileData p) = true
    \/ (container (profileData p) = true
        /\ exists items props,
             draftField "projects" p = JArr items props
             /\ existsb isNullish items = true).
Proof.
  destruct (container (profileData p)) eqn:Hc.
  - rewrite (sanitize_completed p Hc).
    destruct (draftField "projects" p) as [| | | | |items props|] eqn:E;
      try (split; [done|]; intros [Hn|(_ & items & props & [=] & _)];
           by destruct (profileData p)).
    destruct (existsb isNullish items) eqn:Ei; simpl.
    + split; [|done]. intros _. right. split; [done|]. by exists items, props.
    + split; [done|]. intros [Hn|(_ & items' & props' & [= <- <-] & Hi)].
      * by destruct (profileData p).
      * congruence.
  - rewrite (sanitize_other p Hc). unfold completed. simpl.
    destruct (profileData p); try discriminate; simpl;
      first [ by (split; [intros _; by left|done])
            | by (split; [done|]; intros [?|[? _]]) ].
Qed.

(** X2. When no project is [null] or [undefined], sanitization completes
    and leaves [projects] a fresh array of as many projects in the same
    order. Of each project it changes at most [tech_stack]: a project that
    holds named properties ends with an array there (a string is split into
    its tags), a project that has one already and a project that is a
    primitive value are left as they are. *)
Theorem sanitize_repairs_projects p items props :
  container (profileData p) = true ->
  draftField "projects" p = JArr items props ->
  existsb isNullish items = false ->
  exists items',
    completed (sanitizeProfileData p) = true
    /\ draftField "projects" (state_of (sanitizeProfileData p)) = arr items'
    /\ length items' = length items
    /\ forall i x,
         items !! i = Some x ->
         exists x',
           items' !! i = Some x'
           /\ (forall k, k <> "tech_stack" -> get_prop x' k = get_prop x k)
           /\ (container x = true -> hasArray "tech_stack" x' = true)
           /\ (container x = false -> x' = x)
           /\ (hasArray "tech_stack" x = true -> x' = x)
           /\ (forall s, container x = true ->
                 get_prop x "tech_stack" = Some (JStr s) ->
                 get_prop x' "tech_stack" = Some (arr (JStr <$> splitTags s))).
Proof.
  intros Hc Hp Hi.
  destruct (mapProjects_each items Hi) as (items' & Hm & Hall).
  exists items'. split; [|split; [|split]].
  - by rewrite (sanitize_completed p Hc), Hp, Hi.
  - rewrite draftField_sanitized, lookup_sanitizeFields by done. simpl.
    rewrite <- draftField_named, Hp by done. simpl. by rewrite Hm.
  - symmetry. by eapply Forall2_length.
  - intros i x Hx.
    destruct (Forall2_lookup_l _ _ _ _ _ Hall Hx) as (x' & Hx' & Hfix).
    exists x'. split; [done|]. by apply fixTechStack_spec.
Qed.

End RepairFacts.

(** ** What the editors leave alone *)

Section FrameFacts.
Context `{JsNumber} `{Template}.

Lemma preserves_bind {A B} (R : page -> page -> Prop)
    (m : comp page A) (f : A -> comp page B) :
  (forall p q r, R p q -> R q r -> R p r) ->
  preserves R m -> (forall a, preserves R (f a)) -> preserves R (m ≫= f).
Proof.
  intros HT Hm Hf p. rewrite bind_run. specialize (Hm p).
  destruct (m p) as [p1 [a|]]; [|done].
  unfold state_of in *; simpl in *. eapply HT; [exact Hm|apply Hf].
Qed.

Lemma preserves_pure {A} (R : page -> page -> Prop) (m : comp page A) :
  (forall p, R p p) -> (forall p, state_of (m p) = p) -> preserves R m.
Proof. intros HR Hm p. rewrite Hm. apply HR. Qed.

Lemma preserves_modify (R : page -> page -> Prop) (f : page -> page) :
  (forall p, R p (f p)) -> preserves R (modify f).
Proof. intros Hf p. apply Hf. Qed.

Lemma outside_refl e p : outside e p p.
Proof. done. Qed.

Lemma outside_trans e p q r : outside e p q -> outside e q r -> outside e p r.
Proof.
  intros (H1 & H2 & H3) (H1' & H2' & H3'). split; [congruence|].
  split; [intros e' He; rewrite H2', H2 by done; done|].
  intros k Hk. by rewrite H3', H3.
Qed.

Lemma get_prop_set_prop d d' k k' v :
  set_prop d k v = Some d' -> k' <> k -> k <> "length" ->
  get_prop d' k' = get_prop d k'.
Proof.
  intros Hs Hk Hl. destruct d; try discriminate; simpl in *;
    injection Hs as <-; simpl; try done.
  - destruct (String.eqb k' "length"); [done|]. by rewrite lookup_update_ne.
  - by rewrite lookup_update_ne.
Qed.

Lemma outside_writeProfile e v : preserves (outside e) (writeProfile (key e) v).
Proof.
  intros p. unfold writeProfile.
  cbv [mbind comp_mbind comp_bind gets lift comp_ret throw state_of modify].
  destruct (set_prop (profileData p) (key e) v) as [d'|] eqn:E; simpl; [|done].
  split; [done|]. split; [by intros [] ?|].
  intros k Hk. eapply get_prop_set_prop; [exact E|done|apply key_not_length].
Qed.

Lemma outside_readProfile e k : preserves (outside e) (readProfile k).
Proof.
  apply preserves_pure; [apply outside_refl|]. intros p. unfold readProfile.
  cbv [mbind comp_mbind comp_bind gets lift comp_ret throw state_of].
  by destruct (get_prop (profileData p) k).
Qed.

Lemma outside_lift {A} e (o : option A) : preserves (outside e) (lift o).
Proof. apply preserves_pure; [apply outside_refl|]. intros p. by destruct o. Qed.

Lemma outside_emit e ev : preserves (outside e) (emit ev).
Proof. intros p. split; [done|]. split; [by intros [] ?|done]. Qed.

Lemma outside_setHidden e id b : preserves (outside e) (setHidden id b).
Proof. intros p. split; [done|]. split; [by intros [] ?|done]. Qed.

Lemma outside_resetForm e id : preserves (outside e) (resetForm id).
Proof. intros p. split; [done|]. split; [by intros [] ?|done]. Qed.

Lemma outside_gets {A} e (f : page -> A) : preserves (outside e) (gets f).
Proof. by apply preserves_pure; [apply outside_refl|]. Qed.

Lemma outside_ret {A} e (a : A) : preserves (outside e) (mret a).
Proof. by apply preserves_pure; [apply outside_refl|]. Qed.

Lemma outside_throw {A} e : preserves (outside e) (@throw page A).
Proof. by apply preserves_pure; [apply outside_refl|]. Qed.

Ltac frame_step e :=
  first
    [ apply outside_writeProfile
    | apply (outside_writeProfile Education)
    | apply (outside_writeProfile Skills)
    | apply (outside_writeProfile Experience)
    | apply (outside_writeProfile Projects)
    | apply (outside_writeProfile Certifications)
    | apply outside_readProfile
    | apply outside_lift
    | apply outside_emit
    | apply outside_setHidden
    | apply outside_resetForm
    | apply outside_gets
    | apply outside_ret
    | apply (outside_ret e)
    | apply outside_throw
    | apply (preserves_bind (outside e) _ _ (outside_trans e)); [|intros ?]
    | match goal with
      | |- preserves _ (if ?c then _ else _) => destruct c
      | |- preserves _ (match ?x with _ => _ end) => destruct x
      end ].

Lemma outside_renderList e id k r : preserves (outside e) (renderList id k r).
Proof.
  unfold renderList, isEmptyCollection. repeat frame_step e.
Qed.

Lemma outside_storeEntry e i x : preserves (outside e) (storeEntry (key e) i x).
Proof.
  unfold storeEntry, assignProfileIndex, pushProfile. repeat frame_step e.
Qed.

Lemma outside_spliceProfile e i : preserves (outside e) (spliceProfile (key e) i).
Proof. unfold spliceProfile. repeat frame_step e. Qed.

Lemma outside_closeModal e : preserves (outside e) (closeModal e).
Proof.
  destruct e; simpl;
    unfold closeEducationModal, closeSkillModal, closeExperienceModal,
      closeProjectModal, closeCertificationModal;
    (apply (preserves_bind (outside _) _ _ (outside_trans _)); [apply outside_setHidden|intros _]);
    apply preserves_modify; intros p;
    (split; [done|]; split; [|done]); by intros [] He.
Qed.

Lemma outside_openForm e : preserves (outside e) (openForm e).
Proof.
  destruct e; simpl;
    unfold openEducationForm, openSkillForm, openExperienceForm,
      openProjectForm, openCertificationForm;
    (apply (preserves_bind (outside _) _ _ (outside_trans _)); [|intros _]);
    try (apply preserves_modify; intros p;
         (split; [done|]; split; [|done]); by intros [] He);
    repeat frame_step Education.
Qed.

(** X4. Opening a form, closing a modal, saving and deleting in one editor
    leave alone what belongs to the others: the wizard step, the editing
    indices of the other editors and every field of the draft but the
    collection of the editor, whether the handler completes or throws. *)
Theorem editor_stays_in_its_collection e :
  preserves (outside e) (openForm e)
  /\ preserves (outside e) (closeModal e)
  /\ preserves (outside e) (saveEntry e)
  /\ forall i confirmed, preserves (outside e) (deleteEntry e i confirmed).
Proof.
  split; [apply outside_openForm|]. split; [apply outside_closeModal|]. split.
  - destruct e; simpl;
      unfold saveEducationEntry, saveSkillEntry, saveExperienceEntry,
        saveProjectEntry, saveCertificationEntry, showNotification, inputValue,
        renderEducationList, renderSkillsList, renderExperienceList,
        renderProjectsList, renderCertificationsList.
    all: repeat first
      [ apply (outside_storeEntry Education) | apply (outside_storeEntry Skills)
      | apply (outside_storeEntry Experience) | apply (outside_storeEntry Projects)
      | apply (outside_storeEntry Certifications)
      | apply outside_renderList
      | apply (outside_closeModal Education) | apply (outside_closeModal Skills)
      | apply (outside_closeModal Experience) | apply (outside_closeModal Projects)
      | apply (outside_closeModal Certifications)
      | frame_step Education | frame_step Skills | frame_step Experience
      | frame_step Projects | frame_step Certifications ].
  - intros i confirmed. destruct e, confirmed; simpl;
      unfold deleteEducation, deleteSkill, deleteExperience, deleteProject,
        deleteCertification, showNotification,
        renderEducationList, renderSkillsList, renderExperienceList,
        renderProjectsList, renderCertificationsList.
    all: repeat first
      [ apply (outside_spliceProfile Education) | apply (outside_spliceProfile Skills)
      | apply (outside_spliceProfile Experience) | apply (outside_spliceProfile Projects)
      | apply (outside_spliceProfile Certifications)
      | apply outside_renderList
      | frame_step Education | frame_step Skills | frame_step Experience
      | frame_step Projects | frame_step Certifications ].
Qed.

End FrameFacts.

(** ** How a save ends *)

Section SaveFacts.
Context `{JsNumber} `{Template}.







End SaveFacts.

(** ** Opening an entry for editing *)

Section EditFacts.
Context `{JsNumber} `{Template} `{!Controls}.

Lemma formOnly_trans e p q r : formOnly e p q -> formOnly e q r -> formOnly e p r.
Proof.
  intros (A1 & A2 & A3 & A4) (B1 & B2 & B3 & B4).
  split; [congruence|]. split; [congruence|].
  split; [intros e'; by rewrite B3, A3|].
  intros id Hid. by rewrite B4, A4.
Qed.

Lemma succeeds_bind {A B} (R : page -> page -> Prop) Q
    (m : comp page A) (f : A -> comp page B) :
  (forall p q r, R p q -> R q r -> R p r) ->
  succeeds R (fun _ => True) m -> (forall a, succeeds R Q (f a)) ->
  succeeds R Q (m ≫= f).
Proof.
  intros HT Hm Hf p. destruct (Hm p) as (q & a & Hq & Hr & _).
  destruct (Hf a q) as (q' & b & Hq' & Hr' & HQ).
  exists q', b. rewrite bind_run, Hq. split; [done|]. split; [by eapply HT|done].
Qed.

Lemma show_succeeds e name x k :
  isNullish x = false -> succeeds (formOnly e) (fun _ => True) (show name x k).
Proof.
  intros Hx p. unfold show, setInputValue.
  destruct (get_prop x k) as [v|] eqn:E; [|by destruct x].
  eexists _, tt. rewrite bind_run. cbn [lift]. unfold comp_ret at 1.
  split; [reflexivity|]. repeat split; by try intros [].
Qed.

Lemma setInputValue_succeeds e name v :
  succeeds (formOnly e) (fun _ => True) (setInputValue name v).
Proof. intros p. eexists _, tt. split; [reflexivity|]. repeat split; by try intros []. Qed.

Lemma lift_succeeds {A} e (o : option A) a :
  o = Some a -> succeeds (formOnly e) (fun _ => True) (lift o).
Proof. intros -> p. exists p, a. repeat split; by try intros []. Qed.

Lemma opened_succeeds e title button t1 t2 :
  succeeds (formOnly e) (fun q => hidden q (modal e) = false)
    (setHidden (modal e) false;; emit (SetText title t1);; emit (SetText button t2)).
Proof.
  intros p. eexists _, tt. split; [reflexivity|]. split.
  - split; [done|]. split; [done|]. split; [by intros []|]. intros id Hid. simpl.
    apply String.eqb_neq in Hid. by rewrite Hid.
  - simpl. by rewrite String.eqb_refl.
Qed.

Lemma get_prop_total x k : isNullish x = false -> exists v, get_prop x k = Some v.
Proof. destruct x; try done; by eexists. Qed.

Lemma succeeds_run R Q (m : comp page unit) p :
  succeeds R Q m -> exists q, m p = (q, Normal tt) /\ R p q /\ Q q.
Proof. intros Hm. destruct (Hm p) as (q & [] & Hq). by exists q. Qed.

(** The forms [editEntry] fills in, once the entry is read. *)
Lemma editEntry_run e (index : Z) p x :
  (readEntry (key e) index) (set_sentinel e index p) =
    (set_sentinel e index p, Normal x) ->
  (isNullish x = false ->
   exists q,
     editEntry e index p = (q, Normal tt)
     /\ formOnly e (set_sentinel e index p) q
     /\ hidden q (modal e) = false)
  /\ (isNullish x = true -> editEntry e index p = (set_sentinel e index p, TypeError)).
Proof.
  intros Hr. split.
  - intros Hx.
    assert (forall e name k, succeeds (formOnly e) (fun _ => True) (show name x k)) as Hs
      by (intros; by apply show_succeeds).
    destruct (get_prop_total x "tech_stack" Hx) as [ts Hts].
    destruct (get_prop_total x "is_current" Hx) as [cur Hcur].
    destruct e; simpl in Hr; cbn [editEntry set_sentinel];
      unfold editEducation, editSkill, editExperience, editProject, editCertification;
      rewrite bind_run; unfold modify at 1; cbn [fst snd];
      rewrite bind_run, Hr.
    + apply (succeeds_run (formOnly Education)
               (fun q => hidden q (modal Education) = false)).
      repeat first
        [ apply (opened_succeeds Education)
        | apply succeeds_bind; [apply formOnly_trans|apply Hs|intros _] ].
    + apply (succeeds_run (formOnly Skills)
               (fun q => hidden q (modal Skills) = false)).
      repeat first
        [ apply (opened_succeeds Skills)
        | apply succeeds_bind; [apply formOnly_trans|apply Hs|intros _] ].
    + apply (succeeds_run (formOnly Experience)
               (fun q => hidden q (modal Experience) = false)).
      do 4 (apply succeeds_bind; [apply formOnly_trans|apply Hs|intros _]).
      apply succeeds_bind; [apply formOnly_trans|by eapply lift_succeeds|intros is_current].
      apply succeeds_bind; [apply formOnly_trans| |intros _].
      { intros p0. eexists _, tt. split; [reflexivity|]. repeat split; by try intros []. }
      repeat first
        [ apply (opened_succeeds Experience)
        | apply succeeds_bind; [apply formOnly_trans|apply Hs|intros _] ].
    + apply (succeeds_run (formOnly Projects)
               (fun q => hidden q (modal Projects) = false)).
      do 2 (apply succeeds_bind; [apply formOnly_trans|apply Hs|intros _]).
      apply succeeds_bind; [apply formOnly_trans|by eapply lift_succeeds|intros ts'].
      apply succeeds_bind; [apply formOnly_trans| |intros _].
      { destruct (isArray _); apply setInputValue_succeeds. }
      repeat first
        [ apply (opened_succeeds Projects)
        | apply succeeds_bind; [apply formOnly_trans|apply Hs|intros _] ].
    + apply (succeeds_run (formOnly Certifications)
               (fun q => hidden q (modal Certifications) = false)).
      repeat first
        [ apply (opened_succeeds Certifications)
        | apply succeeds_bind; [apply formOnly_trans|apply Hs|intros _] ].
  - intros Hx. assert (forall k, get_prop x k = None) as Hn by (by destruct x).
    destruct e; simpl in *;
      unfold editEducation, editSkill, editExperience, editProject, editCertification;
      rewrite bind_run; unfold modify at 1; cbn [fst snd];
      rewrite bind_run, Hr; rewrite bind_run; unfold show; rewrite bind_run, Hn;
      reflexivity.
Qed.

Lemma readEntry_run k (i : nat) p items props :
  get_prop (profileData p) k = Some (JArr items props) ->
  readEntry k (Z.of_nat i) p = (p, Normal (default JUndef (items !! i))).
Proof.
  intros Hg. unfold readEntry, readProfile. rewrite !bind_run. unfold gets.
  rewrite Hg. cbn [lift comp_ret fst snd]. unfold get_at.
  assert ((Z.of_nat i <? 0)%Z = false) as -> by (apply Z.ltb_ge; lia).
  by rewrite Nat2Z.id.
Qed.

Lemma draft_set_sentinel e i p : profileData (set_sentinel e i p) = profileData p.
Proof. by destruct e. Qed.

Lemma sentinel_set_sentinel e i p : sentinel e (set_sentinel e i p) = i.
Proof. by destruct e. Qed.


(** X7. Opening for editing an index that holds no entry (beyond the end
    of the list, or a [null] entry) throws when the first field is read:
    by then the editing index is already set, and nothing else has
    changed. *)
Theorem edit_missing_entry e p items props (i : nat) :
  get_prop (profileData p) (key e) = Some (JArr items props) ->
  isNullish (default JUndef (items !! i)) = true ->
  editEntry e (Z.of_nat i) p = (set_sentinel e (Z.of_nat i) p, TypeError)
  /\ sentinel e (set_sentinel e (Z.of_nat i) p) = Z.of_nat i.
Proof.
  intros Hg Hx. split; [|apply sentinel_set_sentinel].
  eapply editEntry_run; [|exact Hx].
  apply (readEntry_run _ _ _ items props). by rewrite draft_set_sentinel.
Qed.

(** What an optional field shows in its control reads back as the field. *)
Lemma orNull_shown v :
  orNull (match orNull v with JNull | JUndef => "" | _ => ToString (orNull v) end) =
  orNull v.
Proof.
  rewrite (orNull_cases v). destruct (Str.nonempty (Str.trim v)) eqn:E; [|done].
  simpl. rewrite orNull_cases, trim_again. by rewrite E.
Qed.

Lemma joinItems_strings sep (tags : list string) :
  joinItems sep (JArr (JStr <$> tags) []) = Str.join sep tags.
Proof.
  unfold joinItems. f_equal. induction tags as [|t tags IH]; [done|].
  rewrite fmap_cons. simpl. by rewrite IH.
Qed.

(** The controls after one assignment. *)
Lemma setInputValue_inputs name v p :
  exists q,
    setInputValue name v p = (q, Normal tt)
    /\ inputs q name =
         stored name (match v with JNull | JUndef => "" | _ => ToString v end)
    /\ (forall n, n <> name -> inputs q n = inputs p n)
    /\ checked q = checked p.
Proof.
  eexists. split; [reflexivity|]. simpl. rewrite String.eqb_refl.
  split; [done|]. split; [|done]. intros n Hn. apply String.eqb_neq in Hn.
  by rewrite Hn.
Qed.

Lemma show_inputs name x k v p :
  get_prop x k = Some v ->
  exists q,
    show name x k p = (q, Normal tt)
    /\ inputs q name =
         stored name (match v with JNull | JUndef => "" | _ => ToString v end)
    /\ (forall n, n <> name -> inputs q n = inputs p n)
    /\ checked q = checked p.
Proof.
  intros Hv. unfold show. rewrite bind_run, Hv. apply setInputValue_inputs.
Qed.

Lemma opened_inputs id title button t1 t2 p :
  exists q,
    (setHidden id false;; emit (SetText title t1);; emit (SetText button t2)) p =
      (q, Normal tt)
    /\ inputs q = inputs p /\ checked q = checked p.
Proof. eexists. split; [reflexivity|]. done. Qed.

(** One [setInputValue(name, entry.k)]: the control is set, and what is
    known of the other controls is carried over. *)
Ltac step_show :=
  rewrite bind_run;
  match goal with
  | |- context [show ?name ?x ?k ?p] =>
      let q := fresh "q" in
      let Hrun := fresh "Hrun" in
      let Hset := fresh "Hset" in
      let Hoth := fresh "Hoth" in
      let Hchk := fresh "Hchk" in
      destruct (show_inputs name x k _ p eq_refl) as (q & Hrun & Hset & Hoth & Hchk);
      rewrite Hrun; clear Hrun; cbn [fst snd];
      repeat match goal with
             | H : inputs p ?nm = _ |- _ => rewrite <- (Hoth nm) in H by discriminate
             | H : checked p ?nm = _ |- _ => rewrite <- Hchk in H
             end;
      clear Hoth Hchk
  end.

Ltac step_opened :=
  match goal with
  | |- context [(setHidden ?id false;; emit (SetText ?a ?t1);; emit (SetText ?b ?t2)) ?p] =>
      let q := fresh "q" in
      let Hrun := fresh "Hrun" in
      let Hin := fresh "Hin" in
      let Hchk := fresh "Hchk" in
      destruct (opened_inputs id a b t1 t2 p) as (q & Hrun & Hin & Hchk);
      rewrite Hrun; clear Hrun;
      repeat match goal with
             | H : inputs p ?nm = _ |- _ => rewrite <- Hin in H
             | H : checked p ?nm = _ |- _ => rewrite <- Hchk in H
             end;
      clear Hin Hchk
  end.

(** The form after [editEntry] on a saved record reads back as the
    record. *)
Lemma editEntry_shows e (index : Z) p p0 :
  (forall name text, stored name text = text) ->
  e <> Education ->
  readEntry (key e) index (set_sentinel e index p) =
    (set_sentinel e index p, Normal (submitted e p0)) ->
  exists q,
    editEntry e index p = (q, Normal tt)
    /\ submitted e q = submitted e p0
    /\ accepted e q = accepted e p0.
Proof.
  intros Hst He Hr.
  destruct e; [done| | | |]; simpl in Hr; cbn [editEntry submitted accepted];
    unfold editSkill, editExperience, editProject, editCertification;
    rewrite bind_run; unfold modify at 1; cbn [fst snd]; rewrite bind_run, Hr.
  - do 3 step_show. step_opened. eexists. split; [reflexivity|].
    split; [|done]. unfold skillEntry.
    rewrite Hset, Hset0, Hset1, !Hst. cbn [get_prop lookup_field String.eqb
      Ascii.eqb Bool.eqb andb ToString].
    by rewrite trim_again, orNull_shown.
  - do 4 step_show. rewrite bind_run.
    change (get_prop (experienceEntry p0) "is_current")
      with (Some (JBool (checked p0 "exp_is_current"))).
    unfold lift at 1, comp_ret at 1. cbn [fst snd]. rewrite bind_run.
    unfold modify at 1. cbn [fst snd].
    match goal with
    | |- context [set_checked ?f ?p] =>
        assert (checked (set_checked f p) "exp_is_current" = checked p0 "exp_is_current")
          as Hcur by (simpl; by destruct (checked p0 "exp_is_current"));
        repeat match goal with
               | H : inputs p ?nm = _ |- _ =>
                   change (inputs p nm) with (inputs (set_checked f p) nm) in H
               end;
        generalize dependent (set_checked f p); intros q'; intros
    end.
    do 2 step_show. step_opened. eexists. split; [reflexivity|].
    split; [|done]. unfold experienceEntry.
    rewrite Hset, Hset0, Hset1, Hset2, Hset3, Hset4, !Hst.
    cbn [get_prop lookup_field String.eqb Ascii.eqb Bool.eqb andb ToString].
    rewrite !trim_again, !orNull_shown.
    match goal with H : checked _ "exp_is_current" = _ |- _ => by rewrite H end.
  - do 2 step_show. rewrite bind_run.
    change (get_prop (projectEntry (splitTags (inputs p0 "proj_tech_stack")) p0)
              "tech_stack")
      with (Some (JArr (JStr <$> splitTags (inputs p0 "proj_tech_stack")) [])).
    unfold lift at 1, comp_ret at 1. cbn [fst snd isArray]. rewrite bind_run.
    match goal with
    | |- context [setInputValue ?name ?v ?p] =>
        destruct (setInputValue_inputs name v p) as (q' & Hrun & Htag & Hoth & Hchk);
        rewrite Hrun; clear Hrun; cbn [fst snd];
        repeat match goal with
               | H : inputs p ?nm = _ |- _ => rewrite <- (Hoth nm) in H by discriminate
               end;
        clear Hoth Hchk
    end.
    do 4 step_show. step_opened. eexists. split; [reflexivity|].
    assert (splitTags
              (Str.join ", " (splitTags (inputs p0 "proj_tech_stack"))) =
            splitTags (inputs p0 "proj_tech_stack")) as Htags
      by apply splitTags_join, splitTags_tagOK.
    rewrite Htag, Hst. cbn [ToString]. rewrite joinItems_strings, Htags.
    split; [|done]. unfold projectEntry.
    rewrite Hset, Hset0, Hset1, Hset2, Hset3, Hset4, !Hst.
    cbn [get_prop lookup_field String.eqb Ascii.eqb Bool.eqb andb ToString].
    by rewrite !trim_again, !orNull_shown.
  - do 6 step_show. step_opened. eexists. split; [reflexivity|].
    split; [|done]. unfold certificationEntry.
    rewrite Hset, Hset0, Hset1, Hset2, Hset3, Hset4, !Hst.
    cbn [get_prop lookup_field String.eqb Ascii.eqb Bool.eqb andb ToString].
    by rewrite !trim_again, !orNull_shown.
Qed.

(** X8. Editing a saved skill, experience, project or certification and
    saving it without typing leaves the list as it was, provided every
    control keeps the text assigned to it: what the form shows of a saved
    record reads back as that record. *)
Theorem edit_save_unchanged e p p0 items props (i : nat) :
  (forall name text, stored name text = text) ->
  e <> Education ->
  get_prop (profileData p) (key e) = Some (JArr items props) ->
  items !! i = Some (submitted e p0) ->
  accepted e p0 = true ->
  let q := state_of (editEntry e (Z.of_nat i) p) in
  submitted e q = submitted e p0
  /\ accepted e q = true
  /\ collection (key e) (state_of (saveEntry e q)) = Some items.
Proof.
  intros Hst He Hg Hi Ha q.
  assert (readEntry (key e) (Z.of_nat i) (set_sentinel e (Z.of_nat i) p) =
            (set_sentinel e (Z.of_nat i) p, Normal (submitted e p0))) as Hr.
  { rewrite (readEntry_run _ _ _ items props) by (by rewrite draft_set_sentinel).
    by rewrite Hi. }
  assert (isNullish (submitted e p0) = false) as Hx by (by destruct e).
  destruct (proj1 (editEntry_run e _ p _ Hr) Hx) as (q1 & Hq & (F1 & _ & F3 & _) & _).
  destruct (editEntry_shows e _ p p0 Hst He Hr) as (q2 & Hq2 & Hsub & Hacc).
  assert (q = q1) as -> by (subst q; by rewrite Hq).
  assert (q2 = q1) as -> by congruence.
  rewrite Ha in Hacc.
  assert (sentinel e q1 = Z.of_nat i) as Hs
    by (by rewrite F3, sentinel_set_sentinel).
  split; [done|]. split; [done|].
  assert (get_prop (profileData q1) (key e) = Some (JArr items props)) as Hg'
    by (by rewrite F1, draft_set_sentinel).
  rewrite (saveEntry_collection e q1 items props Hg'), Hacc, Hs, Hsub.
  assert ((Z.of_nat i >=? 0)%Z = true) as -> by (apply Z.geb_le; lia).
  rewrite Nat2Z.id, array_set_in_range by (by eapply lookup_lt_Some).
  by rewrite list_insert_id.
Qed.

End EditFacts.

(** ** Submitting the profile *)

Section SubmitFacts.
Context `{JsNumber} `{Template}.

Lemma collectTrimmed_run k name p fs :
  container (profileData p) = true ->
  collectTrimmed k name (on_fields p fs) =
    (on_fields p (update_field k (JStr (Str.trim (inputs p name))) fs), Normal tt).
Proof.
  intros Hc. unfold collectTrimmed, inputValue. rewrite bind_run. unfold gets.
  cbn [fst snd]. rewrite writeProfile_run by (by apply on_fields_container).
  by rewrite on_fields_named, on_fields_twice.
Qed.

Lemma collect_run k name p fs :
  container (profileData p) = true ->
  collect k name (on_fields p fs) =
    (on_fields p (update_field k (orNull (inputs p name)) fs), Normal tt).
Proof.
  intros Hc. unfold collect. rewrite bind_run. unfold getValueOrNull.
  rewrite bind_run. unfold inputValue, gets. cbn [fst snd inputs on_fields].
  unfold mret at 1, comp_mret at 1, comp_ret at 1. cbn [fst snd].
  rewrite writeProfile_run by (by apply on_fields_container).
  by rewrite on_fields_named, on_fields_twice.
Qed.

Lemma write_run k v p fs :
  container (profileData p) = true ->
  writeProfile k v (on_fields p fs) = (on_fields p (update_field k v fs), Normal tt).
Proof.
  intros Hc. rewrite writeProfile_run by (by apply on_fields_container).
  by rewrite on_fields_named, on_fields_twice.
Qed.

(** On a draft that holds named properties, [saveProfile] completes: the
    draft is the old one with the collected fields, and one notification is
    shown. *)
Lemma saveProfile_run isEditMode user token employment_type work_mode p :
  container (profileData p) = true ->
  let q := set_events (events p ++ [Notify "Saving your profile..." "info"])
             (on_fields p (collectedFields employment_type work_mode p
                             (named (profileData p)))) in
  saveProfile isEditMode user token employment_type work_mode p =
    (q, Normal (Submission
                  (if isUpdate isEditMode user
                   then "/api/v1/students/profile/update"
                   else "/api/v1/students/profile/complete")
                  (if isUpdate isEditMode user then "PUT" else "POST")
                  ("Bearer " +:+ default "null" token)
                  (JObj [("profile_data", profileData q)]))).
Proof.
  intros Hc q. subst q. rewrite <- (on_fields_self p) at 1. unfold saveProfile.
  do 3 (rewrite bind_run, collectTrimmed_run by done).
  do 6 (rewrite bind_run, collect_run by done).
  rewrite bind_run. unfold inputValue at 1, gets at 1. cbn [fst snd inputs on_fields].
  rewrite bind_run, write_run by done.
  rewrite bind_run. unfold getValueOrNull at 1, inputValue at 1.
  rewrite bind_run. unfold gets at 1. cbn [fst snd inputs on_fields].
  unfold mret at 1, comp_mret at 1, comp_ret at 1. cbn [fst snd].
  rewrite bind_run, write_run by done.
  rewrite bind_run, collect_run by done.
  rewrite bind_run. unfold gets at 1. cbn [fst snd].
  rewrite bind_run, write_run by done.
  rewrite bind_run. unfold gets at 1. cbn [fst snd].
  rewrite bind_run, write_run by done.
  reflexivity.
Qed.

Lemma lookup_collected_other et wm p (fs : fields_t) k :
  ~ In k collectedKeys ->
  lookup_field k (collectedFields et wm p fs) = lookup_field k fs.
Proof.
  intros Hk. unfold collectedFields.
  rewrite !lookup_update_ne; [done|..];
    intros ->; apply Hk; unfold collectedKeys; simpl; tauto.
Qed.

(** X9. On a draft that holds named properties [saveProfile] completes and
    sends one request whose body is the draft: a PUT to the update endpoint
    in edit mode or when the stored user has completed the profile, a POST
    to the completion endpoint otherwise, with the token in the
    authorization header even when there is none. The draft gets
    [preferences] and [links] as fresh records with the nine and the six
    known keys, which a later sanitization leaves as they are; the fields
    outside the form, among them the five collections, are not touched,
    and neither are the controls. *)
Theorem saveProfile_collects isEditMode user token employment_type work_mode p :
  container (profileData p) = true ->
  let r := saveProfile isEditMode user token employment_type work_mode p in
  let q := state_of r in
  exists sub,
    r = (q, Normal sub)
    /\ body sub = JObj [("profile_data", profileData q)]
    /\ authorization sub = "Bearer " +:+ default "null" token
    /\ (endpoint sub, method sub) =
         (if isUpdate isEditMode user
          then ("/api/v1/students/profile/update", "PUT")
          else ("/api/v1/students/profile/complete", "POST"))
    /\ draftField "preferences" q = preferencesEntry employment_type work_mode p
    /\ keys (draftField "preferences" q) = preferencesKeys
    /\ draftField "links" q = linksEntry p
    /\ keys (draftField "links" q) = linksKeys
    /\ (forall k, ~ In k collectedKeys ->
          get_prop (profileData q) k = get_prop (profileData p) k)
    /\ draftField "preferences" (state_of (sanitizeProfileData q)) =
         draftField "preferences" q
    /\ draftField "links" (state_of (sanitizeProfileData q)) = draftField "links" q
    /\ inputs q = inputs p.
Proof.
  intros Hc r q. subst q r.
  rewrite (saveProfile_run isEditMode user token employment_type work_mode p Hc).
  eexists. split; [reflexivity|]. change (state_of (?a, _)) with a.
  set (q := set_events _ _).
  assert (container (profileData q) = true) as Hq
    by (subst q; simpl; by rewrite container_rename).
  assert (named (profileData q) =
          collectedFields employment_type work_mode p (named (profileData p))) as Hn
    by (subst q; simpl; by rewrite named_rename).
  assert (draftField "preferences" q = preferencesEntry employment_type work_mode p)
    as Hp.
  { rewrite draftField_named, Hn by done. unfold collectedFields.
    by rewrite lookup_update_ne, lookup_update_eq. }
  assert (draftField "links" q = linksEntry p) as Hl.
  { rewrite draftField_named, Hn by done. unfold collectedFields.
    by rewrite lookup_update_eq. }
  split; [done|]. split; [done|].
  split; [by destruct (isUpdate isEditMode user)|].
  split; [done|]. split; [by rewrite Hp|]. split; [done|]. split; [by rewrite Hl|].
  split.
  { intros k Hk. subst q. simpl. apply get_prop_rename; [done|].
    by apply lookup_collected_other. }
  split; [|split; [|done]].
  - rewrite draftField_sanitized by done.
    rewrite lookup_sanitizeFields_ok; rewrite <- draftField_named by done; [done|].
    by rewrite Hp.
  - rewrite draftField_sanitized by done.
    rewrite lookup_sanitizeFields_ok; rewrite <- draftField_named by done; [done|].
    by rewrite Hl.
Qed.

End SubmitFacts.

(** ** The dashboard: colours *)

Section ColourFacts.
Context `{JsNumber} `{!Dashboard.ChartJs}.
Import Dashboard.

(** X10. For a chart that is not a line chart [generateColors] gives one
    colour per label, taken from the palette of ten in order and repeating
    every ten labels; for a line chart it gives the single fill colour. *)
Theorem generateColors_cycles (n : nat) chartType :
  chartType <> "line" ->
  exists colors,
    generateColors (JNum (num_of_Z (Z.of_nat n))) chartType = arr (JStr <$> colors)
    /\ length colors = n
    /\ (forall i, (i < n)%nat -> colors !! i = baseColors !! (i mod 10)%nat)
    /\ (forall i, (i + 10 < n)%nat -> colors !! (i + 10)%nat = colors !! i)
    /\ generateColors (JNum (num_of_Z (Z.of_nat n))) "line" = JStr "rgba(59, 130, 246, 0.2)".
Proof.
  intros Hl. apply String.eqb_neq in Hl.
  exists ((fun i => default "" (baseColors !! (i mod 10)%nat)) <$> seq 0 n).
  unfold generateColors. rewrite Hl. simpl ToNumber.
  rewrite num_of_Z_count, Nat2Z.id.
  assert (forall i, (i < n)%nat ->
            ((fun i => default "" (baseColors !! (i mod 10)%nat)) <$> seq 0 n) !! i =
            baseColors !! (i mod 10)%nat) as Hi.
  { intros i Hi. rewrite list_lookup_fmap, lookup_seq_lt by done. cbn [fmap option_fmap option_map Nat.add].
    assert (i mod 10 < length baseColors)%nat as Hm
      by (change (length baseColors) with 10%nat; apply Nat.mod_upper_bound; lia).
    apply lookup_lt_is_Some_2 in Hm as [c Hc]. by rewrite Hc. }
  split; [by rewrite <- list_fmap_compose|].
  split; [by rewrite length_fmap, length_seq|].
  split; [exact Hi|]. split; [|done].
  intros i Hlt. rewrite !Hi by lia. f_equal.
  replace (i + 10)%nat with (i + 1 * 10)%nat by lia. by rewrite Nat.Div0.mod_add.
Qed.

End ColourFacts.

(** ** The dashboard: what is exported *)

Section ColumnFacts.
Context `{JsNumber} `{!Dashboard.ChartJs}.
Import Dashboard.




End ColumnFacts.

Section ReaderFacts.
Context `{JsNumber} `{!Dashboard.ChartJs}.
Import Dashboard.

(** The text of a cell as the export writes it. *)
Lemma readFrom_quoted s rest cell record records :
  readFrom (Str.double_quotes s +:+ String Str.dquote rest) InQuotes cell record records =
  readFrom rest AfterQuote (cell +:+ s) record records.
Proof.
  revert cell. induction s as [|c s IH]; intros cell.
  - rewrite str_app_nil_l, str_app_nil_r. reflexivity.
  - cbn [Str.double_quotes]. destruct (Ascii.eqb c Str.dquote) eqn:Ec.
    + rewrite !str_app_cons. cbn [readFrom]. rewrite Ec. rewrite IH.
      by rewrite str_app_assoc.
    + rewrite !str_app_cons. cbn [readFrom]. rewrite Ec. rewrite IH.
      by rewrite str_app_assoc.
Qed.

Lemma csvValue_cellOf r col :
  csvValue r col = match cellOf r col with Some s => quoted s | None => "" end.
Proof. rewrite csvValue_cellText. unfold cellOf. by destruct (isNullish _). Qed.

(** A record of the export: its cells joined by commas. *)
Lemma readFrom_record (cs : list (option string)) rest record records :
  cs <> [] ->
  readFrom
    (Str.join "," ((fun c => match c with Some s => quoted s | None => "" end) <$> cs)
     +:+ String "010" rest) AtCell "" record records =
  readFrom rest AtCell "" [] (rev (rev cs ++ record) :: records).
Proof.
  intros Hcs. revert record.
  induction cs as [|c cs IH]; [done|]. intros record.
  destruct cs as [|c' cs].
  - rewrite fmap_cons. cbn [fmap list_fmap Str.join String.concat rev app].
    destruct c as [s|].
    + unfold quoted. rewrite !str_app_cons. cbn [readFrom]. rewrite Ascii.eqb_refl.
      rewrite str_app_assoc, str_app_cons, str_app_nil_l, readFrom_quoted.
      cbn [readFrom]. by rewrite str_app_nil_l.
    + rewrite str_app_nil_l. reflexivity.
  - rewrite fmap_cons.
    change (Str.join "," (?a :: ?l)) with (a +:+ "," +:+ Str.join "," l) at 1.
    specialize (IH ltac:(done)).
    destruct c as [s|].
    + unfold quoted at 1. rewrite !str_app_cons. cbn [readFrom]. rewrite Ascii.eqb_refl.
      rewrite !str_app_assoc, !str_app_cons, !str_app_nil_l, readFrom_quoted.
      cbn [readFrom]. rewrite str_app_nil_l, IH. cbn [rev]. by rewrite <- !app_assoc.
    + rewrite str_app_nil_l, !str_app_cons, str_app_nil_l. cbn [readFrom].
      rewrite IH. cbn [rev]. by rewrite <- !app_assoc.
Qed.

Lemma readFrom_records (ls : list (list (option string))) records :
  Forall (fun cs => cs <> []) ls ->
  readFrom
    (linesText
       ((fun cs =>
           Str.join "," ((fun c => match c with Some s => quoted s | None => "" end) <$> cs))
        <$> ls)) AtCell "" [] records =
  (rev records ++ ls)%list.
Proof.
  intros Hls. revert records. induction Hls as [|cs ls Hcs _ IH]; intros records.
  - simpl. by rewrite app_nil_r.
  - rewrite fmap_cons. cbn [linesText foldr]. unfold newline.
    rewrite str_app_cons, str_app_nil_l, (readFrom_record cs _ [] records Hcs).
    rewrite IH. cbn [rev]. by rewrite app_nil_r, rev_involutive, <- app_assoc.
Qed.

Lemma readCsv_csvText first rows :
  first <> [] ->
  readCsv (csvText first rows) =
    (Some <$> columnsOf first) :: (cellsOf first <$> rows).
Proof.
  intros Hf. unfold readCsv. rewrite csvText_lines.
  assert (columnsOf first <> []) as Hc by (by destruct first).
  set (enc := fun c : option string => match c with Some s => quoted s | None => "" end).
  assert (headerLine first = Str.join "," (enc <$> (Some <$> columnsOf first))) as ->.
  { unfold headerLine. by rewrite <- list_fmap_compose. }
  assert (forall r, rowLine first r = Str.join "," (enc <$> cellsOf first r)) as Hr.
  { intros r. unfold rowLine, cellsOf. rewrite <- list_fmap_compose. f_equal.
    apply list_fmap_ext. intros _ col _. apply csvValue_cellOf. }
  assert (rowLine first <$> rows =
          (fun cs => Str.join "," (enc <$> cs)) <$> (cellsOf first <$> rows)) as ->.
  { rewrite <- list_fmap_compose. apply list_fmap_ext. intros _ r _. apply Hr. }
  rewrite <- (fmap_cons (fun cs => Str.join "," (enc <$> cs))).
  rewrite readFrom_records; [done|].
  constructor.
  - by destruct (columnsOf first).
  - apply Forall_fmap, Forall_forall. intros r _. simpl. unfold cellsOf.
    by destruct (columnsOf first).
Qed.


(** X12. The exported text can be read back: for a first row with at
    least one column, reading the text gives the column names and then, row
    by row, the cell of every column, an empty cell for [null] and
    [undefined] and the text of the value otherwise. So two datasets with
    the same first row export the same text only when they agree on every
    cell. *)
Theorem csv_read_back first rows :
  first <> [] ->
  readCsv (csvText first rows) =
    (Some <$> columnsOf first) :: (cellsOf first <$> rows)
  /\ forall rows',
       csvText first rows = csvText first rows' ->
       cellsOf first <$> rows = cellsOf first <$> rows'.
Proof.
  intros Hf. split; [by apply readCsv_csvText|].
  intros rows' Heq. apply (f_equal readCsv) in Heq.
  rewrite !readCsv_csvText in Heq by done. by injection Heq.
Qed.

End ReaderFacts.

(** ** The dashboard: submitting a query *)

Section QueryFacts.
Context `{JsNumber} `{!Dashboard.ChartJs}.
Import Dashboard.

Lemma untouched_bind {A B} (m : comp dashboard A) (f : A -> comp dashboard B) :
  (forall d, untouched d (state_of (m d))) ->
  (forall a d, untouched d (state_of (f a d))) ->
  forall d, untouched d (state_of ((m ≫= f) d)).
Proof.
  intros Hm Hf d. rewrite bind_run. specialize (Hm d).
  destruct (m d) as [d1 [a|]]; [|done].
  specialize (Hf a d1). unfold state_of, untouched in *; simpl in *.
  destruct Hm as [H1 H2], Hf as [H3 H4]. split; congruence.
Qed.

Lemma untouched_emit e d : untouched d (state_of (emit e d)).
Proof. done. Qed.

Lemma untouched_lift {A} (o : option A) d : untouched d (state_of (lift o d)).
Proof. by destruct o. Qed.

Lemma untouched_renderChart chartType chartData d :
  untouched d (state_of (renderChart chartType chartData d)).
Proof.
  revert d. unfold renderChart.
  apply untouched_bind; [done|]. intros current.
  apply untouched_bind; [by destruct current|]. intros _.
  destruct (String.eqb _ "table"); [done|].
  apply untouched_bind; [intros d; apply untouched_lift|]. intros [labels dataValues].
  apply untouched_bind; [intros d; apply untouched_lift|]. intros title.
  apply untouched_bind; [intros d; apply untouched_lift|]. intros count.
  apply untouched_bind; [done|]. intros _ d.
  by destruct (Chart_accepts _).
Qed.

(** The panels after [displayResults], and the export button, which is
    shown only when the display completes. *)
Lemma displayResults_panels r d :
  let res := displayResults r d in
  hidden (state_of res) "loadingState" = true
  /\ hidden (state_of res) "errorState" = true
  /\ hidden (state_of res) "resultsSection" = false
  /\ (completed res = false -> exportBtn (state_of res) = exportBtn d)
  /\ (completed res = true ->
      exportBtn (state_of res) =
        match exportBtn d with Some _ => Some false | None => None end).
Proof.
  intros res. remember (displayResults r d) as res0 eqn:E. subst res.
  unfold displayResults in E.
  do 2 (rewrite bind_run in E; unfold setHidden at 1, modify at 1 in E;
        cbn [fst snd] in E).
  rewrite bind_run in E; unfold emit at 1, modify at 1 in E; cbn [fst snd] in E.
  rewrite bind_run in E; unfold setHidden at 1, modify at 1 in E; cbn [fst snd] in E.
  do 2 (rewrite bind_run in E; unfold emit at 1, modify at 1 in E;
        cbn [fst snd] in E).
  set (d6 := set_events _ _) in E.
  assert (hidden d6 "loadingState" = true /\ hidden d6 "errorState" = true
          /\ hidden d6 "resultsSection" = false /\ exportBtn d6 = exportBtn d)
    as (H1 & H2 & H3 & H4) by done.
  clearbody d6. rewrite bind_run in E. unfold gets at 1 in E. cbn [fst snd] in E.
  rewrite bind_run in E.
  set (chart := if String.eqb _ "table" then _ else _) in E.
  assert (untouched d6 (state_of (chart d6))) as [Hh Hb].
  { subst chart. destruct (String.eqb _ "table").
    - by destruct (chartSection d6).
    - destruct (chartSection d6); [|done]. clear. revert d6.
      apply untouched_bind; [done|]. intros _.
      apply untouched_bind; [intros ?; apply untouched_lift|]. intros title.
      apply untouched_bind; [done|]. intros _ ?. apply untouched_renderChart. }
  destruct (chart d6) as [d7 [[]|]]; unfold state_of in *; cbn [fst snd] in *.
  - rewrite bind_run in E. unfold renderTable, emit at 1, modify at 1 in E.
    cbn [fst snd] in E.
    rewrite bind_run in E. unfold gets at 1 in E.
    cbn [fst snd exportBtn set_events] in E.
    rewrite Hb, H4 in E.
    destruct (exportBtn d); subst res0; unfold completed; simpl;
      rewrite ?Hh, ?Hb, ?H4; intuition congruence.
  - subst res0. unfold completed. simpl. rewrite ?Hh, ?Hb, ?H4. intuition congruence.
Qed.

Lemma showLoading_run d :
  exists d1,
    showLoading d = (d1, Normal tt)
    /\ hidden d1 "loadingState" = false
    /\ hidden d1 "resultsSection" = true
    /\ hidden d1 "errorState" = true
    /\ exportBtn d1 <> Some false
    /\ currentRawData d1 = currentRawData d.
Proof.
  destruct d as [cur raw sec btn hid evs]. unfold showLoading.
  cbv [mbind comp_mbind comp_bind setHidden emit modify gets mret comp_mret comp_ret].
  simpl. destruct btn, sec; simpl; eexists; (split; [reflexivity|]); done.
Qed.

Lemma showError_run message d :
  exists d1,
    showError message d = (d1, Normal tt)
    /\ hidden d1 "loadingState" = true
    /\ hidden d1 "resultsSection" = true
    /\ hidden d1 "errorState" = false
    /\ exportBtn d1 = exportBtn d
    /\ events d1 = (events d ++ [SetText "errorMessage" (JStr message)])%list.
Proof.
  destruct d as [cur raw sec btn hid evs]. unfold showError.
  cbv [mbind comp_mbind comp_bind setHidden emit modify gets mret comp_mret comp_ret].
  simpl. eexists. split; [reflexivity|]. done.
Qed.

(** X13. A query that is not blank is posted once, trimmed, with the
    loading panel shown. When the response is handled (any response but a
    401), the handler completes: the loading panel is hidden and exactly
    one of the results panel and the error panel is shown, the results only
    for an answer; the export button is visible only with the results. No
    alert is shown and the window stays on the page. *)
Theorem query_settles thrown rep c :
  Str.nonempty (Str.trim (queryInput c)) = true ->
  (forall data, rep <> Refused 401 data) ->
  let c1 := state_of (handleQuerySubmit c) in
  let res := settle thrown rep c1 in
  let c2 := state_of res in
  posted c1 = (posted c ++ [Str.trim (queryInput c)])%list
  /\ hidden (board c1) "loadingState" = false
  /\ completed res = true
  /\ hidden (board c2) "loadingState" = true
  /\ hidden (board c2) "errorState" = negb (hidden (board c2) "resultsSection")
  /\ (hidden (board c2) "resultsSection" = false -> exists r, rep = Answered r)
  /\ (exportBtn (board c2) = Some false -> hidden (board c2) "resultsSection" = false)
  /\ alerts c2 = alerts c /\ posted c2 = posted c1 /\ location c2 = location c.
Proof.
  intros Hq Hrep c1 res c2.
  destruct (showLoading_run (board c)) as (d1 & Hl & L1 & L2 & L3 & L4 & _).
  assert (c1 = Console d1 (queryInput c) (alerts c)
                 (posted c ++ [Str.trim (queryInput c)]) (location c)) as Hc1.
  { subst c1. unfold handleQuerySubmit. rewrite bind_run. unfold gets at 1.
    cbn [fst snd]. rewrite Hq. cbn [negb]. rewrite bind_run. unfold onBoard.
    rewrite Hl. reflexivity. }
  clearbody c1. subst c1. split; [done|]. split; [done|].
  assert (forall message,
            let out := onBoard (showError message)
                         (Console d1 (queryInput c) (alerts c)
                            (posted c ++ [Str.trim (queryInput c)]) (location c)) in
            completed out = true
            /\ hidden (board (state_of out)) "loadingState" = true
            /\ hidden (board (state_of out)) "resultsSection" = true
            /\ hidden (board (state_of out)) "errorState" = false
            /\ exportBtn (board (state_of out)) <> Some false
            /\ alerts (state_of out) = alerts c
            /\ posted (state_of out) = (posted c ++ [Str.trim (queryInput c)])%list
            /\ location (state_of out) = location c) as Hfail.
  { intros message out. subst out. unfold onBoard. cbn [board].
    destruct (showError_run message d1) as (d2 & -> & E1 & E2 & E3 & E4 & _).
    unfold completed, state_of. simpl. rewrite E4. done. }
  assert (forall out : console * outcome unit,
            completed out = true
            /\ hidden (board (state_of out)) "loadingState" = true
            /\ hidden (board (state_of out)) "resultsSection" = true
            /\ hidden (board (state_of out)) "errorState" = false
            /\ exportBtn (board (state_of out)) <> Some false
            /\ alerts (state_of out) = alerts c
            /\ posted (state_of out) = (posted c ++ [Str.trim (queryInput c)])%list
            /\ location (state_of out) = location c ->
            completed out = true
            /\ hidden (board (state_of out)) "loadingState" = true
            /\ hidden (board (state_of out)) "errorState" =
                 negb (hidden (board (state_of out)) "resultsSection")
            /\ (hidden (board (state_of out)) "resultsSection" = false ->
                 exists r, rep = Answered r)
            /\ (exportBtn (board (state_of out)) = Some false ->
                 hidden (board (state_of out)) "resultsSection" = false)
            /\ alerts (state_of out) = alerts c
            /\ posted (state_of out) = (posted c ++ [Str.trim (queryInput c)])%list
            /\ location (state_of out) = location c) as Hshape.
  { intros out (F1 & F2 & F3 & F4 & F5 & F6 & F7 & F8).
    rewrite F3, F4. repeat split; first [done | congruence]. }
  subst c2 res. destruct rep as [status errorData|r|].
  - cbn [settle]. assert ((status =? 401)%Z = false) as ->.
    { apply Z.eqb_neq. intros ->. by apply (Hrep errorData). }
    destruct errorData as [data|]; apply Hshape, Hfail.
  - set (d' := set_currentRawData (default [] (raw_data r)) d1).
    pose proof (displayResults_panels r d') as (P1 & P2 & P3 & P4 & P5).
    assert (exportBtn d' = exportBtn d1) as Hb by done.
    set (c' := fun d => Console d (queryInput c) (alerts c)
                          (posted c ++ [Str.trim (queryInput c)]) (location c)).
    change (Console d1 (queryInput c) (alerts c)
              (posted c ++ [Str.trim (queryInput c)]) (location c)) with (c' d1) in *.
    assert (settle thrown (Answered r) (c' d1) =
              match displayResults r d' with
              | (d2, Normal a) => (c' d2, Normal a)
              | (d2, TypeError) =>
                  onBoard (showError ("Failed to process query: " +:+ thrown)) (c' d2)
              end) as ->.
    { unfold settle, catch, onBoard at 1. cbn [board c']. rewrite bind_run.
      unfold modify at 1. fold d'. by destruct (displayResults r d') as [d2 [[]|]]. }
    clearbody d'.
    destruct (displayResults r d') as [d2 [[]|]] eqn:Ed;
      unfold state_of, completed in P1, P2, P3, P4, P5; cbn [fst snd] in *.
    + unfold completed, state_of. cbn [fst snd board alerts posted location c'].
      rewrite P1, P2, P3. repeat split; try done. by exists r.
    + specialize (P4 eq_refl).
      destruct (showError_run ("Failed to process query: " +:+ thrown) d2)
        as (d3 & Hs & E1 & E2 & E3 & E4 & _).
      unfold onBoard. cbn [board c']. rewrite Hs.
      unfold completed, state_of. cbn [fst snd board alerts posted location].
      rewrite E1, E2, E3, E4, P4, Hb. repeat split; try done.
  - cbn [settle]. apply Hshape, Hfail.
Qed.

(** A blank query is not sent: the user is alerted and nothing else
    changes. *)
Lemma query_not_sent c :
  Str.nonempty (Str.trim (queryInput c)) = false ->
  handleQuerySubmit c =
    (Console (board c) (queryInput c) (alerts c ++ ["Please enter a query"])
       (posted c) (location c), Normal tt).
Proof.
  intros Hq. unfold handleQuerySubmit. rewrite bind_run. unfold gets at 1.
  cbn [fst snd]. by rewrite Hq.
Qed.

End QueryFacts.

(** ** The session *)

Section SessionFacts.
Context `{JsNumber}.
Import Session.

(** X14. A token stored with [setToken] is read back by [getToken] when
    it is truthy and its text is neither blank nor [null] nor [undefined];
    otherwise [getToken] gives none. [setToken] touches no other item. *)
Theorem token_round_trip (token : jsval) (st : storage) :
  getToken (setToken token st) =
    (if truthy token
        && negb (String.eqb (ToString token) "null")
        && negb (String.eqb (ToString token) "undefined")
        && Str.nonempty (Str.trim (ToString token))
     then Some (ToString token) else None)
  /\ (forall k, k <> "access_token" -> setToken token st !! k = st !! k).
Proof.
  split.
  - unfold getToken, setToken. destruct (truthy token) eqn:Ht.
    + rewrite lookup_insert_eq. simpl.
      destruct (Str.nonempty (ToString token)) eqn:Hn; simpl.
      * destruct (String.eqb (ToString token) "null"); [done|].
        destruct (String.eqb (ToString token) "undefined"); [done|]. simpl.
        by destruct (Str.trim (ToString token)).
      * destruct (ToString token); [|done]. done.
    + by rewrite lookup_delete_eq.
  - intros k Hk. unfold setToken. destruct (truthy token).
    + by rewrite lookup_insert_ne.
    + by rewrite lookup_delete_ne.
Qed.

(** X15. [removeToken] removes the token and the user and nothing else;
    a 401 answer to [apiCall] does that and sends the window to the login
    page, returning no response, while any other status changes nothing; a
    confirmed logout empties the storage and a declined one does nothing. *)
Theorem session_ends (b : tab) status :
  let out := store (fst (apiSettled 401 b)) in
  getToken (removeToken (store b)) = None
  /\ removeToken (store b) !! "user" = None
  /\ (forall k, k <> "access_token" -> k <> "user" ->
        removeToken (store b) !! k = store b !! k)
  /\ isLoggedIn out = false /\ out !! "user" = None
  /\ apiSettled 401 b = (Tab (removeToken (store b)) "/auth/login", false)
  /\ (status <> 401%Z -> apiSettled status b = (b, true))
  /\ (forall k, store (logout true b) !! k = None)
  /\ href (logout true b) = "/"
  /\ logout false b = b.
Proof.
  assert (getToken (removeToken (store b)) = None) as Hg.
  { unfold getToken, removeToken.
    by rewrite lookup_delete_ne, lookup_delete_eq. }
  assert (removeToken (store b) !! "user" = None) as Hu.
  { unfold removeToken. by rewrite lookup_delete_eq. }
  simpl. split; [done|]. split; [done|]. split.
  { intros k H1 H2. unfold removeToken. by rewrite !lookup_delete_ne. }
  split; [unfold isLoggedIn; by rewrite Hg|]. split; [done|]. split; [done|].
  split.
  { intros Hs. unfold apiSettled. by destruct (Z.eqb_spec status 401). }
  split; [|done]. intros k. apply lookup_empty.
Qed.

(** X16. The request of [apiCall] carries the bearer token as its
    authorization whenever [getToken] gives one, whatever the caller passed;
    without a token it carries the caller's authorization, if any. The
    caller's content type wins over the default, and every other header
    and option is passed on. *)
Theorem apiCall_authorization API_URL endpoint (o : options) (st : storage) :
  let hs := headers (init (apiCall API_URL endpoint o st)) in
  hs !! "Authorization" =
    match getToken st with
    | Some t => Some ("Bearer " +:+ t)
    | None => headers o !! "Authorization"
    end
  /\ hs !! "Content-Type" =
       Some (default "application/json" (headers o !! "Content-Type"))
  /\ (forall k, k <> "Authorization" -> k <> "Content-Type" ->
        hs !! k = headers o !! k)
  /\ others (init (apiCall API_URL endpoint o st)) = others o
  /\ url (apiCall API_URL endpoint o st) = API_URL +:+ endpoint.
Proof.
  unfold apiCall. simpl.
  assert (forall k, (headers o ∪ {["Content-Type" := "application/json"]}) !! k =
            match headers o !! k with
            | Some v => Some v
            | None => if decide (k = "Content-Type") then Some "application/json" else None
            end) as Hu.
  { intros k. destruct (headers o !! k) as [v|] eqn:E.
    - by apply lookup_union_Some_l.
    - rewrite lookup_union_r by done.
      destruct (decide (k = "Content-Type")) as [->|Hk].
      + by rewrite lookup_singleton_eq.
      + by rewrite lookup_singleton_ne. }
  destruct (getToken st) as [t|]; simpl.
  - split; [by rewrite lookup_insert_eq|].
    split.
    { rewrite lookup_insert_ne by done. rewrite Hu.
      by destruct (headers o !! "Content-Type"). }
    split; [|done]. intros k H1 H2. rewrite lookup_insert_ne by done.
    rewrite Hu. destruct (headers o !! k); [done|]. by rewrite decide_False.
  - split.
    { rewrite Hu. by destruct (headers o !! "Authorization"). }
    split.
    { rewrite Hu. by destruct (headers o !! "Content-Type"). }
    split; [|done]. intros k H1 H2.
    rewrite Hu. destruct (headers o !! k); [done|]. by rewrite decide_False.
Qed.

End SessionFacts.

(** ** Job cards and notification times *)

Section CardFacts.
Context `{JsNumber} `{!JsOrder}.

Lemma length_app_str (a b : string) :
  String.length (a +:+ b) = (String.length a + String.length b)%nat.
Proof. induction a as [|c a IH]; [done|]. rewrite str_app_cons. simpl. by rewrite IH. Qed.

Lemma length_substring0 n s :
  (n <= String.length s)%nat -> String.length (String.substring 0 n s) = n.
Proof.
  revert s. induction n as [|n IH]; intros s Hn.
  - by destruct s.
  - destruct s as [|c s]; simpl in *; [lia|]. rewrite IH; lia.
Qed.

(** The part kept by a truncation is the beginning of the text. *)
Lemma substring0_prefix n s :
  exists rest, s = String.substring 0 n s +:+ rest.
Proof.
  revert s. induction n as [|n IH]; intros s.
  - exists s. by destruct s.
  - destruct s as [|c s]; [by exists ""|]. simpl.
    destruct (IH s) as [rest Hr]. exists rest. by rewrite str_app_cons, <- Hr.
Qed.

(** X17. [truncateText] on a string returns it unchanged when it is not
    longer than [maxLength], and otherwise its first [maxLength] characters
    followed by three dots: the result is never longer than [maxLength + 3].
    A falsy text gives the empty string. *)
Theorem truncateText_bounds s (maxLength : Z) :
  (0 <= maxLength)%Z ->
  exists r,
    Jobs.truncateText (JStr s) maxLength = Some (JStr r)
    /\ (String.length r <= Z.to_nat maxLength + 3)%nat
    /\ ((Z.of_nat (String.length s) <= maxLength)%Z -> r = s)
    /\ ((maxLength < Z.of_nat (String.length s))%Z ->
        r = String.substring 0 (Z.to_nat maxLength) s +:+ "..."
        /\ String.length r = (Z.to_nat maxLength + 3)%nat
        /\ exists rest, s = String.substring 0 (Z.to_nat maxLength) s +:+ rest)
    /\ (forall v, truthy v = false -> Jobs.truncateText v maxLength = Some (JStr "")).
Proof.
  intros Hm. unfold Jobs.truncateText.
  destruct s as [|c s].
  - exists "". simpl. split; [done|]. split; [lia|]. split; [done|].
    split; [simpl; lia|]. by intros v ->.
  - change (get_prop (JStr (String c s)) "length")
      with (Some (JNum (num_of_Z (Z.of_nat (String.length (String c s)))))).
    cbn [truthy Str.nonempty negb mbind option_bind ToNumber].
    rewrite num_leb_of_Z.
    destruct (Z.leb_spec (Z.of_nat (String.length (String c s))) maxLength) as [Hle|Hlt].
    + exists (String c s). split; [done|]. split; [lia|]. split; [done|].
      split; [lia|]. by intros v ->.
    + eexists. split; [reflexivity|].
      assert (String.length
                (String.substring 0 (Z.to_nat maxLength) (String c s) +:+ "...") =
              (Z.to_nat maxLength + 3)%nat) as Hlen.
      { rewrite length_app_str, length_substring0 by lia. done. }
      split; [lia|]. split; [lia|].
      split; [|by intros v ->]. intros _. split; [done|]. split; [done|].
      apply substring0_prefix.
Qed.

End CardFacts.

Section TimeFacts.

(** X18. [formatTime] in terms of the age in milliseconds: below one
    minute (also for a date in the future) "Just now"; below one hour the
    whole minutes, from 1 to 59; below one day the whole hours, from 1 to
    23; below seven days the whole days, from 1 to 6; from then on, and for
    a text that is no date, the locale date. *)
Theorem formatTime_thresholds (now date : Z) localeDate :
  let diff := (now - date)%Z in
  Notifications.formatTime now (Some date) localeDate =
    (if (diff <? 60000)%Z then "Just now"
     else if (diff <? 3600000)%Z then Str.of_Z (diff / 60000) +:+ "m ago"
     else if (diff <? 86400000)%Z then Str.of_Z (diff / 3600000) +:+ "h ago"
     else if (diff <? 604800000)%Z then Str.of_Z (diff / 86400000) +:+ "d ago"
     else localeDate)
  /\ ((60000 <= diff < 3600000)%Z -> (1 <= diff / 60000 < 60)%Z)
  /\ ((3600000 <= diff < 86400000)%Z -> (1 <= diff / 3600000 < 24)%Z)
  /\ ((86400000 <= diff < 604800000)%Z -> (1 <= diff / 86400000 < 7)%Z)
  /\ Notifications.formatTime now None localeDate = localeDate.
Proof.
  intros diff. split; [|repeat split; intros; try done;
    Z.to_euclidean_division_equations; lia].
  unfold Notifications.formatTime. fold diff.
  assert (diff / 60000 / 60 = diff / 3600000)%Z as Hh
    by (rewrite Z.div_div by lia; done).
  assert (diff / 60000 / 60 / 24 = diff / 86400000)%Z as Hd
    by (rewrite !Z.div_div by lia; done).
  rewrite Hd, Hh.
  destruct (Z.ltb_spec diff 60000), (Z.ltb_spec (diff / 60000) 1);
    try (Z.to_euclidean_division_equations; lia); [done|].
  destruct (Z.ltb_spec diff 3600000), (Z.ltb_spec (diff / 60000) 60);
    try (Z.to_euclidean_division_equations; lia); [done|].
  destruct (Z.ltb_spec diff 86400000), (Z.ltb_spec (diff / 3600000) 24);
    try (Z.to_euclidean_division_equations; lia); [done|].
  destruct (Z.ltb_spec diff 604800000), (Z.ltb_spec (diff / 86400000) 7);
    try (Z.to_euclidean_division_equations; lia); done.
Qed.

End TimeFacts.

(** ** The pages at work *)

Import Demo.

(** *** Sanitization *)

Example sanitize_legacy_draft :
  sanitizeProfileData loaded =
    (set_profileData
       (JObj [("full_name", JStr "Asha");
              ("education", arr []);
              ("skills", arr [JObj [("name", JStr "Rocq")]; JObj [("name", JStr "OCaml")]]);
              ("projects",
                 arr [JObj [("title", JStr "Portal");
                            ("tech_stack", arr [JStr "js"; JStr "css"])]]);
              ("preferences",
                 JObj [("preferred_roles", JStr "SDE");
                       ("employment_type", arr []); ("work_mode", arr [])]);
              ("links", JObj [("github", JStr "https://github.com/asha")]);
              ("experience", arr []); ("certifications", arr [])])
       loaded,
     Normal tt).
Proof. reflexivity. Qed.

(** A project that is [null] makes the traversal throw; the projects before
    it stay repaired. *)
Example sanitize_null_project :
  let p := set_profileData
             (JObj [("projects", arr [JObj [("tech_stack", JStr "js")]; JNull])]) page0 in
  completed (sanitizeProfileData p) = false
  /\ draftField "projects" (state_of (sanitizeProfileData p)) =
       arr [JObj [("tech_stack", arr [JStr "js"])]; JNull].
Proof. split; reflexivity. Qed.

Lemma sanitize_keeps_partial_records :
  let p' := state_of (sanitizeProfileData loaded) in
  forallb (fun k => hasKey k (draftField "preferences" p')) preferencesKeys = false
  /\ forallb (fun k => hasKey k (draftField "links" p')) linksKeys = false
  /\ hasKey "notice_period" (draftField "preferences" p') = false
  /\ hasKey "linkedin" (draftField "links" p') = false.
Proof. repeat split; reflexivity. Qed.

Lemma sanitize_subrecords_witness :
  exists fs',
    profileData (state_of (sanitizeProfileData loaded)) = JObj fs'
    /\ lookup_field "links" fs' = JObj [("github", JStr "https://github.com/asha")]
    /\ lookup_field "preferred_roles" (named (lookup_field "preferences" fs')) = JStr "SDE"
    /\ lookup_field "employment_type" (named (lookup_field "preferences" fs')) = arr []
    /\ hasKey "notice_period" (lookup_field "preferences" fs') = false.
Proof.
  destruct (sanitize_subrecords loaded _ eq_refl)
    as (fs' & Hd & _ & _ & _ & _ & _ & _ & Hp & Hl).
  destruct (Hp eq_refl) as (Hk & Hlist & _ & _).
  exists fs'. split; [exact Hd|]. split; [|split; [|split]].
  - apply Hl. reflexivity.
  - apply (Hk "preferred_roles"); discriminate.
  - exact (Hlist "employment_type" (or_introl eq_refl)).
  - apply (Hk "notice_period"); discriminate.
Defined.

Lemma sanitize_idempotent_witness :
  get_prop (profileData (state_of (sanitizeProfileData loaded))) "skills" =
    Some (arr [JObj [("name", JStr "Rocq")]; JObj [("name", JStr "OCaml")]]).
Proof.
  apply (proj2 (proj2 (sanitize_idempotent loaded))); reflexivity.
Defined.

(** *** The wizard *)

(** The end-to-end example of the specification: with no education entry,
    [nextStep] on step 2 is blocked with a warning; with one entry it
    advances to step 3. *)
Example next_from_education_step :
  let p2 := set_currentStep 2 typed in
  let blocked := state_of (nextStep p2) in
  let added := set_profileData
                 (JObj [("education", arr [JObj [("level", JStr "UG")]]);
                        ("skills", arr [])]) p2 in
  currentStep blocked = 2%Z
  /\ profileData blocked = profileData p2
  /\ events blocked = [Notify "Please add at least one education entry" "warning"]
  /\ currentStep (state_of (nextStep added)) = 3%Z.
Proof. repeat split; reflexivity. Qed.

Lemma wizard_step_bounds_witness :
  (1 <= currentStep (state_of (nextStep typed)) <= totalSteps)%Z
  /\ currentStep (state_of (nextStep typed)) = 2%Z
  /\ currentStep (state_of (nextStep (set_currentStep 2 typed))) = 2%Z
  /\ currentStep (state_of (prevStep (set_currentStep 2 typed))) = 1%Z
  /\ currentStep (state_of (prevStep typed)) = 1%Z.
Proof.
  pose proof (wizard_step_bounds typed) as (Hb & _ & _ & Hadv & _ & Hstay & _).
  pose proof (wizard_step_bounds (set_currentStep 2 typed))
    as (_ & _ & Hblock & _ & Hback & _).
  split; [apply Hb; split; discriminate|].
  split; [apply Hadv; [reflexivity|discriminate|discriminate|reflexivity]|].
  split; [apply Hblock; reflexivity|].
  split; [apply Hback; reflexivity|].
  apply Hstay. discriminate.
Defined.

(** *** The editors *)

Example save_skill_example :
  saveEntry Skills typed =
    (set_events [SetInnerHTML "skillsList"; Notify "Skill saved" "success"]
       (set_hidden (fun id => if String.eqb id "skillModal" then true else hidden typed id)
          (set_profileData
             (JObj (update_field "skills"
                      (arr [JObj [("name", JStr "Rocq"); ("proficiency", JStr "Advanced");
                                  ("category", JNull)]])
                      (named initialProfileData)))
             typed)),
     Normal tt).
Proof. reflexivity. Qed.

Example save_project_example :
  collection "projects" (state_of (saveEntry Projects typed)) =
    Some [JObj [("title", JStr "Portal"); ("description", JStr "Student portal");
                ("tech_stack", arr [JStr "js"; JStr "css"]);
                ("link", JNull); ("github_link", JNull);
                ("start_date", JNull); ("end_date", JNull)]].
Proof. reflexivity. Qed.

Lemma save_appends_or_replaces_witness :
  collection "skills" (state_of (saveEntry Skills typed)) =
    Some [submitted Skills typed]
  /\ exists items',
       collection "skills"
         (state_of (saveEntry Skills
            (set_editingSkill 1 (typing values (fun _ => false) loaded)))) =
         Some items'
       /\ length items' = 2%nat
       /\ items' !! 1%nat = Some (submitted Skills typed)
       /\ items' !! 0%nat = Some (JObj [("name", JStr "Rocq")]).
Proof.
  split.
  - apply (proj1 (save_appends_or_replaces Skills typed [] [] eq_refl eq_refl)).
    reflexivity.
  - destruct (proj2 (save_appends_or_replaces Skills
                       (set_editingSkill 1 (typing values (fun _ => false) loaded))
                       _ _ eq_refl eq_refl) 1%nat eq_refl ltac:(simpl; lia))
      as (items' & Hc & Hlen & Hi & Ho).
    exists items'. split; [exact Hc|]. split; [exact Hlen|]. split; [exact Hi|].
    rewrite Ho by discriminate. reflexivity.
Defined.

(** A project without a technology tag: nothing is appended. *)
Lemma save_project_not_appended :
  sentinel Projects page0 = (-1)%Z
  /\ collection "projects" page0 = Some []
  /\ collection "projects" (state_of (saveEntry Projects page0)) = Some []
  /\ collection "projects" (state_of (saveEntry Projects page0)) <>
       Some ([] ++ [submitted Projects page0])%list.
Proof. repeat split; try reflexivity. discriminate. Qed.

Lemma project_without_tags_rejected_witness :
  state_of (saveProjectEntry page0) =
    set_events [Notify "Please add at least one technology in Tech Stack" "warning"] page0.
Proof.
  pose proof (project_without_tags_rejected page0 eq_refl) as (Hs & _).
  unfold state_of. rewrite Hs. reflexivity.
Defined.

Lemma delete_removes_one_witness :
  exists items',
    collection "skills" (state_of (deleteEntry Skills 0 true loaded)) = Some items'
    /\ length items' = 1%nat
    /\ items' !! 0%nat = Some (JObj [("name", JStr "OCaml")]).
Proof.
  destruct (proj1 (delete_removes_one Skills loaded _ _ 0%nat eq_refl ltac:(simpl; lia)))
    as (items' & Hc & Hlen & _ & Hafter).
  exists items'. split; [exact Hc|]. split; [exact Hlen|].
  apply (Hafter 1%nat). lia.
Defined.

Example delete_skill_example :
  collection "skills" (state_of (deleteSkill 0 true loaded)) =
    Some [JObj [("name", JStr "OCaml")]]
  /\ deleteSkill 0 false loaded = (loaded, Normal tt).
Proof. split; reflexivity. Qed.

(** Opening the project form and saving at once: the form was reset, no tag
    is there, nothing is appended. *)
Lemma save_after_open_not_appended :
  let q := state_of (openForm Projects typed) in
  sentinel Projects q = (-1)%Z
  /\ collection "projects" (state_of (saveEntry Projects q)) = Some []
  /\ collection "projects" (state_of (saveEntry Projects q)) <>
       Some ([] ++ [submitted Projects q])%list.
Proof. repeat split; try reflexivity. discriminate. Qed.

Lemma sentinel_reset_witness :
  sentinel Skills (state_of (openForm Skills (set_editingSkill 1 loaded))) = (-1)%Z
  /\ exists items',
       collection "skills"
         (state_of (saveEntry Skills
            (typing values (fun _ => false)
               (state_of (openForm Skills (set_editingSkill 1 loaded)))))) = Some items'
       /\ items' = [JObj [("name", JStr "Rocq")]; JObj [("name", JStr "OCaml")];
                    submitted Skills typed].
Proof.
  pose proof (sentinel_reset Skills (set_editingSkill 1 loaded)) as (Ho & _ & Hsave).
  split; [exact Ho|].
  destruct (Hsave _ _ values (fun _ => false) _ eq_refl (or_introl eq_refl))
    as (items' & Hc & _ & Hi).
  exists items'. split; [exact Hc|exact Hi].
Defined.

(** *** The jobs browser *)

Example next_page_request :
  Jobs.requests (Jobs.nextPage browser1) =
    ["/api/v1/jobs/list?page=2&limit=20&job_type=internship&location=Pune"].
Proof. reflexivity. Qed.

Lemma previous_page_on_first_page :
  Jobs.previousPage browser1 = browser1
  /\ length (Jobs.requests (Jobs.previousPage browser1)) <>
       S (length (Jobs.requests browser1)).
Proof. split; [reflexivity|discriminate]. Qed.

Lemma page_navigation_witness :
  (1 <= Jobs.currentPage (Jobs.previousPage browser3))%Z
  /\ Jobs.requests (Jobs.previousPage browser3) =
       ["/api/v1/jobs/list?page=2&limit=20&job_type=internship&location=Pune"]
  /\ Jobs.previousPage browser1 = browser1.
Proof.
  pose proof (page_navigation browser3) as (Hb & _ & _ & _ & Hp & _).
  pose proof (page_navigation browser1) as (_ & _ & _ & _ & _ & Hs).
  split; [apply Hb; discriminate|].
  split; [apply Hp; reflexivity|].
  apply Hs. discriminate.
Defined.

(** *** The dashboard *)

Import Dashboard.

(** The end-to-end example of the specification: a pie chart of two slices
    and a table of two rows. *)
Example pie_chart_example :
  let d' := state_of (displayResults (Demo.response "pie" [3; 7]%Z) board0) in
  (fun c => (type c, seriesLength (labels c),
             (fun ds => (seriesLength (data ds), seriesLength (backgroundColor ds)))
               <$> datasets c)) <$> newCharts (events d')
    = [("pie", Some 2%nat, [(Some 2%nat, Some 2%nat)])]
  /\ (type <$> currentChart d') = Some "pie"
  /\ chartSection d' = Some false
  /\ In (RenderTable (Some rows2)) (events d').
Proof. repeat split; try reflexivity. simpl. tauto. Qed.

Example table_only_example :
  let d' := state_of (displayResults (Demo.response "TABLE" [3; 7]%Z) board0) in
  newCharts (events d') = [] /\ chartSection d' = Some true
  /\ In (RenderTable (Some rows2)) (events d').
Proof. repeat split; try reflexivity. simpl. tauto. Qed.

(** A chart type the dashboard does not know gives a bar chart. *)
Example unknown_type_example :
  type <$> newCharts (events (state_of
             (displayResults (Demo.response "scatter" [3; 7]%Z) board0)))
  = ["bar"].
Proof. reflexivity. Qed.

(** Two labels and one value: the dataset of the chart has one element. *)
Lemma chart_dataset_not_as_long_as_labels :
  let d' := state_of (displayResults (Demo.response "bar" [3]%Z) board0) in
  (fun c => (type c, seriesLength (labels c),
             (fun ds => seriesLength (data ds)) <$> datasets c))
    <$> newCharts (events d')
  = [("bar", Some 2%nat, [Some 1%nat])].
Proof. reflexivity. Qed.

(** The recognized type [polarArea] is compared in lower case with a list
    that spells it with a capital: the chart requested is a bar chart. *)
Lemma polarArea_falls_back_to_bar :
  type <$> newCharts (events (state_of
             (displayResults (Demo.response "polarArea" [3; 7]%Z) board0)))
  = ["bar"].
Proof. reflexivity. Qed.

Lemma display_policy_witness :
  exists cfg ds,
    newCharts (events (state_of (displayResults (Demo.response "radar" [3; 7]%Z) board0)))
      = [cfg]
    /\ type cfg = "radar"
    /\ datasets cfg = [ds]
    /\ data ds = arr [JNum (Some 3%Z); JNum (Some 7%Z)].
Proof.
  destruct (proj2 (display_policy (Demo.response "radar" [3; 7]%Z) board0)
              ltac:(discriminate) ltac:(by eexists) eq_refl)
    as (cfg & ds & _ & Hn & Ht & _ & Hd & Hs & _).
  exists cfg, ds. split; [exact Hn|]. split; [apply Ht; simpl; tauto|].
  split; [exact Hd|]. by injection Hs as _ <-.
Defined.

Example csv_example :
  let q := String Str.dquote "" in
  exportToCSV "2026-01-02T03:04:05.000Z" board2 =
    Download "analytics_export_2026-01-02.csv"
      (linesText
         [q +:+ "branch" +:+ q +:+ "," +:+ q +:+ "count" +:+ q;
          q +:+ "CSE" +:+ q +:+ "," +:+ q +:+ "3" +:+ q;
          q +:+ "ECE" +:+ q +:+ "," +:+ q +:+ "7" +:+ q]).
Proof. reflexivity. Qed.

(** One row whose value holds a line feed: the text has three line feeds,
    not two. *)
Lemma csv_value_with_line_feed :
  exists filename text,
    exportToCSV "2026-01-02T03:04:05.000Z" board1 = Download filename text
    /\ length (currentRawData board1) = 1%nat
    /\ lineFeeds text = 3%nat.
Proof. eexists _, _. repeat split; reflexivity. Qed.

Lemma csv_export_witness :
  exists filename text,
    exportToCSV "2026-01-02T03:04:05.000Z" board2 = Download filename text
    /\ lineFeeds text = 3%nat.
Proof.
  destruct (csv_export "2026-01-02T03:04:05.000Z" board2 _ _ eq_refl)
    as (filename & text & He & _ & _ & _ & _ & Hl).
  exists filename, text. split; [exact He|]. apply Hl. reflexivity.
Defined.

(** *** Further properties at work *)

Lemma sanitize_repairs_projects_witness :
  exists items',
    Profile.draftField "projects" (state_of (Profile.sanitizeProfileData loaded)) =
      arr items'
    /\ length items' = 1%nat.
Proof.
  destruct (sanitize_repairs_projects loaded
              [JObj [("title", JStr "Portal"); ("tech_stack", JStr "js, css")]] []
              eq_refl eq_refl eq_refl)
    as (items' & _ & Hd & Hl & _).
  exists items'. split; [exact Hd|exact Hl].
Defined.



Lemma edit_missing_entry_witness :
  Profile.editEntry Skills 5 loaded = (Profile.set_sentinel Skills 5 loaded, TypeError).
Proof.
  apply (edit_missing_entry Skills loaded
           [JObj [("name", JStr "Rocq")]; JObj [("name", JStr "OCaml")]] [] 5);
    reflexivity.
Defined.

Lemma edit_save_unchanged_witness :
  Profile.collection "skills"
    (state_of (Profile.saveEntry Skills (state_of (Profile.editEntry Skills 0 saved)))) =
  Some [Profile.submitted Skills typed].
Proof.
  apply (edit_save_unchanged Skills saved typed [Profile.submitted Skills typed] [] 0).
  - intros name text. reflexivity.
  - discriminate.
  - reflexivity.
  - reflexivity.
  - reflexivity.
Defined.

Lemma saveProfile_collects_witness :
  keys
    (Profile.draftField "preferences"
       (state_of (Profile.saveProfile false JNull None ["Full-time"] [] typed))) =
  Profile.preferencesKeys.
Proof.
  destruct (saveProfile_collects false JNull None ["Full-time"] [] typed eq_refl)
    as (sub & _ & _ & _ & _ & _ & Hk & _).
  exact Hk.
Defined.

Lemma generateColors_cycles_witness :
  exists colors,
    generateColors (JNum (num_of_Z (Z.of_nat 12))) "bar" = arr (JStr <$> colors)
    /\ length colors = 12%nat
    /\ colors !! 10%nat = colors !! 0%nat.
Proof.
  destruct (generateColors_cycles 12 "bar") as (colors & Hg & Hl & _ & Hc & _).
  - discriminate.
  - exists colors. split; [exact Hg|]. split; [exact Hl|]. apply (Hc 0%nat). lia.
Defined.


Lemma csv_read_back_witness :
  readCsv (csvText firstRow rows2) =
  [[Some "branch"; Some "count"]; [Some "CSE"; Some "3"]; [Some "ECE"; Some "7"]].
Proof.
  apply (csv_read_back firstRow rows2). discriminate.
Defined.

Lemma query_settles_witness :
  Dashboard.hidden
    (board (state_of (settle "Unexpected end of JSON input" Unreadable
                        (state_of (handleQuerySubmit console0))))) "errorState" = false.
Proof.
  destruct (query_settles "Unexpected end of JSON input" Unreadable console0)
    as (_ & _ & _ & _ & He & Hr & _).
  - reflexivity.
  - discriminate.
  - rewrite He. destruct (Dashboard.hidden _ "resultsSection") eqn:E; [reflexivity|].
    destruct (Hr eq_refl) as [r Hrep]. discriminate Hrep.
Defined.

Lemma truncateText_bounds_witness :
  exists r,
    Jobs.truncateText (JStr "abcdef") 3 = Some (JStr r)
    /\ (String.length r <= 6)%nat.
Proof.
  destruct (truncateText_bounds "abcdef" 3) as (r & Hr & Hl & _).
  - lia.
  - exists r. split; [exact Hr|exact Hl].
Defined.
